(** * Frontend/server.py: a static file server on http.server

    The script configures two constants, subclasses
    [http.server.SimpleHTTPRequestHandler] to fix the served directory and
    to print log lines on standard output, and runs a
    [socketserver.TCPServer] until interrupted.

    The embedding follows the script line by line.  The methods of the
    base classes that the script inherits and calls (CPython 3.11,
    [http/server.py], [socketserver.py], [posixpath.py]) are embedded next
    to it, under their own names.  Text is modelled as [string] (one
    character per byte, as the request line is decoded from iso-8859-1).
    Library functions that only produce presentation text (URL unquoting,
    MIME guessing, date formatting, HTML rendering) are fields of a record
    [Library]; the operating system is a record [OS], whose calls return or
    fail with an exception.  Requests are taken as [parse_request] leaves
    them; writing to the output streams and to a connection succeeds; an
    interrupt is delivered to the serve loop between two connections, or
    is raised by a call of the operating system inside a handler. *)

From Stdlib Require Import String Ascii List ZArith Lia Bool.
From Stdlib Require Import DecimalString.
Import ListNotations.
Local Open Scope string_scope.

(** ** Python [str] methods used by the code *)

Module PyStr.

Definition sep : ascii := "/"%char.

(** [s.startswith(p)] *)
Fixpoint startswith (s p : string) {struct p} : bool :=
  match p with
  | EmptyString => true
  | String b p' =>
      match s with
      | EmptyString => false
      | String a s' => Ascii.eqb a b && startswith s' p'
      end
  end.

(** last character of [s], if any *)
Fixpoint last_char (s : string) : option ascii :=
  match s with
  | EmptyString => None
  | String a EmptyString => Some a
  | String _ s' => last_char s'
  end.

(** [s.endswith(c)] for a one-character string [c] *)
Definition endswith_char (s : string) (c : ascii) : bool :=
  match last_char s with
  | Some a => Ascii.eqb a c
  | None => false
  end.

(** [s.split(c)]: the fields of [s] between occurrences of [c]; never empty *)
Fixpoint split (c : ascii) (s : string) : list string :=
  match s with
  | EmptyString => [EmptyString]
  | String a s' =>
      if Ascii.eqb a c then EmptyString :: split c s'
      else match split c s' with
           | w :: ws => String a w :: ws
           | [] => [String a EmptyString]
           end
  end.

(** [s.split(c, 1)[0]]: what precedes the first [c] *)
Fixpoint before_first (c : ascii) (s : string) : string :=
  match s with
  | EmptyString => EmptyString
  | String a s' => if Ascii.eqb a c then EmptyString else String a (before_first c s')
  end.

(** [str.isspace] on the code points below 256 *)
Definition isspace (a : ascii) : bool :=
  let n := nat_of_ascii a in
  (((9 <=? n) && (n <=? 13)) || ((28 <=? n) && (n <=? 32))
   || (n =? 133) || (n =? 160))%nat.

(** [s.rstrip()] *)
Fixpoint rstrip (s : string) : string :=
  match s with
  | EmptyString => EmptyString
  | String a s' =>
      match rstrip s' with
      | EmptyString => if isspace a then EmptyString else String a EmptyString
      | r => String a r
      end
  end.

(** [s.rstrip(c)] for a single character [c] *)
Fixpoint rstrip_char (c : ascii) (s : string) : string :=
  match s with
  | EmptyString => EmptyString
  | String a s' =>
      match rstrip_char c s' with
      | EmptyString => if Ascii.eqb a c then EmptyString else String a EmptyString
      | r => String a r
      end
  end.

(** [c.join(ws)] *)
Definition join (c : ascii) (ws : list string) : string :=
  String.concat (String c EmptyString) ws.

(** [filter(None, words)]: drop the empty strings *)
Definition nonempty (w : string) : bool :=
  match w with EmptyString => false | _ => true end.

(** [c in s] *)
Fixpoint contains (c : ascii) (s : string) : bool :=
  match s with
  | EmptyString => false
  | String a s' => Ascii.eqb a c || contains c s'
  end.

(** [s.rfind(c) + 1]: length of the prefix of [s] up to its last [c] *)
Fixpoint rfind_succ (c : ascii) (s : string) : nat :=
  match s with
  | EmptyString => 0
  | String a s' =>
      match rfind_succ c s' with
      | O => if Ascii.eqb a c then 1 else 0
      | S n => S (S n)
      end
  end.

(** [s == c * len(s)] *)
Fixpoint all_char (c : ascii) (s : string) : bool :=
  match s with
  | EmptyString => true
  | String a s' => Ascii.eqb a c && all_char c s'
  end.

(** [str(n)] and [%d] for an integer *)
Definition str_of_Z (z : Z) : string :=
  NilZero.string_of_int (Z.to_int z).

End PyStr.

(** ** [posixpath], from the Python definitions of posixpath.py *)

Module posixpath.
Import PyStr.

Definition isabs (s : string) : bool := startswith s "/".

(** [join(a, b)] *)
Definition join (a b : string) : string :=
  if startswith b "/" then b
  else if (negb (nonempty a)) || endswith_char a sep then a ++ b
  else a ++ "/" ++ b.

Definition dirname (p : string) : string :=
  let i := rfind_succ sep p in
  let head := substring 0 i p in
  if nonempty head && negb (all_char sep head) then rstrip_char sep head
  else head.

(** the loop of [normpath] over the components, [new_comps] kept in
    reverse order *)
Fixpoint normpath_comps (initial_slashes : nat) (comps : list string)
    (rev_new : list string) : list string :=
  match comps with
  | [] => List.rev rev_new
  | comp :: rest =>
      if String.eqb comp "" || String.eqb comp "." then
        normpath_comps initial_slashes rest rev_new
      else if negb (String.eqb comp "..")
              || ((initial_slashes =? 0)%nat
                  && match rev_new with [] => true | _ => false end)
              || match rev_new with
                 | top :: _ => String.eqb top ".."
                 | [] => false
                 end
      then normpath_comps initial_slashes rest (comp :: rev_new)
      else match rev_new with
           | _ :: popped => normpath_comps initial_slashes rest popped
           | [] => normpath_comps initial_slashes rest rev_new
           end
  end.

Definition normpath (path : string) : string :=
  if String.eqb path "" then "."
  else
    let initial_slashes :=
      if startswith path "/" then
        if startswith path "//" && negb (startswith path "///") then 2%nat
        else 1%nat
      else 0%nat in
    let comps := normpath_comps initial_slashes (split sep path) [] in
    let path' := PyStr.join sep comps in
    let path' :=
      match initial_slashes with
      | 0%nat => path'
      | 1%nat => "/" ++ path'
      | _ => "//" ++ path'
      end in
    if String.eqb path' "" then "." else path'.

(** [abspath(path)] in a process whose working directory is [cwd] *)
Definition abspath (cwd path : string) : string :=
  if isabs path then normpath path else normpath (join cwd path).

End posixpath.

(** ** Exceptions, results and the state-and-exception monad *)

(** The exception classes the code can meet.  [FileNotFoundError] and
    [PermissionError] are subclasses of [OSError]; [OSError] stands for any
    other one (I/O error, address in use).  [KeyboardInterrupt] derives from
    [BaseException] only. *)
Inductive exn : Type :=
| FileNotFoundError
| PermissionError
| OSError
| ValueError
| KeyboardInterrupt.

(** [isinstance(e, OSError)], what [except OSError] catches *)
Definition is_OSError (e : exn) : bool :=
  match e with
  | FileNotFoundError | PermissionError | OSError => true
  | ValueError | KeyboardInterrupt => false
  end.

(** [isinstance(e, Exception)], what [except Exception] catches *)
Definition is_Exception (e : exn) : bool :=
  match e with
  | KeyboardInterrupt => false
  | _ => true
  end.

Definition exn_name (e : exn) : string :=
  match e with
  | FileNotFoundError => "FileNotFoundError"
  | PermissionError => "PermissionError"
  | OSError => "OSError"
  | ValueError => "ValueError"
  | KeyboardInterrupt => "KeyboardInterrupt"
  end.

(** What a call does: it returns, it raises, or it never returns because
    it waits for input that does not come ([Blocks]: a serve loop with no
    further connection and no signal). *)
Inductive result (A : Type) : Type :=
| Ok (a : A)
| Raise (e : exn)
| Blocks.
Arguments Ok {A} a.
Arguments Raise {A} e.
Arguments Blocks {A}.

(** A computation on a state [S]. *)
Definition M (S A : Type) : Type := S -> result A * S.

Definition ret {S A : Type} (a : A) : M S A := fun s => (Ok a, s).

Definition raise {S A : Type} (e : exn) : M S A := fun s => (Raise e, s).

Definition bind {S A B : Type} (m : M S A) (k : A -> M S B) : M S B :=
  fun s =>
    match m s with
    | (Ok a, s') => k a s'
    | (Raise e, s') => (Raise e, s')
    | (Blocks, s') => (Blocks, s')
    end.

(** [try: m  except <catches>: h] *)
Definition try_except {S A : Type} (m : M S A) (catches : exn -> bool)
    (h : exn -> M S A) : M S A :=
  fun s =>
    match m s with
    | (Ok a, s') => (Ok a, s')
    | (Raise e, s') => if catches e then h e s' else (Raise e, s')
    | (Blocks, s') => (Blocks, s')
    end.

(** [try: m  finally: f] *)
Definition try_finally {S A : Type} (m : M S A) (f : M S unit) : M S A :=
  fun s =>
    match m s with
    | (Ok a, s') =>
        match f s' with
        | (Ok _, s'') => (Ok a, s'')
        | (Raise e, s'') => (Raise e, s'')
        | (Blocks, s'') => (Blocks, s'')
        end
    | (Raise e, s') =>
        match f s' with
        | (Ok _, s'') => (Raise e, s'')
        | (Raise e', s'') => (Raise e', s'')
        | (Blocks, s'') => (Blocks, s'')
        end
    | (Blocks, s') => (Blocks, s')
    end.

Declare Scope monad_scope.
Delimit Scope monad_scope with monad.
Notation "x <- m ;; k" := (bind m (fun x => k))
  (at level 61, m at next level, right associativity) : monad_scope.
Notation "m ;; k" := (bind m (fun _ => k))
  (at level 61, right associativity) : monad_scope.
Local Open Scope monad_scope.

(** [for x in xs: body x] *)
Fixpoint for_each {S A : Type} (xs : list A) (body : A -> M S unit) : M S unit :=
  match xs with
  | [] => ret tt
  | x :: xs' => body x ;; for_each xs' body
  end.

(** ** The [%] operator on a format string *)

Inductive fmt_arg : Type :=
| AStr (s : string)
| AInt (z : Z).

Definition str_arg (a : fmt_arg) : string :=
  match a with
  | AStr s => s
  | AInt z => PyStr.str_of_Z z
  end.

(** [format % args] for the conversions the code uses, [%s] and [%d]; the
    arguments are consumed left to right. *)
Fixpoint percent_format (format : string) (args : list fmt_arg) : string :=
  match format with
  | EmptyString => EmptyString
  | String "%"%char (String c rest) =>
      if Ascii.eqb c "s"%char || Ascii.eqb c "d"%char then
        match args with
        | a :: args' => str_arg a ++ percent_format rest args'
        | [] => percent_format rest []
        end
      else String "%"%char (String c (percent_format rest args))
  | String a rest => String a (percent_format rest args)
  end.

Definition dquote : string := String (ascii_of_nat 34) EmptyString.
Definition crlf : string :=
  String (ascii_of_nat 13) (String (ascii_of_nat 10) EmptyString).

(** ** The operating system and the library functions outside the code *)

(** What a call to the operating system does: it returns or it fails with
    an exception. *)
Inductive answer (A : Type) : Type :=
| Returns (a : A)
| Fails (e : exn).
Arguments Returns {A} a.
Arguments Fails {A} e.

Record stat_result : Type := {
  st_size : Z;
  st_mtime : Z            (* seconds since the epoch *)
}.

(** An object with a [read] method: [shutil.copyfileobj] obtains [data]
    from it and then, if [read_error] is set, a [read] raises. *)
Record reader : Type := {
  data : string;
  read_error : option exn
}.

(** An open file: [os.fstat(f.fileno())] and its reads. *)
Record file : Type := {
  fstat : answer stat_result;
  file_reader : reader
}.

(** An entry of [os.listdir], with what [os.path.isdir] and
    [os.path.islink] say of it. *)
Record dirent : Type := {
  d_name : string;
  d_isdir : bool;
  d_islink : bool
}.

Record OS : Type := {
  os_path_isdir : string -> bool;
  os_path_isfile : string -> bool;
  open_rb : string -> answer file;             (* open(path, 'rb') *)
  os_listdir : string -> answer (list dirent);
  socket_bind : string -> Z -> option exn;     (* socket.bind((host, port)) *)
  socket_listen : option exn                   (* socket.listen(5) *)
}.

Record Library : Type := {
  (* urllib.parse.unquote(path, errors='surrogatepass'), with the
     fallback to unquote(path) on UnicodeDecodeError *)
  unquote : string -> string;
  (* urllib.parse.urlsplit(path).path *)
  urlsplit_path : string -> string;
  (* urlunsplit of the parts of path with '/' appended to its path part *)
  urlunsplit_slash : string -> string;
  (* SimpleHTTPRequestHandler.guess_type, over mimetypes *)
  guess_type : string -> string;
  (* email.utils.formatdate(timestamp, usegmt=True) *)
  date_time_string : Z -> string;
  (* the local time of a timestamp as dd/Mon/yyyy hh:mm:ss *)
  log_date_time_string : Z -> string;
  (* server_version + ' ' + sys_version *)
  version_string : string;
  (* email.utils.parsedate_to_datetime of an If-Modified-Since value, as
     UTC seconds; None when ill-formed or not in UTC *)
  parsedate : string -> option Z;
  (* error_message_format % {code, message, explain}, html-escaped, encoded *)
  error_message : Z -> string -> string -> string;
  (* the html page of list_directory for a display path and the entries *)
  listing_page : string -> list dirent -> string;
  (* sys.getfilesystemencoding() *)
  getfilesystemencoding : string;
  (* repr of a str *)
  repr : string -> string;
  (* message.translate(_control_char_table) *)
  escape_control : string -> string
}.

(** A request as [parse_request] leaves it in the handler. *)
Record request : Type := {
  client_address : string;
  requestline : string;
  command : string;
  path : string;
  request_version : string;
  if_modified_since : option string;    (* headers["If-Modified-Since"] *)
  if_none_match : bool                  (* "If-None-Match" in headers *)
}.

(** ** [http.server] *)

Module http_server.
Import PyStr.

(** The attributes of a handler instance that its methods change, with
    the two streams of the process. *)
Record handler : Type := {
  headers_buffer : list string;    (* self._headers_buffer *)
  wfile : string;                  (* the bytes written to the connection *)
  stdout : list string;            (* lines printed on sys.stdout *)
  stderr : list string             (* lines written to sys.stderr *)
}.

Definition H (A : Type) : Type := M handler A.

(** [print(line)] *)
Definition print (line : string) : H unit :=
  fun h => (Ok tt, {| headers_buffer := headers_buffer h; wfile := wfile h;
                      stdout := stdout h ++ [line]; stderr := stderr h |}).

(** [sys.stderr.write(line + "\n")] *)
Definition stderr_write (line : string) : H unit :=
  fun h => (Ok tt, {| headers_buffer := headers_buffer h; wfile := wfile h;
                      stdout := stdout h; stderr := stderr h ++ [line] |}).

(** [self.wfile.write(b)] *)
Definition wfile_write (b : string) : H unit :=
  fun h => (Ok tt, {| headers_buffer := headers_buffer h; wfile := wfile h ++ b;
                      stdout := stdout h; stderr := stderr h |}).

(** [self._headers_buffer.append(line)] *)
Definition headers_buffer_append (line : string) : H unit :=
  fun h => (Ok tt, {| headers_buffer := headers_buffer h ++ [line];
                      wfile := wfile h; stdout := stdout h; stderr := stderr h |}).

(** [BaseHTTPRequestHandler.responses], at the codes the handler sends *)
Definition responses (code : Z) : option (string * string) :=
  if (code =? 200)%Z then Some ("OK", "Request fulfilled, document follows")
  else if (code =? 301)%Z then
    Some ("Moved Permanently", "Object moved permanently -- see URI list")
  else if (code =? 304)%Z then
    Some ("Not Modified", "Document has not changed since given time")
  else if (code =? 404)%Z then Some ("Not Found", "Nothing matches the given URI")
  else if (code =? 501)%Z then
    Some ("Not Implemented", "Server does not support this operation")
  else None.

Definition protocol_version : string := "HTTP/1.0".
Definition error_content_type : string := "text/html;charset=utf-8".

Section BaseHTTPRequestHandler.

Variable lib : Library.
Variable os : OS.
(** [time.time()] while the request is handled *)
Variable now : Z.
(** [self.directory] *)
Variable directory : string.
(** [self.log_message], the method a subclass overrides *)
Variable log_message : string -> list fmt_arg -> H unit.
Variable r : request.

Definition log_request (code : Z) : H unit :=
  log_message (dquote ++ "%s" ++ dquote ++ " %s %s")
    [AStr (requestline r); AStr (str_of_Z code); AStr "-"].

Definition log_error (format : string) (args : list fmt_arg) : H unit :=
  log_message format args.

Definition send_response_only (code : Z) (message : option string) : H unit :=
  if negb (String.eqb (request_version r) "HTTP/0.9") then
    let message :=
      match message with
      | Some m => m
      | None => match responses code with
                | Some (shortmsg, _) => shortmsg
                | None => ""
                end
      end in
    headers_buffer_append
      (protocol_version ++ " " ++ str_of_Z code ++ " " ++ message ++ crlf)
  else ret tt.

Definition send_header (keyword value : string) : H unit :=
  if negb (String.eqb (request_version r) "HTTP/0.9") then
    headers_buffer_append (keyword ++ ": " ++ value ++ crlf)
  else ret tt.

Definition flush_headers : H unit :=
  fun h => (Ok tt, {| headers_buffer := [];
                      wfile := wfile h ++ String.concat "" (headers_buffer h);
                      stdout := stdout h; stderr := stderr h |}).

Definition end_headers : H unit :=
  if negb (String.eqb (request_version r) "HTTP/0.9") then
    headers_buffer_append crlf ;; flush_headers
  else ret tt.

Definition send_response (code : Z) (message : option string) : H unit :=
  log_request code ;;
  send_response_only code message ;;
  send_header "Server" (version_string lib) ;;
  send_header "Date" (date_time_string lib now).

Definition send_error (code : Z) (message : option string) : H unit :=
  let '(shortmsg, longmsg) :=
    match responses code with
    | Some sl => sl
    | None => ("???", "???")
    end in
  let message := match message with Some m => m | None => shortmsg end in
  let explain := longmsg in
  log_error "code %d, message %s" [AInt code; AStr message] ;;
  send_response code (Some message) ;;
  send_header "Connection" "close" ;;
  let body :=
    if (200 <=? code)%Z
       && negb ((code =? 204)%Z || (code =? 205)%Z || (code =? 304)%Z)
    then Some (error_message lib code message explain)
    else None in
  match body with
  | Some b =>
      send_header "Content-Type" error_content_type ;;
      send_header "Content-Length" (str_of_Z (Z.of_nat (String.length b)))
  | None => ret tt
  end ;;
  end_headers ;;
  match body with
  | Some b =>
      if negb (String.eqb (command r) "HEAD") && nonempty b
      then wfile_write b else ret tt
  | None => ret tt
  end.

(** [BaseHTTPRequestHandler.log_message], which the script overrides *)
Definition default_log_message (format : string) (args : list fmt_arg) : H unit :=
  stderr_write (client_address r ++ " - - [" ++ log_date_time_string lib now
                ++ "] " ++ escape_control lib (percent_format format args)).

(** *** [SimpleHTTPRequestHandler] *)

(** [self.path] *)
Definition self_path : string := path r.

Definition translate_path (path : string) : string :=
  let path := before_first "?" path in
  let path := before_first "#" path in
  let trailing_slash := endswith_char (rstrip path) sep in
  let path := unquote lib path in
  let path := posixpath.normpath path in
  let words := filter nonempty (split sep path) in
  let path :=
    fold_left
      (fun path word =>
         if nonempty (posixpath.dirname word)
            || String.eqb word "." || String.eqb word ".."
         then path
         else posixpath.join path word)
      words directory in
  if trailing_slash then path ++ "/" else path.

Definition list_directory (path : string) : H (option reader) :=
  match os_listdir os path with
  | Fails e =>
      if is_OSError e then
        send_error 404 (Some "No permission to list directory") ;;
        ret None
      else raise e
  | Returns list =>
      let enc := getfilesystemencoding lib in
      let encoded := listing_page lib self_path list in
      send_response 200 None ;;
      send_header "Content-type" ("text/html; charset=" ++ enc) ;;
      send_header "Content-Length" (str_of_Z (Z.of_nat (String.length encoded))) ;;
      end_headers ;;
      ret (Some {| data := encoded; read_error := None |})
  end.

(** The test of [send_head] on If-Modified-Since: the header is present,
    If-None-Match is not, the date parses, and the file is not newer. *)
Definition not_modified (fs : stat_result) : bool :=
  match if_modified_since r with
  | Some value =>
      if negb (if_none_match r) then
        match parsedate lib value with
        | Some ims => (st_mtime fs <=? ims)%Z
        | None => false
        end
      else false
  | None => false
  end.

(** [send_head] from [ctype = self.guess_type(path)] on: the part that
    serves the file at [path]. *)
Definition send_head_file (path : string) : H (option reader) :=
  let ctype := guess_type lib path in
  if endswith_char path sep then
    send_error 404 (Some "File not found") ;;
    ret None
  else
    match open_rb os path with
    | Fails e =>
        if is_OSError e then
          send_error 404 (Some "File not found") ;;
          ret None
        else raise e
    | Returns f =>
        match fstat f with
        | Fails e => raise e
        | Returns fs =>
            if not_modified fs then
              send_response 304 None ;;
              end_headers ;;
              ret None
            else
              send_response 200 None ;;
              send_header "Content-type" ctype ;;
              send_header "Content-Length" (str_of_Z (st_size fs)) ;;
              send_header "Last-Modified" (date_time_string lib (st_mtime fs)) ;;
              end_headers ;;
              ret (Some (file_reader f))
        end
    end.

Definition send_head : H (option reader) :=
  let path := translate_path self_path in
  if os_path_isdir os path then
    if negb (endswith_char (urlsplit_path lib self_path) sep) then
      send_response 301 None ;;
      send_header "Location" (urlunsplit_slash lib self_path) ;;
      send_header "Content-Length" "0" ;;
      end_headers ;;
      ret None
    else
      let index := posixpath.join path "index.html" in
      if os_path_isfile os index then send_head_file index
      else
        let index := posixpath.join path "index.htm" in
        if os_path_isfile os index then send_head_file index
        else list_directory path
  else send_head_file path.

(** [shutil.copyfileobj(source, self.wfile)] *)
Definition copyfile (source : reader) : H unit :=
  wfile_write (data source) ;;
  match read_error source with
  | Some e => raise e
  | None => ret tt
  end.

Definition do_GET : H unit :=
  f <- send_head ;;
  match f with
  | Some f => try_finally (copyfile f) (ret tt)
  | None => ret tt
  end.

Definition do_HEAD : H unit :=
  f <- send_head ;;
  ret tt.

(** [handle_one_request] once [parse_request] has succeeded: the class has
    the methods [do_GET] and [do_HEAD]. *)
Definition handle_one_request : H unit :=
  if String.eqb (command r) "GET" then do_GET
  else if String.eqb (command r) "HEAD" then do_HEAD
  else
    send_error 501
      (Some ("Unsupported method (" ++ repr lib (command r) ++ ")")).

(** [handle]: [protocol_version] is HTTP/1.0, so [close_connection] stays
    true and one request is handled on the connection. *)
Definition handle : H unit := handle_one_request.

(** [BaseRequestHandler.__init__]: [setup], then [handle], then [finish]
    in a [finally] clause. *)
Definition init : H unit := try_finally handle (ret tt).

End BaseHTTPRequestHandler.

End http_server.

(** ** [socketserver] *)

Module socketserver.

Inductive socket_state : Type :=
| Created
| Bound (host : string) (port : Z)
| Listening (host : string) (port : Z)
| Closed.

(** The process: its two output streams, the server socket once it is
    created, and the bytes sent on each accepted connection, in order. *)
Record process : Type := {
  sys_stdout : list string;
  sys_stderr : list string;
  socket : option socket_state;
  replies : list string
}.

Definition P (A : Type) : Type := M process A.

(** What arrives while the serve loop waits: a connection carrying a
    request, at a time, or the interrupt signal. *)
Inductive event : Type :=
| Connection (now : Z) (r : request)
| Interrupt.

Definition set_socket (s : socket_state) : P unit :=
  fun st => (Ok tt, {| sys_stdout := sys_stdout st; sys_stderr := sys_stderr st;
                       socket := Some s; replies := replies st |}).

(** [print(line, file=sys.stderr)] *)
Definition eprint (line : string) : P unit :=
  fun st => (Ok tt, {| sys_stdout := sys_stdout st;
                       sys_stderr := sys_stderr st ++ [line];
                       socket := socket st; replies := replies st |}).

(** the text of [traceback.print_exc()] for [e] *)
Definition traceback (e : exn) : string :=
  "Traceback (most recent call last): " ++ exn_name e.

Section TCPServer.

Variable os : OS.
Variable server_address : string * Z.
(** instantiating the class runs the handler on the connection *)
Variable RequestHandlerClass : Z -> request -> http_server.H unit.

Definition server_bind : P unit :=
  match socket_bind os (fst server_address) (snd server_address) with
  | Some e => raise e
  | None => set_socket (Bound (fst server_address) (snd server_address))
  end.

Definition server_activate : P unit :=
  match socket_listen os with
  | Some e => raise e
  | None => set_socket (Listening (fst server_address) (snd server_address))
  end.

Definition server_close : P unit := set_socket Closed.

(** [TCPServer.__init__] with [bind_and_activate=True] *)
Definition TCPServer_init : P unit :=
  set_socket Created ;;
  try_except (server_bind ;; server_activate) (fun _ => true)
    (fun e => server_close ;; raise e).

(** [finish_request]: the handler runs on a new connection, with the
    streams of the process; what it wrote to the connection is kept. *)
Definition finish_request (now : Z) (r : request) : P unit :=
  fun st =>
    let '(res, h) :=
      RequestHandlerClass now r
        {| http_server.headers_buffer := []; http_server.wfile := "";
           http_server.stdout := sys_stdout st;
           http_server.stderr := sys_stderr st |} in
    (res, {| sys_stdout := http_server.stdout h;
             sys_stderr := http_server.stderr h;
             socket := socket st;
             replies := replies st ++ [http_server.wfile h] |}).

(** [shutdown_request]: the connection is shut down and closed *)
Definition shutdown_request : P unit := ret tt.

Definition process_request (now : Z) (r : request) : P unit :=
  finish_request now r ;;
  shutdown_request.

Definition handle_error (r : request) (e : exn) : P unit :=
  eprint "----------------------------------------" ;;
  eprint ("Exception occurred during processing of request from "
          ++ client_address r) ;;
  eprint (traceback e) ;;
  eprint "----------------------------------------".

Definition _handle_request_noblock (now : Z) (r : request) : P unit :=
  try_except (process_request now r) (fun _ => true)
    (fun e =>
       if is_Exception e then
         handle_error r e ;;
         shutdown_request
       else
         shutdown_request ;;
         raise e).

(** [serve_forever]: the shutdown flag is never set, so the loop ends only
    by an exception; with no event left it waits in [select]. *)
Fixpoint serve_forever (events : list event) : P unit :=
  match events with
  | [] => fun st => (Blocks, st)
  | Connection now r :: rest =>
      _handle_request_noblock now r ;;
      serve_forever rest
  | Interrupt :: _ => raise KeyboardInterrupt
  end.

End TCPServer.

(** Whether a listening socket receives a connection made to the local
    address [addr]: the empty host is INADDR_ANY, every address of the
    machine. *)
Definition receives (s : option socket_state) (addr : string) : bool :=
  match s with
  | Some (Listening host _) => String.eqb host "" || String.eqb host addr
  | _ => false
  end.

End socketserver.

(** ** Frontend/server.py *)

Module server.
Import socketserver.

(** What the process is started with. *)
Record invocation : Type := {
  argv : list string;                  (* sys.argv[1:] *)
  environ : list (string * string);    (* os.environ *)
  file : string;                       (* __file__ *)
  getcwd : string                      (* os.getcwd() *)
}.

Definition PORT : Z := 5500.

Definition DIRECTORY (inv : invocation) : string :=
  posixpath.dirname (posixpath.abspath (getcwd inv) (file inv)).

(** [Handler.log_message] *)
Definition log_message (lib : Library) (now : Z)
    (format : string) (args : list fmt_arg) : http_server.H unit :=
  http_server.print
    ("[" ++ log_date_time_string lib now ++ "] " ++ percent_format format args).

(** The class [Handler]: [__init__] passes [directory=DIRECTORY] to the
    base class, whose constructor handles the request. *)
Definition Handler (lib : Library) (os : OS) (inv : invocation)
    (now : Z) (r : request) : http_server.H unit :=
  http_server.init lib os now (DIRECTORY inv) (log_message lib now) r.

Definition print (line : string) : P unit :=
  fun st => (Ok tt, {| sys_stdout := sys_stdout st ++ [line];
                       sys_stderr := sys_stderr st;
                       socket := socket st; replies := replies st |}).

(** [os.listdir(DIRECTORY)] *)
Definition listdir (os : OS) (d : string) : P (list dirent) :=
  fun st =>
    match os_listdir os d with
    | Returns l => (Ok l, st)
    | Fails e => (Raise e, st)
    end.

Definition run_server (lib : Library) (os : OS) (inv : invocation)
    (events : list event) : P unit :=
  print ("Starting server in directory: " ++ DIRECTORY inv) ;;
  print "Files in directory:" ;;
  files <- listdir os (DIRECTORY inv) ;;
  for_each files (fun file => print ("  " ++ d_name file)) ;;
  (* with socketserver.TCPServer(("", PORT), Handler) as httpd: *)
  TCPServer_init os ("", PORT) ;;
  try_finally
    (print ("Server started at http://localhost:" ++ PyStr.str_of_Z PORT) ;;
     try_except
       (serve_forever (Handler lib os inv) events)
       (fun e => match e with KeyboardInterrupt => true | _ => false end)
       (fun _ => print "Server stopped."))
    (server_close).

Definition start : process :=
  {| sys_stdout := []; sys_stderr := []; socket := None; replies := [] |}.

(** The interpreter running the script as [__main__]: the exit status is 0
    when [run_server] returns; an exception that reaches the top level is
    reported on standard error and the status is 1 (130 for an interrupt).
    [None]: the process has not exited. *)
Definition main (lib : Library) (os : OS) (inv : invocation)
    (events : list event) : option Z * process :=
  match run_server lib os inv events start with
  | (Ok _, st) => (Some 0%Z, st)
  | (Raise e, st) =>
      (Some (if is_Exception e then 1%Z else 130%Z),
       {| sys_stdout := sys_stdout st;
          sys_stderr := sys_stderr st ++ [traceback e];
          socket := socket st; replies := replies st |})
  | (Blocks, st) => (None, st)
  end.

End server.

(** ** Vocabulary of the properties *)

Module Props.
Import PyStr.

(** The status code of a reply: the three characters that follow the
    protocol version and a space in its first line. *)
Definition status_code (reply : string) : string := substring 9 3 reply.

(** A handler on a connection where nothing was sent yet. *)
Definition fresh (out err : list string) : http_server.handler :=
  {| http_server.headers_buffer := []; http_server.wfile := "";
     http_server.stdout := out; http_server.stderr := err |}.

(** A name of a file or directory: not empty, not [.] or [..], without
    a slash. *)
Definition simple_name (w : string) : bool :=
  nonempty w && negb (String.eqb w ".") && negb (String.eqb w "..")
  && negb (contains sep w).

Fixpoint all_chars (f : ascii -> bool) (s : string) : bool :=
  match s with
  | EmptyString => true
  | String a s' => f a && all_chars f s'
  end.

(** A character that stands for itself in the path of a request line. *)
Definition plain_char (a : ascii) : bool :=
  negb (isspace a) && negb (Ascii.eqb a "?"%char) && negb (Ascii.eqb a "#"%char).

(** A simple name written with plain characters. *)
Definition plain_name (w : string) : bool :=
  simple_name w && all_chars plain_char w.

(** The path of the file reached from [d] through the names [ws]. *)
Definition descend (d : string) (ws : list string) : string :=
  fold_left posixpath.join ws d.

(** The URL path that spells the names [ws]. *)
Definition url_of (ws : list string) : string := "/" ++ join sep ws.

(** No component of [rest] is [..]. *)
Definition no_dotdot (rest : string) : bool :=
  negb (existsb (String.eqb "..") (split sep rest)).

(** [p] is the directory [d] followed by a relative path that never
    steps up: with no symbolic link on the way, a path of an entry of [d]. *)
Definition inside (d p : string) : Prop :=
  exists rest,
    p = d ++ rest /\ no_dotdot rest = true
    /\ (rest = "" \/ startswith rest "/" = true \/ endswith_char d sep = true).

(** Two file systems that answer alike on every path inside [d]. *)
Definition agree_inside (d : string) (os1 os2 : OS) : Prop :=
  forall p, inside d p ->
    os_path_isdir os1 p = os_path_isdir os2 p
    /\ os_path_isfile os1 p = os_path_isfile os2 p
    /\ open_rb os1 p = open_rb os2 p
    /\ os_listdir os1 p = os_listdir os2 p.

(** A [log_message] that is a log sink: it returns, and changes nothing
    of the handler but the two output streams. *)
Definition sink_only (log : string -> list fmt_arg -> http_server.H unit) : Prop :=
  forall format args h,
    exists out err,
      log format args h =
        (Ok tt, {| http_server.headers_buffer := http_server.headers_buffer h;
                   http_server.wfile := http_server.wfile h;
                   http_server.stdout := out; http_server.stderr := err |}).

(** The line that the script prints for a request answered with [code]. *)
Definition summary_line (lib : Library) (now : Z) (r : request) (code : Z) : string :=
  "[" ++ log_date_time_string lib now ++ "] "
  ++ dquote ++ requestline r ++ dquote ++ " " ++ str_of_Z code ++ " -".

(** The line that the script prints when an error reply is sent. *)
Definition error_line (lib : Library) (now : Z) (code : Z) (message : string) : string :=
  "[" ++ log_date_time_string lib now ++ "] "
  ++ "code " ++ str_of_Z code ++ ", message " ++ message.

(** A status line and a header line, as [send_response_only] and
    [send_header] format them. *)
Definition status_line (code : Z) (message : string) : string :=
  http_server.protocol_version ++ " " ++ str_of_Z code ++ " " ++ message ++ crlf.

Definition header (keyword value : string) : string :=
  keyword ++ ": " ++ value ++ crlf.

(** The lines that [send_response] puts in the headers buffer. *)
Definition response_lines (lib : Library) (now : Z) (code : Z) (message : string)
  : list string :=
  [status_line code message;
   header "Server" (version_string lib);
   header "Date" (date_time_string lib now)].

(** The status line and headers of the reply that carries a file. *)
Definition ok_head (lib : Library) (now : Z) (ctype : string) (fs : stat_result) : string :=
  String.concat ""
    (response_lines lib now 200 "OK"
     ++ [header "Content-type" ctype;
         header "Content-Length" (str_of_Z (st_size fs));
         header "Last-Modified" (date_time_string lib (st_mtime fs));
         crlf]).

(** The reply that [send_error] sends. *)
Definition error_reply (lib : Library) (now : Z) (r : request)
    (code : Z) (message : string) : string :=
  let explain :=
    match http_server.responses code with
    | Some (_, longmsg) => longmsg
    | None => "???"
    end in
  let body := error_message lib code message explain in
  String.concat ""
    (response_lines lib now code message
     ++ [header "Connection" "close";
         header "Content-Type" http_server.error_content_type;
         header "Content-Length" (str_of_Z (Z.of_nat (String.length body)));
         crlf])
  ++ (if negb (String.eqb (command r) "HEAD") && nonempty body then body else "").

(** The last character is neither a space nor a slash. *)
Definition good_end (s : string) : Prop :=
  exists a, last_char s = Some a /\ isspace a = false /\ Ascii.eqb a sep = false.

(** The reply begins with a status line that carries [code]. *)
Definition starts_with_status (reply : string) (code : Z) : Prop :=
  exists message rest, reply = status_line code message ++ rest.

(** What a method of the script's handler, run on a new connection with
    [out] already printed, has logged and sent when it ends with [res] in
    the state [h']: one line for a reply 200, 301 or 304; two lines for an
    error reply, after which the method returns [quiet]; no line and no
    byte when it raised before any reply. *)
Inductive logged {A : Type} (lib : Library) (now : Z) (r : request)
    (out : list string) (quiet : A) (res : result A) (h' : http_server.handler)
  : Prop :=
| logged_once (code : Z) :
    In code [200; 301; 304]%Z ->
    http_server.stdout h' = (out ++ [summary_line lib now r code])%list ->
    starts_with_status (http_server.wfile h') code ->
    res <> Blocks ->
    logged lib now r out quiet res h'
| logged_twice (code : Z) (message : string) :
    In code [404; 501]%Z ->
    http_server.stdout h' = (out ++ [error_line lib now code message;
                                     summary_line lib now r code])%list ->
    starts_with_status (http_server.wfile h') code ->
    res = Ok quiet ->
    logged lib now r out quiet res h'
| logged_nothing (e : exn) :
    http_server.stdout h' = out ->
    http_server.wfile h' = "" ->
    res = Raise e ->
    logged lib now r out quiet res h'.

(** Two handlers that have the same bytes buffered and sent. *)
Definition same_reply (h1 h2 : http_server.handler) : Prop :=
  http_server.headers_buffer h1 = http_server.headers_buffer h2
  /\ http_server.wfile h1 = http_server.wfile h2.

(** Two processes with the same server socket and the same replies sent. *)
Definition same_service (st1 st2 : socketserver.process) : Prop :=
  socketserver.socket st1 = socketserver.socket st2
  /\ socketserver.replies st1 = socketserver.replies st2.

(** Two computations that, from states related by [R], end alike and
    leave states related by [R]. *)
Definition alike_on {S A : Type} (R : S -> S -> Prop) (m1 m2 : M S A) : Prop :=
  forall s1 s2, R s1 s2 ->
    fst (m1 s1) = fst (m2 s2) /\ R (snd (m1 s1)) (snd (m2 s2)).

(** The same for two runs of a handler and what they send. *)
Definition alike {A : Type} (m1 m2 : http_server.H A) : Prop :=
  alike_on same_reply m1 m2.

(** A computation that never blocks and raises only exceptions in [P]. *)
Definition ends {S A : Type} (P : exn -> Prop) (m : M S A) : Prop :=
  forall s,
    match fst (m s) with
    | Ok _ => True
    | Raise e => P e
    | Blocks => False
    end.

(** A computation whose returned values are in [Q]. *)
Definition yields {S A : Type} (Q : A -> Prop) (m : M S A) : Prop :=
  forall s a, fst (m s) = Ok a -> Q a.

(** A reader whose reads fail only with exceptions in [P], if there is one. *)
Definition reads_fail (P : exn -> Prop) (o : option reader) : Prop :=
  match o with
  | Some f => forall e, read_error f = Some e -> P e
  | None => True
  end.

(** Every failure of the file system is an exception in [P]. *)
Definition os_fails (P : exn -> Prop) (os : OS) : Prop :=
  (forall p e, open_rb os p = Fails e -> P e)
  /\ (forall p f e, open_rb os p = Returns f -> fstat f = Fails e -> P e)
  /\ (forall p f e, open_rb os p = Returns f ->
                    read_error (file_reader f) = Some e -> P e)
  /\ (forall p e, os_listdir os p = Fails e -> P e).

(** What the script has printed when it enters the serve loop. *)
Definition banner (inv : server.invocation) (files : list dirent) : list string :=
  ["Starting server in directory: " ++ server.DIRECTORY inv;
   "Files in directory:"]
  ++ map (fun file => "  " ++ d_name file) files
  ++ ["Server started at http://localhost:5500"].

(** What the script has printed before it creates the server. *)
Definition listing (inv : server.invocation) (files : list dirent) : list string :=
  ["Starting server in directory: " ++ server.DIRECTORY inv;
   "Files in directory:"]
  ++ map (fun file => "  " ++ d_name file) files.

(** The process when it enters the serve loop. *)
Definition serving (inv : server.invocation) (files : list dirent)
  : socketserver.process :=
  {| socketserver.sys_stdout := banner inv files;
     socketserver.sys_stderr := [];
     socketserver.socket := Some (socketserver.Listening "" server.PORT);
     socketserver.replies := [] |}.

(** The body of the [with] statement of [run_server] and its exit. *)
Definition serve_until_interrupt (lib : Library) (os : OS) (inv : server.invocation)
    (events : list socketserver.event) : socketserver.P unit :=
  try_finally
    (try_except
       (socketserver.serve_forever (server.Handler lib os inv) events)
       (fun e => match e with KeyboardInterrupt => true | _ => false end)
       (fun _ => server.print "Server stopped."))
    (socketserver.server_close).

(** The events of a run in which only connections arrive. *)
Definition connections (reqs : list (Z * request)) : list socketserver.event :=
  map (fun nr => socketserver.Connection (fst nr) (snd nr)) reqs.

(** A [log_message] that logs nothing. *)
Definition no_log (format : string) (args : list fmt_arg) : http_server.H unit :=
  ret tt.

End Props.

(** ** A concrete library, file system and invocation, for the examples *)

Module Sample.
Import PyStr.

Definition hex_digit (a : ascii) : option nat :=
  let n := nat_of_ascii a in
  if ((48 <=? n) && (n <=? 57))%nat then Some (n - 48)%nat
  else if ((65 <=? n) && (n <=? 70))%nat then Some (n - 55)%nat
  else if ((97 <=? n) && (n <=? 102))%nat then Some (n - 87)%nat
  else None.

(** [urllib.parse.unquote] on the strings of the examples: ASCII text
    whose escapes [%XX] stand for ASCII characters. *)
Fixpoint percent_decode (s : string) : string :=
  match s with
  | EmptyString => EmptyString
  | String "%"%char (String a (String b rest) as tail) =>
      match hex_digit a, hex_digit b with
      | Some h, Some l => String (ascii_of_nat (16 * h + l)) (percent_decode rest)
      | _, _ => String "%"%char (percent_decode tail)
      end
  | String c rest => String c (percent_decode rest)
  end.

Definition lib : Library := {|
  unquote := percent_decode;
  urlsplit_path := fun p => before_first "#" (before_first "?" p);
  urlunsplit_slash := fun p => before_first "#" (before_first "?" p) ++ "/";
  guess_type := fun _ => "application/octet-stream";
  date_time_string := fun t => "date(" ++ str_of_Z t ++ ")";
  log_date_time_string := fun t => "local(" ++ str_of_Z t ++ ")";
  version_string := "SimpleHTTP/0.6 Python/3.11.2";
  parsedate := fun v => if String.eqb v "later" then Some 2000%Z else None;
  error_message := fun code message explain =>
    "<p>Error code: " ++ str_of_Z code ++ "</p><p>Message: " ++ message ++ ".</p>";
  listing_page := fun display entries =>
    "Directory listing for " ++ display ++ ": "
    ++ String.concat " " (map d_name entries);
  getfilesystemencoding := "utf-8";
  repr := fun s => "'" ++ s ++ "'";
  escape_control := fun s => s
|}.

Definition plain (contents : string) : file :=
  {| fstat := Returns {| st_size := Z.of_nat (String.length contents);
                    st_mtime := 1000 |};
     file_reader := {| data := contents; read_error := None |} |}.

(** A disk: the served directory /srv/Frontend holds index.html, app.js,
    a directory css with style.css, a file secret.txt that the process may
    not read and a file broken.bin whose reads fail after four bytes;
    /etc/passwd lies outside. *)
Definition os : OS := {|
  os_path_isdir := fun p =>
    String.eqb p "/srv/Frontend" || String.eqb p "/srv/Frontend/"
    || String.eqb p "/srv/Frontend/css" || String.eqb p "/srv/Frontend/css/"
    || String.eqb p "/etc";
  os_path_isfile := fun p =>
    String.eqb p "/srv/Frontend/index.html"
    || String.eqb p "/srv/Frontend/app.js"
    || String.eqb p "/srv/Frontend/css/style.css"
    || String.eqb p "/etc/passwd";
  open_rb := fun p =>
    if String.eqb p "/srv/Frontend/index.html" then Returns (plain "<html>todo</html>")
    else if String.eqb p "/srv/Frontend/app.js" then Returns (plain "fetch('/api')")
    else if String.eqb p "/srv/Frontend/css/style.css" then Returns (plain "body{}")
    else if String.eqb p "/srv/Frontend/secret.txt" then Fails PermissionError
    else if String.eqb p "/srv/Frontend/broken.bin" then
      Returns {| fstat := Returns {| st_size := 8; st_mtime := 1000 |};
            file_reader := {| data := "half"; read_error := Some OSError |} |}
    else if String.eqb p "/etc/passwd" then Returns (plain "root:x:0:0")
    else Fails FileNotFoundError;
  os_listdir := fun p =>
    if String.eqb p "/srv/Frontend" || String.eqb p "/srv/Frontend/" then
      Returns [ {| d_name := "index.html"; d_isdir := false; d_islink := false |};
           {| d_name := "app.js"; d_isdir := false; d_islink := false |};
           {| d_name := "css"; d_isdir := true; d_islink := false |};
           {| d_name := "server.py"; d_isdir := false; d_islink := false |} ]
    else if String.eqb p "/srv/Frontend/css" || String.eqb p "/srv/Frontend/css/" then
      Returns [ {| d_name := "style.css"; d_isdir := false; d_islink := false |} ]
    else Fails FileNotFoundError;
  socket_bind := fun _ _ => None;
  socket_listen := None
|}.

(** The same machine with the port taken by another process. *)
Definition os_port_in_use : OS := {|
  os_path_isdir := os_path_isdir os;
  os_path_isfile := os_path_isfile os;
  open_rb := open_rb os;
  os_listdir := os_listdir os;
  socket_bind := fun _ _ => Some OSError;
  socket_listen := None
|}.

(** The same served directory on a machine whose other files differ. *)
Definition os_elsewhere : OS := {|
  os_path_isdir := fun p =>
    if String.eqb p "/etc" then false else os_path_isdir os p;
  os_path_isfile := fun p =>
    if String.eqb p "/etc/passwd" then false else os_path_isfile os p;
  open_rb := fun p =>
    if String.eqb p "/etc/passwd" then Fails FileNotFoundError else open_rb os p;
  os_listdir := fun p =>
    if String.eqb p "/etc" then Fails FileNotFoundError else os_listdir os p;
  socket_bind := socket_bind os;
  socket_listen := socket_listen os
|}.

Definition inv : server.invocation := {|
  server.argv := [];
  server.environ := [("HOME", "/root")];
  server.file := "/srv/Frontend/server.py";
  server.getcwd := "/root"
|}.

Definition get (p : string) : request := {|
  client_address := "127.0.0.1";
  requestline := "GET " ++ p ++ " HTTP/1.1";
  command := "GET";
  path := p;
  request_version := "HTTP/1.1";
  if_modified_since := None;
  if_none_match := false
|}.

(** A reload of [p]: the browser sends back the date it got. *)
Definition conditional_get (p : string) : request := {|
  client_address := "127.0.0.1";
  requestline := "GET " ++ p ++ " HTTP/1.1";
  command := "GET";
  path := p;
  request_version := "HTTP/1.1";
  if_modified_since := Some "later";
  if_none_match := false
|}.

Definition new_handler : http_server.handler := {|
  http_server.headers_buffer := [];
  http_server.wfile := "";
  http_server.stdout := [];
  http_server.stderr := []
|}.

End Sample.

(** ** Vocabulary of whole runs *)

Module Runs.
Import PyStr Props.

(** [h1] is [h2] with [out] and [err] written before it on the two
    streams. *)
Definition after (out err : list string) (h1 h2 : http_server.handler) : Prop :=
  http_server.headers_buffer h1 = http_server.headers_buffer h2
  /\ http_server.wfile h1 = http_server.wfile h2
  /\ http_server.stdout h1 = (out ++ http_server.stdout h2)%list
  /\ http_server.stderr h1 = (err ++ http_server.stderr h2)%list.

(** A line that begins with the time [now] between brackets. *)
Definition timestamped (lib : Library) (now : Z) (line : string) : Prop :=
  exists text, line = "[" ++ log_date_time_string lib now ++ "] " ++ text.

(** Since the streams held [out0] and [err0], standard error has not
    changed and standard output has gained timestamped lines only. *)
Definition logged_since (lib : Library) (now : Z) (out0 err0 : list string)
    (h : http_server.handler) : Prop :=
  http_server.stderr h = err0
  /\ exists lines,
       http_server.stdout h = (out0 ++ lines)%list
       /\ Forall (timestamped lib now) lines.

(** The same state on both sides, one that satisfies [Inv]. *)
Definition both (Inv : http_server.handler -> Prop)
    (h1 h2 : http_server.handler) : Prop :=
  h1 = h2 /\ Inv h1.

(** What the script's handler does with one request on a process that has
    printed nothing. *)
Definition alone (lib : Library) (os : OS) (inv : server.invocation)
    (nr : Z * request) : result unit * http_server.handler :=
  server.Handler lib os inv (fst nr) (snd nr) (fresh [] []).

Definition reply_of (lib : Library) (os : OS) (inv : server.invocation)
    (nr : Z * request) : string :=
  http_server.wfile (snd (alone lib os inv nr)).

Definition log_of (lib : Library) (os : OS) (inv : server.invocation)
    (nr : Z * request) : list string :=
  http_server.stdout (snd (alone lib os inv nr)).

(** The lines of [handle_error] for a request whose handler raised [e]. *)
Definition error_report (r : request) (e : exn) : list string :=
  ["----------------------------------------";
   "Exception occurred during processing of request from " ++ client_address r;
   socketserver.traceback e;
   "----------------------------------------"].

Definition report_of (lib : Library) (os : OS) (inv : server.invocation)
    (nr : Z * request) : list string :=
  match fst (alone lib os inv nr) with
  | Raise e => if is_Exception e then error_report (snd nr) e else []
  | _ => []
  end.

(** The process [st] once the requests [reqs] have been served, each as
    if alone, in their order. *)
Definition served (lib : Library) (os : OS) (inv : server.invocation)
    (reqs : list (Z * request)) (st : socketserver.process) : socketserver.process :=
  {| socketserver.sys_stdout :=
       socketserver.sys_stdout st ++ flat_map (log_of lib os inv) reqs;
     socketserver.sys_stderr :=
       socketserver.sys_stderr st ++ flat_map (report_of lib os inv) reqs;
     socketserver.socket := socketserver.socket st;
     socketserver.replies :=
       socketserver.replies st ++ map (reply_of lib os inv) reqs |}.

(** The process [st] once the script has caught the interrupt and left
    the [with] statement. *)
Definition stopped (st : socketserver.process) : socketserver.process :=
  {| socketserver.sys_stdout := socketserver.sys_stdout st ++ ["Server stopped."];
     socketserver.sys_stderr := socketserver.sys_stderr st;
     socketserver.socket := Some socketserver.Closed;
     socketserver.replies := socketserver.replies st |}.

(** Two machines on which sockets are bound and listen alike. *)
Definition same_sockets (os1 os2 : OS) : Prop :=
  (forall host port, socket_bind os1 host port = socket_bind os2 host port)
  /\ socket_listen os1 = socket_listen os2.

(** The request [r] with another method, another path, another version. *)
Definition with_command (c : string) (r : request) : request :=
  {| client_address := client_address r; requestline := requestline r;
     command := c; path := path r; request_version := request_version r;
     if_modified_since := if_modified_since r; if_none_match := if_none_match r |}.

Definition with_path (p : string) (r : request) : request :=
  {| client_address := client_address r; requestline := requestline r;
     command := command r; path := p; request_version := request_version r;
     if_modified_since := if_modified_since r; if_none_match := if_none_match r |}.

(** The computation [m1] does what [m2] does, and may send more after
    it: from the same state both end alike, with the same headers buffered
    and the same lines on both streams, and what [m2] has sent begins what
    [m1] has sent. *)
Definition sends_more {A : Type} (m1 m2 : http_server.H A) : Prop :=
  forall h,
    fst (m1 h) = fst (m2 h)
    /\ http_server.headers_buffer (snd (m1 h)) = http_server.headers_buffer (snd (m2 h))
    /\ http_server.stdout (snd (m1 h)) = http_server.stdout (snd (m2 h))
    /\ http_server.stderr (snd (m1 h)) = http_server.stderr (snd (m2 h))
    /\ exists body,
         http_server.wfile (snd (m1 h)) = http_server.wfile (snd (m2 h)) ++ body.

(** A request of one word after the method, as HTTP/0.9 has them:
    [parse_request] leaves the version at its default. *)
Definition simple_get (p : string) : request := {|
  client_address := "127.0.0.1";
  requestline := "GET " ++ p;
  command := "GET";
  path := p;
  request_version := "HTTP/0.9";
  if_modified_since := None;
  if_none_match := false
|}.

(** The status line and headers of the reply that carries the listing
    [page] of a directory. *)
Definition listing_head (lib : Library) (now : Z) (page : string) : string :=
  String.concat ""
    (response_lines lib now 200 "OK"
     ++ [header "Content-type" ("text/html; charset=" ++ getfilesystemencoding lib);
         header "Content-Length" (str_of_Z (Z.of_nat (String.length page)));
         crlf]).

(** The invocation [inv] from another working directory. *)
Definition from_directory (cwd : string) (inv : server.invocation)
  : server.invocation :=
  {| server.argv := server.argv inv; server.environ := server.environ inv;
     server.file := server.file inv; server.getcwd := cwd |}.

(** The sample machine when the served directory cannot be listed, and
    when the socket cannot listen. *)
Definition os_no_listing : OS := {|
  os_path_isdir := os_path_isdir Sample.os;
  os_path_isfile := os_path_isfile Sample.os;
  open_rb := open_rb Sample.os;
  os_listdir := fun _ => Fails PermissionError;
  socket_bind := socket_bind Sample.os;
  socket_listen := socket_listen Sample.os
|}.

Definition os_no_listen : OS := {|
  os_path_isdir := os_path_isdir Sample.os;
  os_path_isfile := os_path_isfile Sample.os;
  open_rb := open_rb Sample.os;
  os_listdir := os_listdir Sample.os;
  socket_bind := socket_bind Sample.os;
  socket_listen := Some OSError
|}.

(** The entries of the sample served directory. *)
Definition sample_files : list dirent :=
  [ {| d_name := "index.html"; d_isdir := false; d_islink := false |};
    {| d_name := "app.js"; d_isdir := false; d_islink := false |};
    {| d_name := "css"; d_isdir := true; d_islink := false |};
    {| d_name := "server.py"; d_isdir := false; d_islink := false |} ].

End Runs.

(** * Properties *)

(** ** Facts on strings and paths *)

Module PyStrFacts.
Import PyStr.

Lemma append_nil_r (s : string) : s ++ "" = s.
Proof. induction s as [|a s IH]; simpl; [reflexivity | now rewrite IH]. Qed.

Lemma append_assoc (a b c : string) : (a ++ b) ++ c = a ++ (b ++ c).
Proof. induction a as [|x a IH]; simpl; [reflexivity | now rewrite IH]. Qed.

Lemma split_nonempty (c : ascii) (s : string) : split c s <> [].
Proof.
  destruct s as [|a s]; simpl; [discriminate|].
  destruct (Ascii.eqb a c); [discriminate|].
  destruct (split c s); discriminate.
Qed.

(** Splitting distributes over a separator in the middle. *)
Lemma split_app_sep (c : ascii) (a b : string) :
  split c (a ++ String c b) = (split c a ++ split c b)%list.
Proof.
  induction a as [|x a IH]; simpl.
  - now rewrite Ascii.eqb_refl.
  - destruct (Ascii.eqb x c).
    + now rewrite IH.
    + rewrite IH. pose proof (split_nonempty c a) as Hne.
      destruct (split c a); [contradiction | reflexivity].
Qed.

Lemma split_no_sep (c : ascii) (w : string) :
  contains c w = false -> split c w = [w].
Proof.
  induction w as [|a w IH]; simpl; [reflexivity|].
  intros H. apply orb_false_iff in H as [Ha Hw].
  now rewrite Ha, (IH Hw).
Qed.

Lemma join_cons (c : ascii) (w : string) (ws : list string) :
  ws <> [] -> join c (w :: ws) = w ++ String c (join c ws).
Proof. destruct ws; [contradiction | reflexivity]. Qed.

(** Splitting a join of names without separator gives the names back. *)
Lemma split_join (c : ascii) (ws : list string) :
  ws <> [] -> Forall (fun w => contains c w = false) ws ->
  split c (join c ws) = ws.
Proof.
  induction ws as [|w ws IH]; [contradiction|].
  intros _ Hall. inversion Hall as [|? ? Hw Hws]; subst.
  destruct ws as [|w' ws'].
  - simpl. now apply split_no_sep.
  - rewrite join_cons by discriminate.
    rewrite split_app_sep, (split_no_sep _ _ Hw), IH; [reflexivity | discriminate | assumption].
Qed.

Lemma join_snoc (c : ascii) (ws : list string) (w : string) :
  ws <> [] -> join c ((ws ++ [w])%list) = join c ws ++ String c w.
Proof.
  induction ws as [|x ws IH]; [contradiction|]. intros _.
  destruct ws as [|y ws'].
  - reflexivity.
  - change ((x :: y :: ws') ++ [w])%list with (x :: ((y :: ws') ++ [w])%list).
    rewrite join_cons by (destruct ws'; discriminate).
    rewrite IH by discriminate.
    rewrite (join_cons c x (y :: ws')) by discriminate.
    now rewrite append_assoc.
Qed.

Lemma before_first_none (c : ascii) (s : string) :
  contains c s = false -> before_first c s = s.
Proof.
  induction s as [|a s IH]; simpl; [reflexivity|].
  intros H. apply orb_false_iff in H as [Ha Hs].
  now rewrite Ha, (IH Hs).
Qed.

Lemma contains_app (c : ascii) (a b : string) :
  contains c (a ++ b) = contains c a || contains c b.
Proof.
  induction a as [|x a IH]; simpl; [reflexivity|].
  now rewrite IH, orb_assoc.
Qed.

Lemma last_char_app_cons (a : string) (x : ascii) (b : string) :
  last_char (a ++ String x b) = last_char (String x b).
Proof.
  induction a as [|y a IH]; [reflexivity|].
  change (String y a ++ String x b) with (String y (a ++ String x b)).
  destruct a as [|z a']; [reflexivity|].
  exact IH.
Qed.

Lemma last_char_app (a b : string) :
  b <> "" -> last_char (a ++ b) = last_char b.
Proof.
  destruct b as [|x b]; [contradiction|]. intros _. apply last_char_app_cons.
Qed.

Lemma endswith_char_app (a b : string) (c : ascii) :
  b <> "" -> endswith_char (a ++ b) c = endswith_char b c.
Proof. intros H. unfold endswith_char. now rewrite last_char_app. Qed.

End PyStrFacts.

Module PathFacts.
Import PyStr PyStrFacts Props.

Lemma simple_name_spec (w : string) :
  simple_name w = true ->
  w <> "" /\ w <> "." /\ w <> ".." /\ contains sep w = false.
Proof.
  unfold simple_name. intros H.
  repeat (apply andb_true_iff in H as [H ?]).
  repeat split.
  - intros ->. discriminate.
  - intros ->. discriminate.
  - intros ->. discriminate.
  - now apply negb_true_iff.
Qed.

Lemma plain_name_simple (w : string) : plain_name w = true -> simple_name w = true.
Proof. unfold plain_name. intros H. now apply andb_true_iff in H as [H _]. Qed.

Lemma Forall_plain_simple (ws : list string) :
  Forall (fun w => plain_name w = true) ws ->
  Forall (fun w => simple_name w = true) ws.
Proof. apply Forall_impl. exact plain_name_simple. Qed.

Lemma Forall_simple_no_sep (ws : list string) :
  Forall (fun w => simple_name w = true) ws ->
  Forall (fun w => contains sep w = false) ws.
Proof. apply Forall_impl. intros w H. now apply simple_name_spec in H. Qed.

(** The loop of [normpath] keeps a list of simple names. *)
Lemma normpath_comps_simple (n : nat) (ws acc : list string) :
  Forall (fun w => simple_name w = true) ws ->
  posixpath.normpath_comps n ws acc = (List.rev acc ++ ws)%list.
Proof.
  revert acc. induction ws as [|w ws IH]; intros acc Hall; simpl.
  - now rewrite app_nil_r.
  - inversion Hall as [|? ? Hw Hws]; subst.
    apply simple_name_spec in Hw as (H0 & H1 & H2 & _).
    apply String.eqb_neq in H0, H1, H2.
    rewrite H0, H1, H2. simpl.
    rewrite IH by assumption. simpl. now rewrite <- app_assoc.
Qed.

Lemma simple_name_head (w : string) :
  simple_name w = true -> exists a w', w = String a w' /\ Ascii.eqb a sep = false.
Proof.
  intros H. apply simple_name_spec in H as (H0 & _ & _ & Hc).
  destruct w as [|a w']; [contradiction|].
  exists a, w'. split; [reflexivity|].
  simpl in Hc. now apply orb_false_iff in Hc as [Ha _].
Qed.

(** A path that spells simple names from the root is normal. *)
Lemma normpath_url_of (ws : list string) :
  ws <> [] -> Forall (fun w => simple_name w = true) ws ->
  posixpath.normpath (url_of ws) = url_of ws.
Proof.
  intros Hne Hall. unfold posixpath.normpath, url_of.
  change (String.eqb ("/" ++ join sep ws) "") with false. cbv iota.
  assert (Hs1 : startswith ("/" ++ join sep ws) "/" = true) by reflexivity.
  assert (Hs2 : startswith ("/" ++ join sep ws) "//" = false).
  { destruct ws as [|w ws']; [contradiction|].
    inversion Hall as [|? ? Hw _]; subst.
    destruct (simple_name_head w Hw) as (a & w' & -> & Ha).
    destruct ws' as [|w2 ws2].
    - simpl. fold sep. now rewrite Ha.
    - rewrite join_cons by discriminate.
      simpl. fold sep. now rewrite Ha. }
  rewrite Hs1, Hs2. cbv beta iota zeta. simpl andb. cbv iota.
  change (split sep ("/" ++ join sep ws)) with (EmptyString :: split sep (join sep ws)).
  rewrite split_join by (auto using Forall_simple_no_sep).
  simpl posixpath.normpath_comps.
  rewrite normpath_comps_simple by assumption. simpl List.rev. simpl List.app.
  reflexivity.
Qed.

Lemma all_chars_contains (f : ascii -> bool) (c : ascii) (w : string) :
  f c = false -> all_chars f w = true -> contains c w = false.
Proof.
  intros Hc. induction w as [|a w IH]; simpl; [reflexivity|].
  intros H. apply andb_true_iff in H as [Ha Hw].
  rewrite (IH Hw), orb_false_r.
  destruct (Ascii.eqb_spec a c) as [->|]; [congruence | reflexivity].
Qed.

Lemma contains_join (c : ascii) (ws : list string) :
  Ascii.eqb sep c = false ->
  Forall (fun w => contains c w = false) ws ->
  contains c (join sep ws) = false.
Proof.
  intros Hc. induction ws as [|w ws IH]; intros Hall; [reflexivity|].
  inversion Hall as [|? ? Hw Hws]; subst.
  destruct ws as [|w' ws'].
  - exact Hw.
  - rewrite join_cons by discriminate.
    rewrite contains_app, Hw. cbn [orb contains]. rewrite Hc. cbn [orb].
    now apply IH.
Qed.

Lemma contains_url_of (c : ascii) (ws : list string) :
  plain_char c = false ->
  Forall (fun w => plain_name w = true) ws ->
  contains c (url_of ws) = false.
Proof.
  intros Hc Hall. unfold url_of.
  assert (Hsep : Ascii.eqb sep c = false).
  { destruct (Ascii.eqb_spec sep c) as [<-|]; [discriminate | reflexivity]. }
  change ("/" ++ join sep ws) with (String sep (join sep ws)).
  cbn [contains]. rewrite Hsep. cbn [orb].
  apply contains_join; [assumption|].
  revert Hall. apply Forall_impl. intros w Hw.
  unfold plain_name in Hw. apply andb_true_iff in Hw as [_ Hw].
  now apply all_chars_contains with (f := plain_char).
Qed.

Lemma good_end_app (a b : string) : good_end b -> good_end (a ++ b).
Proof.
  intros (x & Hl & Hx). exists x. split; [|exact Hx].
  rewrite last_char_app; [exact Hl|]. intros ->. discriminate.
Qed.

Lemma good_end_plain (w : string) : plain_name w = true -> good_end w.
Proof.
  unfold plain_name, simple_name. intros H.
  repeat (apply andb_true_iff in H as [H ?]).
  match goal with Hc : negb (contains sep w) = true |- _ =>
    apply negb_true_iff in Hc; rename Hc into Hsep end.
  match goal with Hc : all_chars plain_char w = true |- _ => rename Hc into Hall end.
  clear - H Hsep Hall.
  induction w as [|a w IH]; [discriminate|].
  simpl in Hsep, Hall.
  apply orb_false_iff in Hsep as [Ha Hw].
  apply andb_true_iff in Hall as [Hpa Hpw].
  destruct w as [|b w'].
  - exists a. repeat split; [|exact Ha].
    unfold plain_char in Hpa.
    repeat (apply andb_true_iff in Hpa as [Hpa ?]).
    now apply negb_true_iff.
  - destruct (IH eq_refl Hw Hpw) as (x & Hl & Hx).
    exists x. split; [exact Hl | exact Hx].
Qed.

Lemma good_end_join (ws : list string) :
  ws <> [] -> Forall (fun w => plain_name w = true) ws ->
  good_end (join sep ws).
Proof.
  induction ws as [|w ws IH]; [contradiction|]. intros _ Hall.
  inversion Hall as [|? ? Hw Hws]; subst.
  destruct ws as [|w' ws'].
  - now apply good_end_plain.
  - rewrite join_cons by discriminate.
    apply good_end_app.
    change (String sep (join sep (w' :: ws'))) with ("/" ++ join sep (w' :: ws')).
    apply good_end_app. apply IH; [discriminate | assumption].
Qed.

Lemma rstrip_good_end (s : string) : good_end s -> rstrip s = s.
Proof.
  induction s as [|a s IH]; [reflexivity|].
  intros (x & Hl & Hsp & Hx). simpl.
  destruct s as [|b s'].
  - simpl in *. injection Hl as ->. now rewrite Hsp.
  - rewrite IH; [reflexivity|]. exists x. repeat split; assumption.
Qed.

Lemma dirname_no_sep (w : string) :
  contains sep w = false -> posixpath.dirname w = "".
Proof.
  intros H. unfold posixpath.dirname.
  assert (Hr : rfind_succ sep w = 0%nat).
  { induction w as [|a w IH]; [reflexivity|].
    simpl in *. apply orb_false_iff in H as [Ha Hw].
    now rewrite (IH Hw), Ha. }
  rewrite Hr. destruct w; reflexivity.
Qed.

(** The loop of [translate_path] over simple names is a descent. *)
Lemma translate_fold_simple (d : string) (ws : list string) :
  Forall (fun w => simple_name w = true) ws ->
  fold_left
    (fun path word =>
       if nonempty (posixpath.dirname word)
          || String.eqb word "." || String.eqb word ".."
       then path
       else posixpath.join path word)
    ws d = descend d ws.
Proof.
  unfold descend. revert d.
  induction ws as [|w ws IH]; intros d Hall; [reflexivity|].
  inversion Hall as [|? ? Hw Hws]; subst. simpl.
  apply simple_name_spec in Hw as (_ & H1 & H2 & Hc).
  apply String.eqb_neq in H1, H2.
  rewrite (dirname_no_sep _ Hc), H1, H2. simpl.
  now apply IH.
Qed.

Lemma filter_nonempty_simple (ws : list string) :
  Forall (fun w => simple_name w = true) ws -> filter nonempty ws = ws.
Proof.
  induction ws as [|w ws IH]; intros Hall; [reflexivity|].
  inversion Hall as [|? ? Hw Hws]; subst. simpl.
  apply simple_name_spec in Hw as (H0 & _).
  destruct w; [contradiction|]. simpl. now rewrite IH.
Qed.

(** The path of a request that spells plain names is translated to the
    file reached through these names from the served directory. *)
Lemma translate_path_url_of (lib : Library) (d : string) (ws : list string) :
  ws <> [] -> Forall (fun w => plain_name w = true) ws ->
  unquote lib (url_of ws) = url_of ws ->
  http_server.translate_path lib d (url_of ws) = descend d ws.
Proof.
  intros Hne Hall Hunq. unfold http_server.translate_path.
  rewrite (before_first_none "?"%char) by (now apply contains_url_of).
  rewrite (before_first_none "#"%char) by (now apply contains_url_of).
  assert (Hend : good_end (url_of ws)).
  { unfold url_of. apply good_end_app. now apply good_end_join. }
  rewrite (rstrip_good_end _ Hend).
  assert (Hsl : endswith_char (url_of ws) sep = false).
  { destruct Hend as (x & Hl & _ & Hx). unfold endswith_char. now rewrite Hl. }
  rewrite Hsl, Hunq.
  rewrite normpath_url_of by (auto using Forall_plain_simple).
  change (split sep (url_of ws)) with (EmptyString :: split sep (join sep ws)).
  rewrite split_join by (auto using Forall_simple_no_sep, Forall_plain_simple).
  simpl filter.
  rewrite filter_nonempty_simple by (auto using Forall_plain_simple).
  now apply translate_fold_simple, Forall_plain_simple.
Qed.

Lemma endswith_no_sep (c : ascii) (w : string) :
  contains c w = false -> endswith_char w c = false.
Proof.
  unfold endswith_char. induction w as [|a w IH]; [reflexivity|].
  simpl. intros H. apply orb_false_iff in H as [Ha Hw].
  destruct w as [|b w']; [exact Ha | now apply IH].
Qed.

Lemma join_simple_end (a w : string) :
  simple_name w = true -> endswith_char (posixpath.join a w) sep = false.
Proof.
  intros Hw. destruct (simple_name_head w Hw) as (x & w' & -> & Hx).
  apply simple_name_spec in Hw as (_ & _ & _ & Hc).
  unfold posixpath.join. cbn [startswith]. fold sep. rewrite Hx. cbn [andb].
  destruct (negb (nonempty a) || endswith_char a sep).
  - rewrite endswith_char_app by discriminate. now apply endswith_no_sep.
  - rewrite (endswith_char_app a) by discriminate.
    rewrite (endswith_char_app "/") by discriminate. now apply endswith_no_sep.
Qed.

(** The file reached through simple names has no trailing slash. *)
Lemma descend_end (d : string) (ws : list string) :
  ws <> [] -> Forall (fun w => simple_name w = true) ws ->
  endswith_char (descend d ws) sep = false.
Proof.
  unfold descend. revert d. induction ws as [|w ws IH]; [contradiction|].
  intros d _ Hall. inversion Hall as [|? ? Hw Hws]; subst.
  destruct ws as [|w' ws'].
  - simpl. now apply join_simple_end.
  - change (fold_left posixpath.join (w :: w' :: ws') d)
      with (fold_left posixpath.join (w' :: ws') (posixpath.join d w)).
    apply IH; [discriminate | assumption].
Qed.

End PathFacts.

(** ** What the methods of the handler do to its state *)

Module HandlerFacts.
Import PyStr PyStrFacts Props http_server.

Ltac view :=
  unfold ret;
  cbn [fst snd headers_buffer wfile stdout stderr fresh String.append In].

Lemma version_eqb (r : request) :
  request_version r <> "HTTP/0.9" ->
  String.eqb (request_version r) "HTTP/0.9" = false.
Proof. intros H. now apply String.eqb_neq. Qed.

Section Script.

Variable lib : Library.
Variable now : Z.
Variable r : request.
Hypothesis Hversion : request_version r <> "HTTP/0.9".

Lemma send_header_run (keyword value : string) (h : handler) :
  send_header r keyword value h =
    (Ok tt, {| headers_buffer := headers_buffer h ++ [header keyword value];
               wfile := wfile h; stdout := stdout h; stderr := stderr h |}).
Proof. unfold send_header. now rewrite (version_eqb r Hversion). Qed.

Lemma end_headers_run (h : handler) :
  end_headers r h =
    (Ok tt, {| headers_buffer := [];
               wfile := wfile h ++ String.concat "" (headers_buffer h ++ [crlf]);
               stdout := stdout h; stderr := stderr h |}).
Proof. unfold end_headers. now rewrite (version_eqb r Hversion). Qed.

Lemma send_response_run (code : Z) (message : string) (h : handler) :
  send_response lib now (server.log_message lib now) r code (Some message) h =
    (Ok tt, {| headers_buffer := headers_buffer h ++ response_lines lib now code message;
               wfile := wfile h;
               stdout := stdout h ++ [summary_line lib now r code];
               stderr := stderr h |}).
Proof.
  unfold send_response, send_response_only, send_header, log_request.
  rewrite (version_eqb r Hversion).
  unfold bind, server.log_message, print, headers_buffer_append. cbn.
  rewrite <- !app_assoc. reflexivity.
Qed.

Lemma send_response_default (code : Z) (short long : string) (h : handler) :
  responses code = Some (short, long) ->
  send_response lib now (server.log_message lib now) r code None h =
  send_response lib now (server.log_message lib now) r code (Some short) h.
Proof.
  intros Hr. unfold send_response, send_response_only. now rewrite Hr.
Qed.

Lemma percent_format_error (code : Z) (message : string) :
  percent_format "code %d, message %s" [AInt code; AStr message]
  = "code " ++ str_of_Z code ++ ", message " ++ message.
Proof. cbn. now rewrite append_nil_r. Qed.

(** [send_error] with one of the two codes the handler uses: two lines
    are logged and the error reply is sent. *)
Lemma send_error_run (code : Z) (message : string) (h : handler) :
  code = 404%Z \/ code = 501%Z ->
  headers_buffer h = [] ->
  send_error lib now (server.log_message lib now) r code (Some message) h =
    (Ok tt, {| headers_buffer := [];
               wfile := wfile h ++ error_reply lib now r code message;
               stdout := stdout h ++ [error_line lib now code message;
                                      summary_line lib now r code];
               stderr := stderr h |}).
Proof.
  intros Hcode Hb. unfold send_error, error_reply, log_error.
  destruct Hcode as [-> | ->]; cbn [responses Z.eqb Pos.eqb].
  all: cbv beta iota zeta.
  all: change ((200 <=? 404)%Z) with true; change ((200 <=? 501)%Z) with true.
  all: cbn [Z.eqb Pos.eqb orb andb negb].
  all: unfold bind at 1; unfold server.log_message at 1, print.
  all: rewrite percent_format_error.
  all: unfold bind; rewrite send_response_run; cbv beta iota.
  all: rewrite !send_header_run; cbv beta iota.
  all: rewrite end_headers_run; cbv beta iota.
  all: cbn [headers_buffer wfile stdout stderr]; rewrite Hb.
  all: destruct (negb (String.eqb (command r) "HEAD") && nonempty _);
    unfold wfile_write, ret; cbn [headers_buffer wfile stdout stderr];
    rewrite <- ?app_assoc; cbn [List.app];
    rewrite ?append_nil_r, ?append_assoc; reflexivity.
Qed.

Variable os : OS.
Variable d : string.

(** Serving a file that cannot be opened: the reply is 404. *)
Lemma send_head_file_unopened (p : string) (e : exn) (h : handler) :
  headers_buffer h = [] ->
  open_rb os p = Fails e -> is_OSError e = true ->
  send_head_file lib os now (server.log_message lib now) r p h =
    (Ok None,
     {| headers_buffer := [];
        wfile := wfile h ++ error_reply lib now r 404 "File not found";
        stdout := stdout h ++ [error_line lib now 404 "File not found";
                               summary_line lib now r 404];
        stderr := stderr h |}).
Proof.
  intros Hb Hopen He. unfold send_head_file.
  destruct (endswith_char p sep).
  - unfold bind. rewrite send_error_run by auto. reflexivity.
  - rewrite Hopen, He. unfold bind. rewrite send_error_run by auto. reflexivity.
Qed.

(** A path that ends with a slash is not served as a file. *)
Lemma send_head_file_slash (p : string) (h : handler) :
  headers_buffer h = [] ->
  endswith_char p sep = true ->
  send_head_file lib os now (server.log_message lib now) r p h =
    (Ok None,
     {| headers_buffer := [];
        wfile := wfile h ++ error_reply lib now r 404 "File not found";
        stdout := stdout h ++ [error_line lib now 404 "File not found";
                               summary_line lib now r 404];
        stderr := stderr h |}).
Proof.
  intros Hb Hs. unfold send_head_file. rewrite Hs.
  unfold bind. rewrite send_error_run by auto. reflexivity.
Qed.

(** Serving a file that opens, when the client has no current copy. *)
Lemma send_head_file_ok (p : string) (f : file) (fs : stat_result) (h : handler) :
  headers_buffer h = [] ->
  endswith_char p sep = false ->
  open_rb os p = Returns f -> fstat f = Returns fs ->
  not_modified lib r fs = false ->
  send_head_file lib os now (server.log_message lib now) r p h =
    (Ok (Some (file_reader f)),
     {| headers_buffer := [];
        wfile := wfile h ++ ok_head lib now (guess_type lib p) fs;
        stdout := stdout h ++ [summary_line lib now r 200];
        stderr := stderr h |}).
Proof.
  intros Hb Hs Hopen Hstat Hnm. unfold send_head_file.
  rewrite Hs, Hopen, Hstat, Hnm.
  unfold bind. rewrite (send_response_default 200 "OK" _) by reflexivity.
  rewrite send_response_run. cbv beta iota.
  rewrite !send_header_run. cbv beta iota.
  rewrite end_headers_run. cbv beta iota.
  cbn [headers_buffer wfile stdout stderr]. rewrite Hb.
  unfold ret, ok_head. rewrite <- ?app_assoc. reflexivity.
Qed.

(** Serving a file of which the client has a current copy. *)
Lemma send_head_file_not_modified (p : string) (f : file) (fs : stat_result)
    (h : handler) :
  headers_buffer h = [] ->
  endswith_char p sep = false ->
  open_rb os p = Returns f -> fstat f = Returns fs ->
  not_modified lib r fs = true ->
  send_head_file lib os now (server.log_message lib now) r p h =
    (Ok None,
     {| headers_buffer := [];
        wfile := wfile h
                 ++ String.concat ""
                      (response_lines lib now 304 "Not Modified" ++ [crlf]);
        stdout := stdout h ++ [summary_line lib now r 304];
        stderr := stderr h |}).
Proof.
  intros Hb Hs Hopen Hstat Hnm. unfold send_head_file.
  rewrite Hs, Hopen, Hstat, Hnm.
  unfold bind. rewrite (send_response_default 304 "Not Modified" _) by reflexivity.
  rewrite send_response_run. cbv beta iota.
  rewrite end_headers_run. cbv beta iota.
  cbn [headers_buffer wfile stdout stderr]. rewrite Hb. reflexivity.
Qed.

(** A request for a path that is not a directory is served as a file. *)
Lemma send_head_not_dir (h : handler) :
  os_path_isdir os (translate_path lib d (path r)) = false ->
  send_head lib os now d (server.log_message lib now) r h =
  send_head_file lib os now (server.log_message lib now) r
    (translate_path lib d (path r)) h.
Proof. intros Hd. unfold send_head, self_path. now rewrite Hd. Qed.

(** A directory without index page that cannot be listed: the reply is
    404. *)
Lemma send_head_unlisted (e : exn) (h : handler) :
  headers_buffer h = [] ->
  os_path_isdir os (translate_path lib d (path r)) = true ->
  endswith_char (urlsplit_path lib (path r)) sep = true ->
  os_path_isfile os
    (posixpath.join (translate_path lib d (path r)) "index.html") = false ->
  os_path_isfile os
    (posixpath.join (translate_path lib d (path r)) "index.htm") = false ->
  os_listdir os (translate_path lib d (path r)) = Fails e ->
  is_OSError e = true ->
  send_head lib os now d (server.log_message lib now) r h =
    (Ok None,
     {| headers_buffer := [];
        wfile := wfile h
                 ++ error_reply lib now r 404 "No permission to list directory";
        stdout := stdout h
                  ++ [error_line lib now 404 "No permission to list directory";
                      summary_line lib now r 404];
        stderr := stderr h |}).
Proof.
  intros Hb Hdir Hsl Hi1 Hi2 Hl He. unfold send_head, self_path.
  rewrite Hdir, Hsl. cbn [negb]. rewrite Hi1, Hi2.
  unfold list_directory. rewrite Hl, He.
  unfold bind. rewrite send_error_run by auto. reflexivity.
Qed.

(** The handler of the script on a request with method GET or HEAD. *)
Lemma init_get (h : handler) :
  command r = "GET" ->
  init lib os now d (server.log_message lib now) r h =
  try_finally (do_GET lib os now d (server.log_message lib now) r) (ret tt) h.
Proof.
  intros Hc. unfold init, handle, handle_one_request. now rewrite Hc.
Qed.

Lemma init_head (h : handler) :
  command r = "HEAD" ->
  init lib os now d (server.log_message lib now) r h =
  try_finally (do_HEAD lib os now d (server.log_message lib now) r) (ret tt) h.
Proof.
  intros Hc. unfold init, handle, handle_one_request. now rewrite Hc.
Qed.

Lemma error_reply_status (code : Z) (message : string) :
  starts_with_status (error_reply lib now r code message) code.
Proof.
  unfold starts_with_status, error_reply, response_lines.
  cbn [String.concat List.app]. rewrite append_assoc.
  eexists. eexists. reflexivity.
Qed.

Lemma ok_head_status (ctype : string) (fs : stat_result) :
  starts_with_status (ok_head lib now ctype fs) 200.
Proof.
  unfold starts_with_status, ok_head, response_lines.
  cbn [String.concat List.app]. eexists. eexists. reflexivity.
Qed.

Lemma starts_with_status_app (reply more : string) (code : Z) :
  starts_with_status reply code -> starts_with_status (reply ++ more) code.
Proof.
  intros (m & rest & ->). exists m, (rest ++ more). apply append_assoc.
Qed.

(** [send_head_file] logs as described, whatever the file system does. *)
Lemma send_head_file_logged (p : string) (out err : list string) :
  logged lib now r out None
    (fst (send_head_file lib os now (server.log_message lib now) r p (fresh out err)))
    (snd (send_head_file lib os now (server.log_message lib now) r p (fresh out err))).
Proof.
  destruct (endswith_char p sep) eqn:Hs.
  { rewrite send_head_file_slash by (reflexivity || assumption).
    apply logged_twice with (code := 404%Z) (message := "File not found");
      view; auto using error_reply_status. }
  destruct (open_rb os p) as [f | e] eqn:Hopen.
  - destruct (fstat f) as [fs | e] eqn:Hstat.
    + destruct (not_modified lib r fs) eqn:Hnm.
      * rewrite (send_head_file_not_modified p f fs) by (reflexivity || assumption).
        apply logged_once with (code := 304%Z); view; auto; [|discriminate].
        unfold starts_with_status, response_lines. cbn [String.concat List.app].
        eexists. eexists. reflexivity.
      * rewrite (send_head_file_ok p f fs) by (reflexivity || assumption).
        apply logged_once with (code := 200%Z); view; auto using ok_head_status.
        discriminate.
    + unfold send_head_file. rewrite Hs, Hopen, Hstat.
      apply logged_nothing with (e := e); reflexivity.
  - destruct (is_OSError e) eqn:He.
    + rewrite (send_head_file_unopened p e) by (reflexivity || assumption).
      apply logged_twice with (code := 404%Z) (message := "File not found");
        view; auto using error_reply_status.
    + unfold send_head_file. rewrite Hs, Hopen, He.
      apply logged_nothing with (e := e); reflexivity.
Qed.

(** [list_directory] logs as described. *)
Lemma list_directory_logged (p : string) (out err : list string) :
  logged lib now r out None
    (fst (list_directory lib os now (server.log_message lib now) r p (fresh out err)))
    (snd (list_directory lib os now (server.log_message lib now) r p (fresh out err))).
Proof.
  unfold list_directory.
  destruct (os_listdir os p) as [l | e].
  - unfold bind. rewrite (send_response_default 200 "OK" _) by reflexivity.
    rewrite send_response_run. cbv beta iota.
    rewrite !send_header_run. cbv beta iota.
    rewrite end_headers_run. cbv beta iota.
    apply logged_once with (code := 200%Z); view; auto; [|discriminate].
    unfold starts_with_status. eexists. eexists. reflexivity.
  - destruct (is_OSError e).
    + unfold bind. rewrite send_error_run by auto.
      apply logged_twice
        with (code := 404%Z) (message := "No permission to list directory");
        view; auto using error_reply_status.
    + apply logged_nothing with (e := e); reflexivity.
Qed.

(** [send_head] logs as described. *)
Lemma send_head_logged (out err : list string) :
  logged lib now r out None
    (fst (send_head lib os now d (server.log_message lib now) r (fresh out err)))
    (snd (send_head lib os now d (server.log_message lib now) r (fresh out err))).
Proof.
  unfold send_head.
  destruct (os_path_isdir os _); [|apply send_head_file_logged].
  destruct (negb (endswith_char _ sep)).
  - unfold bind.
    rewrite (send_response_default 301 "Moved Permanently" _) by reflexivity.
    rewrite send_response_run. cbv beta iota.
    rewrite !send_header_run. cbv beta iota.
    rewrite end_headers_run. cbv beta iota.
    apply logged_once with (code := 301%Z); view; auto; [|discriminate].
    unfold starts_with_status. eexists. eexists. reflexivity.
  - destruct (os_path_isfile os _); [apply send_head_file_logged|].
    destruct (os_path_isfile os _); [apply send_head_file_logged|].
    apply list_directory_logged.
Qed.

(** The handler of the script logs as described. *)
Lemma init_logged (out err : list string) :
  logged lib now r out tt
    (fst (init lib os now d (server.log_message lib now) r (fresh out err)))
    (snd (init lib os now d (server.log_message lib now) r (fresh out err))).
Proof.
  unfold init, handle, handle_one_request.
  pose proof (send_head_logged out err) as Hlog.
  destruct (String.eqb (command r) "GET").
  - unfold try_finally, do_GET, bind.
    destruct (send_head lib os now d (server.log_message lib now) r (fresh out err))
      as [res h'] eqn:Hsh.
    cbn [fst snd] in Hlog.
    destruct Hlog as [code Hin Hout Hst Hnb | code m Hin Hout Hst Hres | e Hout Hw Hres].
    + destruct res as [[f|] | e |]; [| | | contradiction].
      * unfold copyfile, bind, wfile_write, try_finally, raise.
        destruct (read_error f); view.
        all: apply logged_once with (code := code); view;
          auto using starts_with_status_app; discriminate.
      * view. apply logged_once with (code := code); auto. discriminate.
      * view. apply logged_once with (code := code); auto. discriminate.
    + subst res. view. apply logged_twice with (code := code) (message := m); auto.
    + subst res. view. apply logged_nothing with (e := e); auto.
  - destruct (String.eqb (command r) "HEAD").
    + unfold try_finally, do_HEAD, bind.
      destruct (send_head lib os now d (server.log_message lib now) r (fresh out err))
        as [res h'] eqn:Hsh.
      cbn [fst snd] in Hlog.
      destruct Hlog as [code Hin Hout Hst Hnb | code m Hin Hout Hst Hres | e Hout Hw Hres].
      * destruct res as [o | e |]; [| | contradiction]; view.
        all: apply logged_once with (code := code); auto; discriminate.
      * subst res. view. apply logged_twice with (code := code) (message := m); auto.
      * subst res. view. apply logged_nothing with (e := e); auto.
    + unfold try_finally. rewrite send_error_run by auto. view.
      eapply logged_twice with (code := 501%Z); view; auto using error_reply_status.
Qed.

End Script.

End HandlerFacts.

(** ** The claims on requests *)

Import PyStr Props.









(** ** The reply does not depend on the log sink *)

Module LogFacts.
Import http_server.

Lemma same_reply_refl (h : handler) : same_reply h h.
Proof. split; reflexivity. Qed.

Section Generic.

Context {S : Type} (R : S -> S -> Prop).

Lemma alike_on_ret {A : Type} (a : A) : alike_on R (ret a) (ret a).
Proof. intros s1 s2 Hs. split; [reflexivity | exact Hs]. Qed.

Lemma alike_on_raise {A : Type} (e : exn) : alike_on R (@raise S A e) (raise e).
Proof. intros s1 s2 Hs. split; [reflexivity | exact Hs]. Qed.

Lemma alike_on_bind {A B : Type} (m1 m2 : M S A) (k1 k2 : A -> M S B) :
  alike_on R m1 m2 -> (forall a, alike_on R (k1 a) (k2 a)) ->
  alike_on R (bind m1 k1) (bind m2 k2).
Proof.
  intros Hm Hk s1 s2 Hs. unfold bind.
  destruct (Hm s1 s2 Hs) as [Hres Hs'].
  destruct (m1 s1) as [res1 s1'], (m2 s2) as [res2 s2'].
  cbn [fst snd] in Hres, Hs'. subst res2.
  destruct res1 as [a | e |].
  - apply Hk, Hs'.
  - split; [reflexivity | exact Hs'].
  - split; [reflexivity | exact Hs'].
Qed.

Lemma alike_on_try_finally {A : Type} (m1 m2 : M S A) (f1 f2 : M S unit) :
  alike_on R m1 m2 -> alike_on R f1 f2 ->
  alike_on R (try_finally m1 f1) (try_finally m2 f2).
Proof.
  intros Hm Hf s1 s2 Hs. unfold try_finally.
  destruct (Hm s1 s2 Hs) as [Hres Hs'].
  destruct (m1 s1) as [res1 s1'], (m2 s2) as [res2 s2'].
  cbn [fst snd] in Hres, Hs'. subst res2.
  destruct res1 as [a | e |]; [| | split; [reflexivity | exact Hs']].
  all: destruct (Hf s1' s2' Hs') as [Hres Hs''].
  all: destruct (f1 s1') as [r1 s1''], (f2 s2') as [r2 s2''].
  all: cbn [fst snd] in Hres, Hs''; subst r2.
  all: destruct r1; split; (reflexivity || exact Hs'').
Qed.

Lemma alike_on_try_except {A : Type} (m1 m2 : M S A) (catches : exn -> bool)
    (h1 h2 : exn -> M S A) :
  alike_on R m1 m2 -> (forall e, alike_on R (h1 e) (h2 e)) ->
  alike_on R (try_except m1 catches h1) (try_except m2 catches h2).
Proof.
  intros Hm Hh s1 s2 Hs. unfold try_except.
  destruct (Hm s1 s2 Hs) as [Hres Hs'].
  destruct (m1 s1) as [res1 s1'], (m2 s2) as [res2 s2'].
  cbn [fst snd] in Hres, Hs'. subst res2.
  destruct res1 as [a | e |]; try (split; [reflexivity | exact Hs']).
  destruct (catches e); [apply Hh, Hs' | split; [reflexivity | exact Hs']].
Qed.

End Generic.

Lemma alike_ret {A : Type} (a : A) : alike (ret a) (ret a).
Proof. apply alike_on_ret. Qed.

Lemma alike_raise {A : Type} (e : exn) : alike (@raise handler A e) (raise e).
Proof. apply alike_on_raise. Qed.

Lemma alike_bind {A B : Type} (m1 m2 : H A) (k1 k2 : A -> H B) :
  alike m1 m2 -> (forall a, alike (k1 a) (k2 a)) ->
  alike (bind m1 k1) (bind m2 k2).
Proof. apply alike_on_bind. Qed.

Lemma alike_try_finally {A : Type} (m1 m2 : H A) (f1 f2 : H unit) :
  alike m1 m2 -> alike f1 f2 ->
  alike (try_finally m1 f1) (try_finally m2 f2).
Proof. apply alike_on_try_finally. Qed.

Lemma alike_headers_buffer_append (line : string) :
  alike (headers_buffer_append line) (headers_buffer_append line).
Proof.
  intros h1 h2 [Hb Hw]. unfold headers_buffer_append, same_reply. cbn.
  now rewrite Hb, Hw.
Qed.

Lemma alike_flush_headers : alike flush_headers flush_headers.
Proof.
  intros h1 h2 [Hb Hw]. unfold flush_headers, same_reply. cbn.
  now rewrite Hb, Hw.
Qed.

Lemma alike_wfile_write (b : string) : alike (wfile_write b) (wfile_write b).
Proof.
  intros h1 h2 [Hb Hw]. unfold wfile_write, same_reply. cbn.
  now rewrite Hb, Hw.
Qed.

(** Two log sinks are alike. *)
Lemma alike_sinks (log1 log2 : string -> list fmt_arg -> H unit)
    (format : string) (args : list fmt_arg) :
  sink_only log1 -> sink_only log2 ->
  alike (log1 format args) (log2 format args).
Proof.
  intros H1 H2 h1 h2 [Hb Hw].
  destruct (H1 format args h1) as (o1 & e1 & ->).
  destruct (H2 format args h2) as (o2 & e2 & ->).
  split; [reflexivity|]. split; assumption.
Qed.

Create HintDb alike discriminated.
#[local] Hint Resolve alike_ret alike_raise alike_headers_buffer_append
  alike_flush_headers alike_wfile_write alike_sinks : alike.

Section Sinks.

Variable lib : Library.
Variable os : OS.
Variable now : Z.
Variable d : string.
Variables log1 log2 : string -> list fmt_arg -> H unit.
Hypothesis Hsink1 : sink_only log1.
Hypothesis Hsink2 : sink_only log2.
Variable r : request.

Ltac seq :=
  repeat first [ solve [auto with alike] | apply alike_bind; [|intros _] ].
Ltac case_if :=
  match goal with |- context [if ?b then _ else _] => destruct b end.

Lemma alike_send_header (k v : string) :
  alike (send_header r k v) (send_header r k v).
Proof. unfold send_header. destruct (negb _); auto with alike. Qed.

Lemma alike_end_headers : alike (end_headers r) (end_headers r).
Proof. unfold end_headers. destruct (negb _); seq. Qed.

Lemma alike_send_response (code : Z) (message : option string) :
  alike (send_response lib now log1 r code message)
        (send_response lib now log2 r code message).
Proof.
  unfold send_response, log_request, send_response_only.
  pose proof alike_send_header.
  destruct (negb _); seq.
Qed.

Lemma alike_send_error (code : Z) (message : option string) :
  alike (send_error lib now log1 r code message)
        (send_error lib now log2 r code message).
Proof.
  unfold send_error, log_error.
  pose proof alike_send_header. pose proof alike_send_response.
  pose proof alike_end_headers.
  destruct (responses code) as [[short long]|]; cbv beta iota zeta.
  all: destruct ((200 <=? code)%Z
                 && negb ((code =? 204)%Z || (code =? 205)%Z || (code =? 304)%Z)).
  all: seq.
  all: repeat case_if; auto with alike.
Qed.

Lemma alike_send_head_file (p : string) :
  alike (send_head_file lib os now log1 r p) (send_head_file lib os now log2 r p).
Proof.
  unfold send_head_file.
  pose proof alike_send_header. pose proof alike_send_response.
  pose proof alike_end_headers. pose proof alike_send_error.
  destruct (PyStr.endswith_char p PyStr.sep); [seq|].
  destruct (open_rb os p) as [f | e].
  - destruct (fstat f) as [fs | e]; [|auto with alike].
    destruct (not_modified lib r fs); seq.
  - destruct (is_OSError e); seq.
Qed.

Lemma alike_list_directory (p : string) :
  alike (list_directory lib os now log1 r p) (list_directory lib os now log2 r p).
Proof.
  unfold list_directory.
  pose proof alike_send_header. pose proof alike_send_response.
  pose proof alike_end_headers. pose proof alike_send_error.
  destruct (os_listdir os p) as [l | e]; [seq|].
  destruct (is_OSError e); seq.
Qed.

Lemma alike_send_head :
  alike (send_head lib os now d log1 r) (send_head lib os now d log2 r).
Proof.
  unfold send_head.
  pose proof alike_send_header. pose proof alike_send_response.
  pose proof alike_end_headers. pose proof alike_send_head_file.
  pose proof alike_list_directory.
  destruct (os_path_isdir os _); [|auto].
  destruct (negb _); [seq|].
  destruct (os_path_isfile os _); [auto|].
  destruct (os_path_isfile os _); auto.
Qed.

(** The handler run with either sink ends alike and sends the same. *)
Lemma alike_init :
  alike (init lib os now d log1 r) (init lib os now d log2 r).
Proof.
  unfold init, handle, handle_one_request.
  apply alike_try_finally; [|auto with alike].
  pose proof alike_send_head. pose proof alike_send_error.
  destruct (String.eqb (command r) "GET").
  - unfold do_GET. apply alike_bind; [auto|].
    intros [f|]; [|auto with alike].
    apply alike_try_finally; [|auto with alike].
    unfold copyfile. apply alike_bind; [auto with alike|]. intros _.
    destruct (read_error f); auto with alike.
  - destruct (String.eqb (command r) "HEAD"); [|auto].
    unfold do_HEAD. apply alike_bind; [auto|]. intros _. auto with alike.
Qed.

End Sinks.

Lemma sink_only_log_message (lib : Library) (now : Z) :
  sink_only (server.log_message lib now).
Proof. intros format args h. eexists. eexists. reflexivity. Qed.

Lemma sink_only_no_log : sink_only no_log.
Proof. intros format args h. exists (stdout h), (stderr h). now destruct h. Qed.

End LogFacts.

(** ** How handlers end *)

Module EndFacts.
Import http_server.

Section Generic.

Context {S : Type} (P : exn -> Prop).

Lemma ends_ret {A : Type} (a : A) : ends P (@ret S A a).
Proof. intros s. exact I. Qed.

Lemma ends_raise {A : Type} (e : exn) : P e -> ends P (@raise S A e).
Proof. intros He s. exact He. Qed.

Lemma ends_bind {A B : Type} (m : M S A) (k : A -> M S B) :
  ends P m -> (forall a, ends P (k a)) -> ends P (bind m k).
Proof.
  intros Hm Hk s. unfold bind. specialize (Hm s).
  destruct (m s) as [[a | e |] s']; cbn [fst] in *.
  - apply Hk.
  - exact Hm.
  - exact Hm.
Qed.

Lemma ends_try_finally {A : Type} (m : M S A) (f : M S unit) :
  ends P m -> ends P f -> ends P (try_finally m f).
Proof.
  intros Hm Hf s. unfold try_finally. specialize (Hm s).
  destruct (m s) as [[a | e |] s']; cbn [fst] in *; [| |exact Hm].
  all: specialize (Hf s'); destruct (f s') as [[u | e' |] s'']; cbn [fst] in *;
    auto.
Qed.

End Generic.

Lemma ends_sink (P : exn -> Prop) (log : string -> list fmt_arg -> H unit)
    (format : string) (args : list fmt_arg) :
  sink_only log -> ends P (log format args).
Proof. intros Hs h. destruct (Hs format args h) as (o & e & ->). exact I. Qed.

Lemma ends_headers_buffer_append (P : exn -> Prop) (line : string) :
  ends P (headers_buffer_append line).
Proof. intros h. exact I. Qed.

Lemma ends_flush_headers (P : exn -> Prop) : ends P flush_headers.
Proof. intros h. exact I. Qed.

Lemma ends_wfile_write (P : exn -> Prop) (b : string) : ends P (wfile_write b).
Proof. intros h. exact I. Qed.

Create HintDb ends discriminated.
#[local] Hint Resolve ends_ret ends_sink ends_headers_buffer_append
  ends_flush_headers ends_wfile_write : ends.

Section Methods.

Variable P : exn -> Prop.
Variable lib : Library.
Variable os : OS.
Variable now : Z.
Variable d : string.
Variable log : string -> list fmt_arg -> H unit.
Hypothesis Hsink : sink_only log.
Hypothesis Hos : os_fails P os.
Variable r : request.

Ltac seq :=
  repeat first [ solve [auto with ends] | apply ends_bind; [|intros _] ].
Ltac case_if :=
  match goal with |- context [if ?b then _ else _] => destruct b end.

Lemma ends_send_header (k v : string) : ends P (send_header r k v).
Proof. unfold send_header. destruct (negb _); auto with ends. Qed.

Lemma ends_end_headers : ends P (end_headers r).
Proof. unfold end_headers. destruct (negb _); seq. Qed.

Lemma ends_send_response (code : Z) (message : option string) :
  ends P (send_response lib now log r code message).
Proof.
  unfold send_response, log_request, send_response_only.
  pose proof ends_send_header.
  destruct (negb _); seq.
Qed.

Lemma ends_send_error (code : Z) (message : option string) :
  ends P (send_error lib now log r code message).
Proof.
  unfold send_error, log_error.
  pose proof ends_send_header. pose proof ends_send_response.
  pose proof ends_end_headers.
  destruct (responses code) as [[short long]|]; cbv beta iota zeta.
  all: destruct ((200 <=? code)%Z
                 && negb ((code =? 204)%Z || (code =? 205)%Z || (code =? 304)%Z)).
  all: seq.
  all: repeat case_if; auto with ends.
Qed.

Lemma ends_send_head_file (p : string) :
  ends P (send_head_file lib os now log r p).
Proof.
  unfold send_head_file.
  pose proof ends_send_header. pose proof ends_send_response.
  pose proof ends_end_headers. pose proof ends_send_error.
  destruct Hos as (Hopen & Hstat & _ & _).
  destruct (PyStr.endswith_char p PyStr.sep); [seq|].
  destruct (open_rb os p) as [f | e] eqn:Ho.
  - destruct (fstat f) as [fs | e] eqn:Hf.
    + destruct (not_modified lib r fs); seq.
    + apply ends_raise. eapply Hstat; eassumption.
  - destruct (is_OSError e); [seq|].
    apply ends_raise. eapply Hopen; eassumption.
Qed.

Lemma ends_list_directory (p : string) :
  ends P (list_directory lib os now log r p).
Proof.
  unfold list_directory.
  pose proof ends_send_header. pose proof ends_send_response.
  pose proof ends_end_headers. pose proof ends_send_error.
  destruct Hos as (_ & _ & _ & Hlist).
  destruct (os_listdir os p) as [l | e] eqn:Hl; [seq|].
  destruct (is_OSError e); [seq|].
  apply ends_raise. eapply Hlist; eassumption.
Qed.

Lemma ends_send_head : ends P (send_head lib os now d log r).
Proof.
  unfold send_head.
  pose proof ends_send_header. pose proof ends_send_response.
  pose proof ends_end_headers. pose proof ends_send_head_file.
  pose proof ends_list_directory.
  destruct (os_path_isdir os _); [|auto].
  destruct (negb _); [seq|].
  destruct (os_path_isfile os _); [auto|].
  destruct (os_path_isfile os _); auto.
Qed.

Lemma yields_bind {A B : Type} (Q : B -> Prop) (m : H A) (k : A -> H B) :
  (forall a, yields Q (k a)) -> yields Q (bind m k).
Proof.
  intros Hk h b. unfold bind.
  destruct (m h) as [[a | e |] h']; cbn [fst]; try discriminate.
  apply Hk.
Qed.

Lemma yields_ret {A : Type} (Q : A -> Prop) (a : A) : Q a -> yields Q (@ret handler A a).
Proof. intros Ha h b Hb. cbn in Hb. now injection Hb as <-. Qed.

Lemma yields_raise {A : Type} (Q : A -> Prop) (e : exn) : yields Q (@raise handler A e).
Proof. intros h b Hb. discriminate. Qed.

Ltac last_step :=
  repeat (apply yields_bind; intros _);
  first [ apply yields_raise | apply yields_ret; exact I ].

Lemma yields_send_head_file (p : string) :
  yields (reads_fail P) (send_head_file lib os now log r p).
Proof.
  unfold send_head_file.
  destruct Hos as (_ & _ & Hread & _).
  destruct (PyStr.endswith_char p PyStr.sep); [last_step|].
  destruct (open_rb os p) as [f | e] eqn:Ho.
  - destruct (fstat f) as [fs | e]; [|last_step].
    destruct (not_modified lib r fs); [last_step|].
    repeat (apply yields_bind; intros _). apply yields_ret.
    intros e He. eapply Hread; eassumption.
  - destruct (is_OSError e); last_step.
Qed.

Lemma yields_list_directory (p : string) :
  yields (reads_fail P) (list_directory lib os now log r p).
Proof.
  unfold list_directory.
  destruct (os_listdir os p) as [l | e].
  - repeat (apply yields_bind; intros _). apply yields_ret.
    intros e He. discriminate.
  - destruct (is_OSError e); last_step.
Qed.

Lemma yields_send_head : yields (reads_fail P) (send_head lib os now d log r).
Proof.
  unfold send_head.
  pose proof yields_send_head_file. pose proof yields_list_directory.
  destruct (os_path_isdir os _); [|auto].
  destruct (negb _); [last_step|].
  destruct (os_path_isfile os _); [auto|].
  destruct (os_path_isfile os _); auto.
Qed.

(** The handler never blocks, and raises only what the file system
    raised. *)
Lemma ends_init : ends P (init lib os now d log r).
Proof.
  unfold init, handle, handle_one_request.
  apply ends_try_finally; [|auto with ends].
  pose proof ends_send_error.
  destruct (String.eqb (command r) "GET").
  - unfold do_GET. intros h. unfold bind.
    pose proof (ends_send_head h) as He.
    pose proof (yields_send_head h) as Hy.
    destruct (send_head lib os now d log r h) as [[o | e |] h']; cbn [fst] in *;
      [| exact He | exact He].
    specialize (Hy o eq_refl).
    destruct o as [f|]; [|exact I].
    unfold try_finally, copyfile, bind, wfile_write. cbn [reads_fail] in Hy.
    destruct (read_error f) as [e|]; cbn; [|exact I].
    now apply Hy.
  - destruct (String.eqb (command r) "HEAD"); [|auto].
    unfold do_HEAD. apply ends_bind; [apply ends_send_head|].
    intros _. auto with ends.
Qed.

End Methods.

End EndFacts.

(** ** The process *)

Module ServerFacts.
Import socketserver server.

Lemma for_each_print (files : list dirent) (st : process) :
  for_each files (fun file => print ("  " ++ d_name file)) st =
    (Ok tt, {| sys_stdout := sys_stdout st ++ map (fun file => "  " ++ d_name file) files;
               sys_stderr := sys_stderr st;
               socket := socket st; replies := replies st |}).
Proof.
  revert st. induction files as [|f files IH]; intros st.
  - cbn. rewrite app_nil_r. now destruct st.
  - cbn [for_each map]. unfold bind. unfold print at 1. rewrite IH.
    cbn [sys_stdout sys_stderr socket replies].
    now rewrite <- app_assoc.
Qed.

(** The script up to the creation of the server. *)
Lemma run_server_listing (lib : Library) (os : OS) (inv : invocation)
    (events : list event) (files : list dirent) :
  os_listdir os (DIRECTORY inv) = Returns files ->
  run_server lib os inv events start =
    bind (TCPServer_init os ("", PORT))
      (fun _ =>
         try_finally
           (bind (print ("Server started at http://localhost:" ++ PyStr.str_of_Z PORT))
              (fun _ =>
                 try_except
                   (serve_forever (Handler lib os inv) events)
                   (fun e => match e with KeyboardInterrupt => true | _ => false end)
                   (fun _ => print "Server stopped.")))
           (server_close))
      {| sys_stdout := listing inv files; sys_stderr := [];
         socket := None; replies := [] |}.
Proof.
  intros Hl. unfold run_server.
  unfold bind at 1. unfold print at 1.
  unfold bind at 1. unfold print at 1.
  unfold bind at 1. unfold listdir at 1. rewrite Hl.
  unfold bind at 1. rewrite for_each_print. reflexivity.
Qed.

(** The script when the server starts: it serves from the state
    [serving]. *)
Lemma run_server_started (lib : Library) (os : OS) (inv : invocation)
    (events : list event) (files : list dirent) :
  os_listdir os (DIRECTORY inv) = Returns files ->
  socket_bind os "" PORT = None ->
  socket_listen os = None ->
  run_server lib os inv events start =
  serve_until_interrupt lib os inv events (serving inv files).
Proof.
  intros Hl Hb Hs. rewrite (run_server_listing lib os inv events files Hl).
  unfold TCPServer_init, server_bind, server_activate.
  cbn [fst snd]. rewrite Hb, Hs.
  unfold serve_until_interrupt, serving, banner, listing.
  unfold bind, try_except, try_finally, set_socket, print.
  cbn [sys_stdout sys_stderr socket replies].
  rewrite <- app_assoc. reflexivity.
Qed.

(** The script when the socket cannot be bound. *)
Lemma run_server_bind_fails (lib : Library) (os : OS) (inv : invocation)
    (events : list event) (files : list dirent) (e : exn) :
  os_listdir os (DIRECTORY inv) = Returns files ->
  socket_bind os "" PORT = Some e ->
  run_server lib os inv events start =
    (Raise e, {| sys_stdout := listing inv files; sys_stderr := [];
                 socket := Some Closed; replies := [] |}).
Proof.
  intros Hl Hb. rewrite (run_server_listing lib os inv events files Hl).
  unfold TCPServer_init, server_bind.
  cbn [fst snd]. rewrite Hb. reflexivity.
Qed.

Section Loop.

Variable P : exn -> Prop.
Variable handler_class : Z -> request -> http_server.H unit.
Hypothesis Hends : forall now r, ends P (handler_class now r).

(** One connection: the loop goes on, unless the handler raised an
    interrupt. *)
Lemma handle_request_result (now : Z) (r : request) (st : process) :
  exists st',
    socket st' = socket st
    /\ ((_handle_request_noblock handler_class now r st = (Ok tt, st')
         /\ List.length (replies st') = Datatypes.S (List.length (replies st)))
        \/ (_handle_request_noblock handler_class now r st
            = (Raise KeyboardInterrupt, st')
            /\ P KeyboardInterrupt)).
Proof.
  unfold _handle_request_noblock, process_request, finish_request,
    try_except, bind, shutdown_request, handle_error, eprint, ret, raise.
  pose proof (Hends now r
                {| http_server.headers_buffer := []; http_server.wfile := "";
                   http_server.stdout := sys_stdout st;
                   http_server.stderr := sys_stderr st |}) as He.
  destruct (handler_class now r _) as [[u | e |] h]; cbn [fst] in He.
  - eexists. split; [|left; split; [destruct u; reflexivity|]].
    + reflexivity.
    + cbn [replies]. rewrite length_app. cbn. lia.
  - destruct e; cbn [is_Exception].
    1-4: eexists; split; [|left; split; [reflexivity|]];
      [reflexivity | cbn [replies]; rewrite length_app; cbn; lia].
    eexists. split; [|right; split; [reflexivity | exact He]]. reflexivity.
  - contradiction.
Qed.

(** The loop does not touch the server socket, and ends only by waiting
    or by an interrupt. *)
Lemma serve_forever_result (events : list event) (st : process) :
  exists st',
    socket st' = socket st
    /\ (serve_forever handler_class events st = (Blocks, st')
        \/ serve_forever handler_class events st = (Raise KeyboardInterrupt, st')).
Proof.
  revert st. induction events as [|ev events IH]; intros st.
  - exists st. split; [reflexivity | left; reflexivity].
  - destruct ev as [now r|].
    + cbn [serve_forever]. unfold bind.
      destruct (handle_request_result now r st) as (st1 & Hs1 & [[-> _] | [-> _]]).
      * destruct (IH st1) as (st2 & Hs2 & Hres).
        exists st2. split; [congruence | exact Hres].
      * exists st1. split; [exact Hs1 | right; reflexivity].
    + exists st. split; [reflexivity | right; reflexivity].
Qed.

(** With an interrupt among the events, the loop ends by it. *)
Lemma serve_forever_interrupted (events : list event) (st : process) :
  In Interrupt events ->
  exists st',
    socket st' = socket st
    /\ serve_forever handler_class events st = (Raise KeyboardInterrupt, st').
Proof.
  revert st. induction events as [|ev events IH]; intros st Hin; [contradiction|].
  destruct ev as [now r|].
  - destruct Hin as [Hin | Hin]; [discriminate|].
    cbn [serve_forever]. unfold bind.
    destruct (handle_request_result now r st) as (st1 & Hs1 & [[-> _] | [-> _]]).
    + destruct (IH st1 Hin) as (st2 & Hs2 & Hres).
      exists st2. split; [congruence | exact Hres].
    + exists st1. split; [exact Hs1 | reflexivity].
  - exists st. split; reflexivity.
Qed.

(** With connections only and handlers that raise no interrupt, every
    connection is handled and the loop waits for the next. *)
Lemma serve_forever_connections (reqs : list (Z * request)) (st : process) :
  ~ P KeyboardInterrupt ->
  exists st',
    socket st' = socket st
    /\ serve_forever handler_class (Props.connections reqs) st = (Blocks, st')
    /\ List.length (replies st') = (List.length (replies st) + List.length reqs)%nat.
Proof.
  intros HP. revert st. induction reqs as [|[now r] reqs IH]; intros st.
  - exists st. cbn. repeat split. lia.
  - cbn [Props.connections map fst snd serve_forever]. unfold bind.
    destruct (handle_request_result now r st) as (st1 & Hs1 & [[-> Hl] | [_ Hk]]);
      [|contradiction].
    destruct (IH st1) as (st2 & Hs2 & Hres & Hl2).
    exists st2. split; [congruence|]. split; [exact Hres|].
    cbn [List.length]. lia.
Qed.

End Loop.

(** What follows an interrupt is never looked at. *)
Lemma serve_forever_cut (handler_class : Z -> request -> http_server.H unit)
    (before after : list event) (st : process) :
  serve_forever handler_class (before ++ Interrupt :: after) st =
  serve_forever handler_class (before ++ [Interrupt]) st.
Proof.
  revert st. induction before as [|ev before IH]; intros st; [reflexivity|].
  destruct ev as [now r|]; [|reflexivity].
  cbn [List.app serve_forever]. unfold bind.
  destruct (_handle_request_noblock handler_class now r st) as [[u | e |] st'];
    [apply IH | reflexivity | reflexivity].
Qed.

(** The handler of the script never blocks, and raises only what the
    file system raised. *)
Lemma Handler_ends (P : exn -> Prop) (lib : Library) (os : OS) (inv : invocation)
    (now : Z) (r : request) :
  os_fails P os -> ends P (Handler lib os inv now r).
Proof.
  intros Hos. unfold Handler.
  apply EndFacts.ends_init; [apply LogFacts.sink_only_log_message | exact Hos].
Qed.

Lemma os_fails_any (os : OS) : os_fails (fun _ => True) os.
Proof. repeat split. Qed.

Section TwoSinks.

Variables class1 class2 : Z -> request -> http_server.H unit.
Hypothesis Halike : forall now r, alike (class1 now r) (class2 now r).

Lemma alike_finish_request (now : Z) (r : request) :
  alike_on same_service (finish_request class1 now r) (finish_request class2 now r).
Proof.
  intros st1 st2 [Hsock Hrep]. unfold finish_request.
  destruct (Halike now r
              {| http_server.headers_buffer := []; http_server.wfile := "";
                 http_server.stdout := sys_stdout st1;
                 http_server.stderr := sys_stderr st1 |}
              {| http_server.headers_buffer := []; http_server.wfile := "";
                 http_server.stdout := sys_stdout st2;
                 http_server.stderr := sys_stderr st2 |})
    as [Hres [_ Hw]]; [split; reflexivity|].
  destruct (class1 now r _) as [res1 h1], (class2 now r _) as [res2 h2].
  cbn [fst snd] in *. split; [exact Hres|].
  split; cbn [socket replies]; congruence.
Qed.

Lemma alike_eprint (line : string) : alike_on same_service (eprint line) (eprint line).
Proof. intros st1 st2 Hs. split; [reflexivity | exact Hs]. Qed.

Lemma alike_handle_request (now : Z) (r : request) :
  alike_on same_service (_handle_request_noblock class1 now r)
                        (_handle_request_noblock class2 now r).
Proof.
  unfold _handle_request_noblock, process_request, shutdown_request, handle_error.
  apply LogFacts.alike_on_try_except.
  - apply LogFacts.alike_on_bind; [apply alike_finish_request|].
    intros _. apply LogFacts.alike_on_ret.
  - intros e. destruct (is_Exception e).
    + apply LogFacts.alike_on_bind; [|intros _; apply LogFacts.alike_on_ret].
      do 3 (apply LogFacts.alike_on_bind; [apply alike_eprint | intros _]).
      apply alike_eprint.
    + apply LogFacts.alike_on_bind; [apply LogFacts.alike_on_ret | intros _].
      apply LogFacts.alike_on_raise.
Qed.

(** Two servers whose handlers send alike send the same replies. *)
Lemma alike_serve_forever (events : list event) :
  alike_on same_service (serve_forever class1 events) (serve_forever class2 events).
Proof.
  induction events as [|ev events IH].
  - intros st1 st2 Hs. split; [reflexivity | exact Hs].
  - destruct ev as [now r|].
    + cbn [serve_forever]. apply LogFacts.alike_on_bind;
        [apply alike_handle_request | intros _; exact IH].
    + apply LogFacts.alike_on_raise.
Qed.

End TwoSinks.

End ServerFacts.

(** ** The claims on the process *)

(** C4.  When the directory has been listed and binding the socket to
    port 5500 fails with an OSError (address in use, permission denied),
    the process exits with status 1 after the traceback of the error was
    written on standard error; the socket is closed, the line that
    announces the server was not printed and nothing was served: the
    process does not stay waiting. *)
Theorem C4_bind_failure_is_fatal (lib : Library) (os : OS) (inv : server.invocation)
    (events : list socketserver.event) (files : list dirent) (e : exn) :
  os_listdir os (server.DIRECTORY inv) = Returns files ->
  socket_bind os "" server.PORT = Some e ->
  is_OSError e = true ->
  server.main lib os inv events =
    (Some 1%Z,
     {| socketserver.sys_stdout := listing inv files;
        socketserver.sys_stderr := [socketserver.traceback e];
        socketserver.socket := Some socketserver.Closed;
        socketserver.replies := [] |}).
Proof.
  intros Hl Hb He. unfold server.main.
  rewrite (ServerFacts.run_server_bind_fails lib os inv events files e Hl Hb).
  destruct e; try discriminate; reflexivity.
Qed.

Lemma C4_witness :
  server.main Sample.lib Sample.os_port_in_use Sample.inv
    [socketserver.Connection 1500 (Sample.get "/index.html")] =
    (Some 1%Z,
     {| socketserver.sys_stdout :=
          listing Sample.inv
            [ {| d_name := "index.html"; d_isdir := false; d_islink := false |};
              {| d_name := "app.js"; d_isdir := false; d_islink := false |};
              {| d_name := "css"; d_isdir := true; d_islink := false |};
              {| d_name := "server.py"; d_isdir := false; d_islink := false |} ];
        socketserver.sys_stderr := [socketserver.traceback OSError];
        socketserver.socket := Some socketserver.Closed;
        socketserver.replies := [] |}).
Proof.
  apply (C4_bind_failure_is_fatal Sample.lib Sample.os_port_in_use Sample.inv).
  - reflexivity.
  - reflexivity.
  - reflexivity.
Defined.

(** C5.  Once the server has started, an interrupt that arrives while the
    serve loop runs ends the loop: the script prints "Server stopped." as
    its last line, the listening socket is closed, and the process exits
    with status 0.  Nothing that would have arrived after the interrupt
    is served. *)
Theorem C5_interrupt_stops_server (lib : Library) (os : OS)
    (inv : server.invocation) (before after : list socketserver.event)
    (files : list dirent) :
  os_listdir os (server.DIRECTORY inv) = Returns files ->
  socket_bind os "" server.PORT = None ->
  socket_listen os = None ->
  exists st,
    server.main lib os inv (before ++ socketserver.Interrupt :: after) = (Some 0%Z, st)
    /\ socketserver.socket st = Some socketserver.Closed
    /\ List.last (socketserver.sys_stdout st) "" = "Server stopped."
    /\ server.main lib os inv (before ++ [socketserver.Interrupt]) = (Some 0%Z, st).
Proof.
  intros Hl Hb Hs. unfold server.main.
  rewrite !(ServerFacts.run_server_started lib os inv _ files Hl Hb Hs).
  unfold serve_until_interrupt, try_finally, try_except.
  rewrite ServerFacts.serve_forever_cut.
  destruct (ServerFacts.serve_forever_interrupted (fun _ => True)
              (server.Handler lib os inv)
              (fun now r => ServerFacts.Handler_ends _ lib os inv now r
                              (ServerFacts.os_fails_any os))
              (before ++ [socketserver.Interrupt]) (serving inv files))
    as (st1 & _ & Hrun).
  { apply in_or_app. right. left. reflexivity. }
  rewrite Hrun.
  unfold server.print, socketserver.server_close, socketserver.set_socket.
  eexists. split; [reflexivity|].
  cbn [socketserver.socket socketserver.sys_stdout].
  split; [reflexivity|]. split; [apply List.last_last | reflexivity].
Qed.

Lemma C5_witness :
  exists st,
    server.main Sample.lib Sample.os Sample.inv
      ([socketserver.Connection 1500 (Sample.get "/index.html")]
       ++ socketserver.Interrupt
          :: [socketserver.Connection 1600 (Sample.get "/app.js")])
    = (Some 0%Z, st)
    /\ socketserver.socket st = Some socketserver.Closed
    /\ List.last (socketserver.sys_stdout st) "" = "Server stopped."
    /\ server.main Sample.lib Sample.os Sample.inv
         ([socketserver.Connection 1500 (Sample.get "/index.html")]
          ++ [socketserver.Interrupt])
       = (Some 0%Z, st).
Proof.
  apply (C5_interrupt_stops_server Sample.lib Sample.os Sample.inv
           [socketserver.Connection 1500 (Sample.get "/index.html")]
           [socketserver.Connection 1600 (Sample.get "/app.js")]
           [ {| d_name := "index.html"; d_isdir := false; d_islink := false |};
             {| d_name := "app.js"; d_isdir := false; d_islink := false |};
             {| d_name := "css"; d_isdir := true; d_islink := false |};
             {| d_name := "server.py"; d_isdir := false; d_islink := false |} ]).
  - reflexivity.
  - reflexivity.
  - reflexivity.
Defined.

(** C10.  The server is bound to the empty host and port 5500: when the
    start succeeds the process serves from a state whose socket listens on
    every address of the machine, while the last line printed names
    localhost only; and as long as the process has not exited its socket
    stays so. *)
Theorem C10_listens_on_all_interfaces (lib : Library) (os : OS)
    (inv : server.invocation) (files : list dirent) :
  os_listdir os (server.DIRECTORY inv) = Returns files ->
  socket_bind os "" server.PORT = None ->
  socket_listen os = None ->
  server.main lib os inv [] = (None, serving inv files)
  /\ socketserver.socket (serving inv files)
     = Some (socketserver.Listening "" 5500)
  /\ List.last (socketserver.sys_stdout (serving inv files)) ""
     = "Server started at http://localhost:5500"
  /\ (forall events st,
        server.main lib os inv events = (None, st) ->
        socketserver.socket st = Some (socketserver.Listening "" 5500)
        /\ forall addr, socketserver.receives (socketserver.socket st) addr = true).
Proof.
  intros Hl Hb Hs. split; [|split; [|split]].
  - unfold server.main.
    rewrite (ServerFacts.run_server_started lib os inv _ files Hl Hb Hs).
    reflexivity.
  - reflexivity.
  - unfold serving, banner. cbn [socketserver.sys_stdout].
    rewrite app_assoc. apply List.last_last.
  - intros events st Hmain.
    assert (Hsock : socketserver.socket st = Some (socketserver.Listening "" 5500)).
    { unfold server.main in Hmain.
      rewrite (ServerFacts.run_server_started lib os inv _ files Hl Hb Hs) in Hmain.
      unfold serve_until_interrupt, try_finally, try_except in Hmain.
      destruct (ServerFacts.serve_forever_result (fun _ => True)
                  (server.Handler lib os inv)
                  (fun now r => ServerFacts.Handler_ends _ lib os inv now r
                                  (ServerFacts.os_fails_any os))
                  events (serving inv files)) as (st1 & Hs1 & [Hrun | Hrun]);
        rewrite Hrun in Hmain.
      - injection Hmain as <-. exact Hs1.
      - discriminate. }
    split; [exact Hsock|]. intros addr. now rewrite Hsock.
Qed.

Lemma C10_witness :
  server.main Sample.lib Sample.os Sample.inv []
  = (None,
     serving Sample.inv
       [ {| d_name := "index.html"; d_isdir := false; d_islink := false |};
         {| d_name := "app.js"; d_isdir := false; d_islink := false |};
         {| d_name := "css"; d_isdir := true; d_islink := false |};
         {| d_name := "server.py"; d_isdir := false; d_islink := false |} ]).
Proof.
  apply (C10_listens_on_all_interfaces Sample.lib Sample.os Sample.inv
           [ {| d_name := "index.html"; d_isdir := false; d_islink := false |};
             {| d_name := "app.js"; d_isdir := false; d_islink := false |};
             {| d_name := "css"; d_isdir := true; d_islink := false |};
             {| d_name := "server.py"; d_isdir := false; d_islink := false |} ]).
  - reflexivity.
  - reflexivity.
  - reflexivity.
Defined.



(** The failures of the sample disk are exceptions. *)
Lemma sample_os_fails : os_fails (fun e => is_Exception e = true) Sample.os.
Proof.
  unfold os_fails. cbn [Sample.os open_rb os_listdir].
  split; [|split; [|split]].
  - intros p e. repeat (destruct (String.eqb p _); try discriminate).
    all: intros H; injection H as <-; reflexivity.
  - intros p f e. repeat (destruct (String.eqb p _); try discriminate).
    all: intros H; injection H as <-; discriminate.
  - intros p f e. repeat (destruct (String.eqb p _); try discriminate).
    all: intros H; injection H as <-; cbn; try discriminate.
    intros H; injection H as <-; reflexivity.
  - intros p e. repeat (destruct (_ || _); try discriminate).
    intros H; injection H as <-; reflexivity.
Qed.

(** C7, as amended.  A failure of the file system when the requested file
    is opened (missing file, permission denied, any other OSError) is
    answered within the request with the 404 reply, and so is a failure to
    list a requested directory; the handler returns.  Whatever exception,
    interrupts apart, the file system raises while requests are served,
    the process does not exit: every connection is handled, the socket
    keeps listening and the loop waits for the next connection. *)
Theorem C7_filesystem_errors_confined (lib : Library) (os : OS)
    (inv : server.invocation) :
  (forall now r e out err,
      request_version r <> "HTTP/0.9" ->
      command r = "GET" \/ command r = "HEAD" ->
      os_path_isdir os
        (http_server.translate_path lib (server.DIRECTORY inv) (path r)) = false ->
      open_rb os
        (http_server.translate_path lib (server.DIRECTORY inv) (path r)) = Fails e ->
      is_OSError e = true ->
      exists h',
        server.Handler lib os inv now r (fresh out err) = (Ok tt, h')
        /\ http_server.wfile h' = error_reply lib now r 404 "File not found"
        /\ status_code (http_server.wfile h') = "404")
  /\ (forall now r e out err,
         request_version r <> "HTTP/0.9" ->
         command r = "GET" ->
         os_path_isdir os
           (http_server.translate_path lib (server.DIRECTORY inv) (path r)) = true ->
         endswith_char (urlsplit_path lib (path r)) sep = true ->
         os_path_isfile os
           (posixpath.join
              (http_server.translate_path lib (server.DIRECTORY inv) (path r))
              "index.html") = false ->
         os_path_isfile os
           (posixpath.join
              (http_server.translate_path lib (server.DIRECTORY inv) (path r))
              "index.htm") = false ->
         os_listdir os
           (http_server.translate_path lib (server.DIRECTORY inv) (path r)) = Fails e ->
         is_OSError e = true ->
         exists h',
           server.Handler lib os inv now r (fresh out err) = (Ok tt, h')
           /\ http_server.wfile h'
              = error_reply lib now r 404 "No permission to list directory"
           /\ status_code (http_server.wfile h') = "404")
  /\ (forall files reqs,
         os_fails (fun e => is_Exception e = true) os ->
         os_listdir os (server.DIRECTORY inv) = Returns files ->
         socket_bind os "" server.PORT = None ->
         socket_listen os = None ->
         exists st,
           server.main lib os inv (connections reqs) = (None, st)
           /\ socketserver.socket st = Some (socketserver.Listening "" server.PORT)
           /\ List.length (socketserver.replies st) = List.length reqs).
Proof.
  split; [|split].
  - intros now r e out err Hv Hc Hdir Hopen He. unfold server.Handler.
    destruct Hc as [Hc | Hc].
    + rewrite HandlerFacts.init_get by assumption.
      unfold try_finally, http_server.do_GET, bind.
      rewrite HandlerFacts.send_head_not_dir by assumption.
      rewrite (HandlerFacts.send_head_file_unopened lib now r Hv os _ e)
        by (assumption || reflexivity).
      eexists. split; [reflexivity|]. split; reflexivity.
    + rewrite HandlerFacts.init_head by assumption.
      unfold try_finally, http_server.do_HEAD, bind.
      rewrite HandlerFacts.send_head_not_dir by assumption.
      rewrite (HandlerFacts.send_head_file_unopened lib now r Hv os _ e)
        by (assumption || reflexivity).
      eexists. split; [reflexivity|]. split; reflexivity.
  - intros now r e out err Hv Hc Hdir Hsl Hi1 Hi2 Hl He. unfold server.Handler.
    rewrite HandlerFacts.init_get by assumption.
    unfold try_finally, http_server.do_GET, bind.
    rewrite (HandlerFacts.send_head_unlisted lib now r Hv os _ e)
      by (assumption || reflexivity).
    eexists. split; [reflexivity|]. split; reflexivity.
  - intros files reqs Hos Hl Hb Hs. unfold server.main.
    rewrite (ServerFacts.run_server_started lib os inv _ files Hl Hb Hs).
    unfold serve_until_interrupt, try_finally, try_except.
    destruct (ServerFacts.serve_forever_connections
                (fun e => is_Exception e = true)
                (server.Handler lib os inv)
                (fun now r => ServerFacts.Handler_ends _ lib os inv now r Hos)
                reqs (serving inv files)) as (st & Hsock & Hrun & Hlen).
    { discriminate. }
    rewrite Hrun. exists st. split; [reflexivity|]. split; assumption.
Qed.

Lemma C7_witness :
  (exists h',
      server.Handler Sample.lib Sample.os Sample.inv 1500
        (Sample.get "/secret.txt") (fresh [] []) = (Ok tt, h')
      /\ http_server.wfile h'
         = error_reply Sample.lib 1500 (Sample.get "/secret.txt") 404 "File not found"
      /\ status_code (http_server.wfile h') = "404")
  /\ (exists st,
         server.main Sample.lib Sample.os Sample.inv
           (connections [(1500%Z, Sample.get "/secret.txt");
                         (1501%Z, Sample.get "/broken.bin");
                         (1502%Z, Sample.get "/index.html")]) = (None, st)
         /\ socketserver.socket st = Some (socketserver.Listening "" server.PORT)
         /\ List.length (socketserver.replies st) = 3%nat).
Proof.
  destruct (C7_filesystem_errors_confined Sample.lib Sample.os Sample.inv)
    as (Hopen & _ & Hloop).
  split.
  - apply (Hopen 1500%Z (Sample.get "/secret.txt") PermissionError [] []).
    + discriminate.
    + left. reflexivity.
    + reflexivity.
    + reflexivity.
    + reflexivity.
  - apply (Hloop
             [ {| d_name := "index.html"; d_isdir := false; d_islink := false |};
               {| d_name := "app.js"; d_isdir := false; d_islink := false |};
               {| d_name := "css"; d_isdir := true; d_islink := false |};
               {| d_name := "server.py"; d_isdir := false; d_islink := false |} ]
             [(1500%Z, Sample.get "/secret.txt");
              (1501%Z, Sample.get "/broken.bin");
              (1502%Z, Sample.get "/index.html")]).
    + exact sample_os_fails.
    + reflexivity.
    + reflexivity.
    + reflexivity.
Defined.

(** C7 as stated fails on a file whose reads fail: broken.bin opens, the
    200 status line and the headers are sent, then a read raises OSError.
    The request ends with this exception and no error status was, or can
    still be, returned. *)
Lemma C7_counterexample :
  (exists f,
      open_rb Sample.os "/srv/Frontend/broken.bin" = Returns f
      /\ read_error (file_reader f) = Some OSError)
  /\ exists h',
       server.Handler Sample.lib Sample.os Sample.inv 1500
         (Sample.get "/broken.bin") (fresh [] []) = (Raise OSError, h')
       /\ status_code (http_server.wfile h') = "200"
       /\ status_code (http_server.wfile h') <> "404"
       /\ status_code (http_server.wfile h') <> "403"
       /\ status_code (http_server.wfile h') <> "500".
Proof.
  split.
  - eexists. split; reflexivity.
  - eexists. split; [vm_compute; reflexivity|].
    repeat split; discriminate.
Qed.

(** ** The paths that the handler gives to the file system *)

Module InsideFacts.
Import PyStr PyStrFacts http_server.

Lemma split_sep_free (c : ascii) (s : string) :
  Forall (fun w => contains c w = false) (split c s).
Proof.
  induction s as [|a s IH]; cbn [split].
  - repeat constructor.
  - destruct (Ascii.eqb a c) eqn:Ha.
    + constructor; [reflexivity | exact IH].
    + destruct (split c s) as [|w ws]; [repeat constructor; cbn; now rewrite Ha|].
      inversion IH as [|? ? Hw Hws]; subst.
      constructor; [cbn; now rewrite Ha, Hw | exact Hws].
Qed.

Lemma endswith_char_split (s : string) (c : ascii) :
  endswith_char s c = true -> exists s0, s = s0 ++ String c "".
Proof.
  unfold endswith_char. induction s as [|a s IH]; [discriminate|].
  destruct s as [|b s'].
  - cbn. intros H. apply Ascii.eqb_eq in H as ->. now exists "".
  - intros H. destruct (IH H) as (s0 & Hs0).
    exists (String a s0). cbn. now rewrite <- Hs0.
Qed.

Lemma startswith_app (s x : string) :
  startswith s "/" = true -> startswith (s ++ x) "/" = true.
Proof. destruct s as [|a s']; [discriminate | exact (fun H => H)]. Qed.

Lemma no_sep_not_abs (w : string) :
  contains sep w = false -> startswith w "/" = false.
Proof.
  destruct w as [|a w']; [reflexivity|]. cbn. fold sep.
  intros H. apply orb_false_iff in H as [-> _]. reflexivity.
Qed.

Lemma no_dotdot_word (w : string) :
  contains sep w = false -> w <> ".." -> no_dotdot w = true.
Proof.
  intros Hc Hw. unfold no_dotdot. rewrite split_no_sep by assumption.
  cbn [existsb]. rewrite orb_false_r. apply negb_true_iff, String.eqb_neq.
  intros H. now symmetry in H.
Qed.

Lemma no_dotdot_app_sep (rest w : string) :
  no_dotdot rest = true -> contains sep w = false -> w <> ".." ->
  no_dotdot (rest ++ String sep w) = true.
Proof.
  unfold no_dotdot. intros Hr Hc Hw.
  rewrite split_app_sep, existsb_app, negb_orb, Hr.
  now apply no_dotdot_word.
Qed.

Lemma no_dotdot_trailing (r0 : string) :
  no_dotdot (r0 ++ String sep "") = true -> no_dotdot r0 = true.
Proof.
  unfold no_dotdot. rewrite split_app_sep, existsb_app, negb_orb.
  intros H. now apply andb_true_iff in H as [H _].
Qed.

Lemma inside_refl (d : string) : inside d d.
Proof. exists "". rewrite append_nil_r. repeat split. now left. Qed.

(** Joining a name that is not [..] stays inside. *)
Lemma inside_join (d a w : string) :
  d <> "" -> inside d a -> contains sep w = false -> w <> ".." ->
  inside d (posixpath.join a w).
Proof.
  intros Hd (rest & -> & Hnd & Hb) Hc Hw.
  unfold posixpath.join. rewrite (no_sep_not_abs w Hc).
  assert (Hne : nonempty (d ++ rest) = true)
    by (destruct d; [contradiction | reflexivity]).
  rewrite Hne. cbn [negb orb].
  destruct (endswith_char (d ++ rest) sep) eqn:He.
  - exists (rest ++ w). rewrite append_assoc. split; [reflexivity|].
    destruct rest as [|x rest'].
    + rewrite append_nil_r in He. cbn [String.append].
      split; [now apply no_dotdot_word | now right; right].
    + rewrite endswith_char_app in He by discriminate.
      destruct (endswith_char_split _ _ He) as (r0 & Hr0).
      rewrite Hr0 in *. split.
      * rewrite append_assoc. cbn [String.append].
        apply no_dotdot_app_sep; [now apply no_dotdot_trailing | assumption ..].
      * destruct Hb as [Hb | [Hb | Hb]].
        -- destruct r0; discriminate.
        -- right. left. now apply startswith_app.
        -- now right; right.
  - exists (rest ++ "/" ++ w). rewrite append_assoc. split; [reflexivity|].
    split.
    + now apply no_dotdot_app_sep.
    + destruct Hb as [-> | [Hb | Hb]].
      * right. left. reflexivity.
      * right. left. now apply startswith_app.
      * now right; right.
Qed.

(** A trailing slash stays inside. *)
Lemma inside_slash (d a : string) : inside d a -> inside d (a ++ "/").
Proof.
  intros (rest & -> & Hnd & Hb).
  exists (rest ++ "/"). rewrite append_assoc. split; [reflexivity|]. split.
  - change (rest ++ "/") with (rest ++ String sep "").
    unfold no_dotdot in *. rewrite split_app_sep, existsb_app, negb_orb, Hnd.
    reflexivity.
  - destruct Hb as [-> | [Hb | Hb]].
    + right. left. reflexivity.
    + right. left. now apply startswith_app.
    + now right; right.
Qed.

Lemma inside_fold (d : string) (words : list string) (a : string) :
  d <> "" -> Forall (fun w => contains sep w = false) words -> inside d a ->
  inside d
    (fold_left
       (fun path word =>
          if nonempty (posixpath.dirname word)
             || String.eqb word "." || String.eqb word ".."
          then path
          else posixpath.join path word)
       words a).
Proof.
  intros Hd Hall. revert a. induction Hall as [|w words Hw Hws IH]; intros a Ha.
  - exact Ha.
  - cbn [fold_left]. apply IH.
    destruct (nonempty (posixpath.dirname w) || String.eqb w "." || String.eqb w "..")
      eqn:Hskip; [exact Ha|].
    apply orb_false_iff in Hskip as [_ Hdd].
    apply inside_join; try assumption. now apply String.eqb_neq.
Qed.

Lemma Forall_filter {A : Type} (P : A -> Prop) (f : A -> bool) (l : list A) :
  Forall P l -> Forall P (filter f l).
Proof.
  induction 1 as [|x l Hx Hl IH]; cbn; [constructor|].
  destruct (f x); [constructor|]; assumption.
Qed.

(** Whatever the path of the request, its translation is inside the
    served directory. *)
Lemma inside_translate_path (lib : Library) (d url : string) :
  d <> "" -> inside d (translate_path lib d url).
Proof.
  intros Hd. unfold translate_path.
  assert (Hin : inside d
            (fold_left
               (fun path word =>
                  if nonempty (posixpath.dirname word)
                     || String.eqb word "." || String.eqb word ".."
                  then path
                  else posixpath.join path word)
               (filter nonempty
                  (split sep
                     (posixpath.normpath
                        (unquote lib
                           (before_first "#" (before_first "?" url))))))
               d)).
  { apply inside_fold; [assumption | | apply inside_refl].
    apply Forall_filter, split_sep_free. }
  destruct (endswith_char _ sep); [now apply inside_slash | exact Hin].
Qed.

End InsideFacts.

(** ** The served directory *)

Module DirectoryFacts.
Import PyStr PyStrFacts.

Lemma normpath_abs (p : string) :
  startswith p "/" = true -> startswith (posixpath.normpath p) "/" = true.
Proof.
  intros Hp. unfold posixpath.normpath.
  destruct p as [|a p']; [discriminate|].
  change (String.eqb (String a p') "") with false. cbv iota.
  rewrite Hp.
  destruct (startswith (String a p') "//" && negb (startswith (String a p') "///"));
    reflexivity.
Qed.

Lemma join_abs (a b : string) :
  startswith a "/" = true -> startswith (posixpath.join a b) "/" = true.
Proof.
  intros Ha. unfold posixpath.join.
  destruct (startswith b "/") eqn:Hb; [exact Hb|].
  destruct (negb (nonempty a) || endswith_char a sep);
    now apply InsideFacts.startswith_app.
Qed.

Lemma abspath_abs (cwd file : string) :
  posixpath.isabs cwd = true ->
  startswith (posixpath.abspath cwd file) "/" = true.
Proof.
  unfold posixpath.abspath, posixpath.isabs. intros Hc.
  destruct (startswith file "/") eqn:Hf.
  - now apply normpath_abs.
  - now apply normpath_abs, join_abs.
Qed.

Lemma rstrip_char_empty (c : ascii) (s : string) :
  rstrip_char c s = "" -> all_char c s = true.
Proof.
  induction s as [|a s IH]; [reflexivity|]. cbn.
  destruct (rstrip_char c s) eqn:Hr; [|discriminate].
  destruct (Ascii.eqb a c); [|discriminate].
  intros _. now apply IH.
Qed.

Lemma dirname_abs (q : string) :
  startswith q "/" = true -> posixpath.dirname q <> "".
Proof.
  destruct q as [|a q']; [discriminate|]. cbn [startswith]. fold sep.
  intros Ha. apply andb_true_iff in Ha as [Ha _].
  unfold posixpath.dirname.
  assert (Hr : exists n, rfind_succ sep (String a q') = Datatypes.S n).
  { cbn [rfind_succ]. destruct (rfind_succ sep q'); rewrite ?Ha; eauto. }
  destruct Hr as (n & ->). cbn [substring nonempty andb].
  destruct (all_char sep (String a (substring 0 n q'))) eqn:Hall; cbn [negb].
  - discriminate.
  - intros Hempty. apply rstrip_char_empty in Hempty. congruence.
Qed.

(** The served directory is never the empty path. *)
Lemma DIRECTORY_nonempty (inv : server.invocation) :
  posixpath.isabs (server.getcwd inv) = true -> server.DIRECTORY inv <> "".
Proof.
  intros Hc. unfold server.DIRECTORY. now apply dirname_abs, abspath_abs.
Qed.

End DirectoryFacts.

(** ** The reply depends on the served directory only *)

Module AgreeFacts.
Import PyStr http_server.

Section TwoDisks.

Variable lib : Library.
Variables os1 os2 : OS.
Variable now : Z.
Variable d : string.
Variable log : string -> list fmt_arg -> H unit.
Variable r : request.
Hypothesis Hd : d <> "".
Hypothesis Hagree : agree_inside d os1 os2.

Lemma agree_send_head_file (p : string) :
  inside d p ->
  send_head_file lib os1 now log r p = send_head_file lib os2 now log r p.
Proof.
  intros Hp. destruct (Hagree p Hp) as (_ & _ & Hopen & _).
  unfold send_head_file. now rewrite Hopen.
Qed.

Lemma agree_list_directory (p : string) :
  inside d p ->
  list_directory lib os1 now log r p = list_directory lib os2 now log r p.
Proof.
  intros Hp. destruct (Hagree p Hp) as (_ & _ & _ & Hlist).
  unfold list_directory. now rewrite Hlist.
Qed.

Lemma inside_index (p index : string) :
  inside d p -> index = "index.html" \/ index = "index.htm" ->
  inside d (posixpath.join p index).
Proof.
  intros Hp [-> | ->]; apply InsideFacts.inside_join; auto; discriminate.
Qed.

Lemma agree_send_head :
  send_head lib os1 now d log r = send_head lib os2 now d log r.
Proof.
  unfold send_head.
  pose proof (InsideFacts.inside_translate_path lib d (self_path r) Hd) as Hp.
  pose proof (inside_index _ "index.html" Hp (or_introl eq_refl)) as Hi1.
  pose proof (inside_index _ "index.htm" Hp (or_intror eq_refl)) as Hi2.
  destruct (Hagree _ Hp) as (Hdir & _).
  destruct (Hagree _ Hi1) as (_ & Hf1 & _).
  destruct (Hagree _ Hi2) as (_ & Hf2 & _).
  rewrite Hdir, Hf1, Hf2.
  rewrite !agree_send_head_file, agree_list_directory by assumption.
  reflexivity.
Qed.

(** On two disks that agree inside the served directory, the handler
    does the same. *)
Lemma agree_init : init lib os1 now d log r = init lib os2 now d log r.
Proof.
  unfold init, handle, handle_one_request, do_GET, do_HEAD.
  now rewrite agree_send_head.
Qed.

End TwoDisks.

End AgreeFacts.

(** The two sample machines agree inside the served directory. *)
Lemma sample_agree : agree_inside "/srv/Frontend" Sample.os Sample.os_elsewhere.
Proof.
  intros p (rest & -> & _).
  unfold Sample.os_elsewhere.
  cbn [os_path_isdir os_path_isfile open_rb os_listdir].
  change (String.eqb ("/srv/Frontend" ++ rest) "/etc") with false.
  change (String.eqb ("/srv/Frontend" ++ rest) "/etc/passwd") with false.
  repeat split.
Qed.




(** ** The directory of the script *)

Module ScriptFacts.
Import PyStr PyStrFacts.

Lemma rfind_succ_none (c : ascii) (w : string) :
  contains c w = false -> rfind_succ c w = 0%nat.
Proof.
  induction w as [|a w IH]; [reflexivity|]. cbn.
  intros H. apply orb_false_iff in H as [Ha Hw]. now rewrite (IH Hw), Ha.
Qed.

Lemma rfind_succ_app (c : ascii) (q name : string) :
  contains c name = false ->
  rfind_succ c (q ++ String c name) = Datatypes.S (String.length q).
Proof.
  intros Hn. induction q as [|a q IH]; cbn.
  - now rewrite (rfind_succ_none c name Hn), Ascii.eqb_refl.
  - now rewrite IH.
Qed.

Lemma substring_app (c : ascii) (q name : string) :
  substring 0 (Datatypes.S (String.length q)) (q ++ String c name)
  = q ++ String c "".
Proof.
  induction q as [|a q IH]; cbn.
  - now destruct name.
  - now rewrite IH.
Qed.

Lemma all_char_open_end (c : ascii) (q : string) :
  q <> "" -> endswith_char q c = false -> all_char c q = false.
Proof.
  unfold endswith_char. induction q as [|a q IH]; [contradiction|].
  intros _ He. cbn [all_char].
  destruct q as [|b q'].
  - cbn in He. now rewrite He.
  - rewrite IH; [apply andb_false_r | discriminate | exact He].
Qed.

Lemma all_char_app (c : ascii) (a b : string) :
  all_char c (a ++ b) = all_char c a && all_char c b.
Proof.
  induction a as [|x a IH]; [reflexivity|]. cbn. now rewrite IH, andb_assoc.
Qed.

Lemma rstrip_char_app_sep (c : ascii) (q : string) :
  rstrip_char c (q ++ String c "") = rstrip_char c q.
Proof.
  induction q as [|a q IH]; cbn.
  - now rewrite Ascii.eqb_refl.
  - now rewrite IH.
Qed.

Lemma rstrip_char_open_end (c : ascii) (q : string) :
  endswith_char q c = false -> rstrip_char c q = q.
Proof.
  unfold endswith_char. induction q as [|a q IH]; [reflexivity|].
  intros He. cbn [rstrip_char].
  destruct q as [|b q'].
  - cbn in *. now rewrite He.
  - rewrite IH by exact He. reflexivity.
Qed.

(** The directory of a file named [name] in [q], when [q] does not end
    with a slash. *)
Lemma dirname_app (q name : string) :
  q <> "" -> endswith_char q sep = false -> contains sep name = false ->
  posixpath.dirname (q ++ String sep name) = q.
Proof.
  intros Hq He Hn. unfold posixpath.dirname.
  rewrite rfind_succ_app by assumption. rewrite substring_app.
  rewrite all_char_app, (all_char_open_end sep q Hq He). cbn [andb negb].
  assert (Hne : nonempty (q ++ String sep "") = true)
    by (destruct q; [contradiction | reflexivity]).
  rewrite Hne. cbn [andb].
  now rewrite rstrip_char_app_sep, rstrip_char_open_end.
Qed.

Lemma url_of_open_end (ws : list string) :
  ws <> [] -> Forall (fun w => simple_name w = true) ws ->
  endswith_char (url_of ws) sep = false.
Proof.
  intros Hne Hall. unfold url_of.
  induction ws as [|w ws IH]; [contradiction|].
  inversion Hall as [|? ? Hw Hws]; subst.
  apply PathFacts.simple_name_spec in Hw as (Hw0 & _ & _ & Hc).
  destruct ws as [|w' ws'].
  - cbn [join String.concat]. rewrite endswith_char_app by assumption.
    now apply PathFacts.endswith_no_sep.
  - rewrite join_cons by discriminate.
    change ("/" ++ w ++ String sep (join sep (w' :: ws')))
      with (("/" ++ w) ++ "/" ++ join sep (w' :: ws')).
    rewrite endswith_char_app by discriminate.
    apply IH; [discriminate | assumption].
Qed.

(** The directory of a script reached from the root through simple names
    is the path of the names before its own. *)
Lemma dirname_url_of (ws : list string) (name : string) :
  Forall (fun w => simple_name w = true) ws -> simple_name name = true ->
  posixpath.dirname (url_of (ws ++ [name])) = url_of ws.
Proof.
  intros Hall Hname.
  apply PathFacts.simple_name_spec in Hname as (_ & _ & _ & Hc).
  destruct ws as [|w ws'].
  - cbn [List.app]. unfold url_of. cbn [join String.concat].
    unfold posixpath.dirname.
    change ("/" ++ name) with ("" ++ String sep name).
    rewrite rfind_succ_app by assumption. rewrite substring_app. reflexivity.
  - unfold url_of at 1. rewrite join_snoc by discriminate.
    rewrite <- append_assoc. fold (url_of (w :: ws')).
    apply dirname_app; [discriminate | | assumption].
    apply url_of_open_end; [discriminate | assumption].
Qed.

Lemma DIRECTORY_of_script (inv : server.invocation) (ws : list string)
    (name : string) :
  Forall (fun w => simple_name w = true) ws -> simple_name name = true ->
  server.file inv = url_of (ws ++ [name]) ->
  server.DIRECTORY inv = url_of ws.
Proof.
  intros Hall Hname Hfile. unfold server.DIRECTORY, posixpath.abspath.
  rewrite Hfile.
  change (posixpath.isabs (url_of (ws ++ [name]))) with true. cbv iota.
  rewrite PathFacts.normpath_url_of.
  - now apply dirname_url_of.
  - destruct ws; discriminate.
  - apply Forall_app. split; [assumption | now constructor].
Qed.

End ScriptFacts.

(** A process that has not exited is serving: the start succeeded. *)
Lemma running_started (lib : Library) (os : OS) (inv : server.invocation)
    (events : list socketserver.event) (st : socketserver.process) :
  server.main lib os inv events = (None, st) ->
  exists files,
    os_listdir os (server.DIRECTORY inv) = Returns files
    /\ socket_bind os "" server.PORT = None
    /\ socket_listen os = None.
Proof.
  intros Hmain. unfold server.main in Hmain.
  destruct (os_listdir os (server.DIRECTORY inv)) as [files | e] eqn:Hl.
  - exists files. split; [reflexivity|].
    destruct (socket_bind os "" server.PORT) as [e|] eqn:Hb.
    + rewrite (ServerFacts.run_server_bind_fails lib os inv events files e Hl Hb)
        in Hmain. discriminate.
    + split; [reflexivity|].
      destruct (socket_listen os) as [e|] eqn:Hs; [|reflexivity].
      rewrite (ServerFacts.run_server_listing lib os inv events files Hl) in Hmain.
      unfold socketserver.TCPServer_init, socketserver.server_bind,
        socketserver.server_activate in Hmain.
      cbn [fst snd] in Hmain. rewrite Hb, Hs in Hmain. discriminate.
  - unfold server.run_server, bind at 1 2 3, server.print at 1 2, server.listdir
      in Hmain.
    rewrite Hl in Hmain. discriminate.
Qed.

(** C8.  The port is the constant 5500.  What the process does depends on
    its invocation only through the path of the script and the working
    directory against which it is made absolute: the arguments and the
    environment are never read.  The served directory is the directory
    that holds the script.  Every request is handled in that same
    directory, and as long as the process runs its socket is the one it
    bound to port 5500 when it started. *)
Theorem C8_configuration_is_fixed :
  server.PORT = 5500%Z
  /\ (forall lib os inv events args env,
         server.main lib os
           {| server.argv := args; server.environ := env;
              server.file := server.file inv; server.getcwd := server.getcwd inv |}
           events
         = server.main lib os inv events)
  /\ (forall inv ws name,
         Forall (fun w => simple_name w = true) ws -> simple_name name = true ->
         server.file inv = url_of (ws ++ [name]) ->
         server.DIRECTORY inv = url_of ws)
  /\ (forall lib os inv now r,
         server.Handler lib os inv now r
         = http_server.init lib os now (server.DIRECTORY inv)
             (server.log_message lib now) r)
  /\ (forall lib os inv events st,
         server.main lib os inv events = (None, st) ->
         socketserver.socket st = Some (socketserver.Listening "" 5500)).
Proof.
  split; [reflexivity|]. split; [reflexivity|].
  split; [exact ScriptFacts.DIRECTORY_of_script|].
  split; [reflexivity|].
  intros lib os inv events st Hmain.
  destruct (running_started lib os inv events st Hmain) as (files & Hl & Hb & Hs).
  unfold server.main in Hmain.
  rewrite (ServerFacts.run_server_started lib os inv _ files Hl Hb Hs) in Hmain.
  unfold serve_until_interrupt, try_finally, try_except in Hmain.
  destruct (ServerFacts.serve_forever_result (fun _ => True)
              (server.Handler lib os inv)
              (fun now r => ServerFacts.Handler_ends _ lib os inv now r
                              (ServerFacts.os_fails_any os))
              events (serving inv files)) as (st1 & Hs1 & [Hrun | Hrun]);
    rewrite Hrun in Hmain.
  - injection Hmain as <-. exact Hs1.
  - discriminate.
Qed.

Lemma C8_witness :
  server.DIRECTORY Sample.inv = url_of ["srv"; "Frontend"]
  /\ socketserver.socket
       (snd (server.main Sample.lib Sample.os Sample.inv
               [socketserver.Connection 1500 (Sample.get "/index.html")]))
     = Some (socketserver.Listening "" 5500).
Proof.
  destruct C8_configuration_is_fixed as (_ & _ & Hdir & _ & Hsock).
  split.
  - apply (Hdir Sample.inv ["srv"; "Frontend"] "server.py").
    + repeat constructor.
    + reflexivity.
    + reflexivity.
  - apply (Hsock Sample.lib Sample.os Sample.inv
             [socketserver.Connection 1500 (Sample.get "/index.html")]).
    vm_compute. reflexivity.
Defined.

(** ** Evaluations on the sample machine *)

Module Examples.

Example normpath_traversal :
  posixpath.normpath "/../../etc/passwd" = "/etc/passwd".
Proof. reflexivity. Qed.

Example normpath_inner :
  posixpath.normpath "/static/../index.html" = "/index.html".
Proof. reflexivity. Qed.

Example normpath_relative :
  posixpath.normpath "a/../../b//c/." = "../b/c".
Proof. reflexivity. Qed.

Example normpath_two_slashes : posixpath.normpath "//a/../.." = "//".
Proof. reflexivity. Qed.

Example dirname_root : posixpath.dirname "/server.py" = "/".
Proof. reflexivity. Qed.

Example DIRECTORY_sample : server.DIRECTORY Sample.inv = "/srv/Frontend".
Proof. reflexivity. Qed.

Example translate_traversal :
  http_server.translate_path Sample.lib "/srv/Frontend" "/../../etc/passwd"
  = "/srv/Frontend/etc/passwd".
Proof. reflexivity. Qed.

Example translate_encoded_traversal :
  http_server.translate_path Sample.lib "/srv/Frontend" "/%2e%2e/%2e%2e/etc/passwd"
  = "/srv/Frontend/etc/passwd".
Proof. reflexivity. Qed.

Example translate_query :
  http_server.translate_path Sample.lib "/srv/Frontend" "/css/?v=2#top"
  = "/srv/Frontend/css/".
Proof. reflexivity. Qed.

Example traversal_is_404 :
  status_code
    (http_server.wfile
       (snd (server.Handler Sample.lib Sample.os Sample.inv 1500
               (Sample.get "/../../etc/passwd") (fresh [] []))))
  = "404".
Proof. reflexivity. Qed.

Example permission_denied_is_404 :
  status_code
    (http_server.wfile
       (snd (server.Handler Sample.lib Sample.os Sample.inv 1500
               (Sample.get "/secret.txt") (fresh [] []))))
  = "404".
Proof. reflexivity. Qed.

Example directory_without_slash_is_301 :
  status_code
    (http_server.wfile
       (snd (server.Handler Sample.lib Sample.os Sample.inv 1500
               (Sample.get "/css") (fresh [] []))))
  = "301".
Proof. reflexivity. Qed.

Example root_serves_index :
  snd (server.Handler Sample.lib Sample.os Sample.inv 1500
         (Sample.get "/") (fresh [] []))
  = snd (server.Handler Sample.lib Sample.os Sample.inv 1500
           {| client_address := "127.0.0.1";
              requestline := "GET / HTTP/1.1";
              command := "GET"; path := "/index.html";
              request_version := "HTTP/1.1";
              if_modified_since := None; if_none_match := false |}
           (fresh [] [])).
Proof. reflexivity. Qed.

Example run_until_interrupt :
  fst (server.main Sample.lib Sample.os Sample.inv
         [socketserver.Connection 1500 (Sample.get "/app.js");
          socketserver.Connection 1501 (Sample.get "/broken.bin");
          socketserver.Connection 1502 (Sample.get "/nope");
          socketserver.Interrupt])
  = Some 0%Z.
Proof. reflexivity. Qed.

Example log_of_a_run :
  socketserver.sys_stdout
    (snd (server.main Sample.lib Sample.os Sample.inv
            [socketserver.Connection 1500 (Sample.get "/app.js");
             socketserver.Connection 1502 (Sample.get "/nope");
             socketserver.Interrupt]))
  = (banner Sample.inv
       [ {| d_name := "index.html"; d_isdir := false; d_islink := false |};
         {| d_name := "app.js"; d_isdir := false; d_islink := false |};
         {| d_name := "css"; d_isdir := true; d_islink := false |};
         {| d_name := "server.py"; d_isdir := false; d_islink := false |} ]
     ++ [summary_line Sample.lib 1500 (Sample.get "/app.js") 200;
         error_line Sample.lib 1502 404 "File not found";
         summary_line Sample.lib 1502 (Sample.get "/nope") 404;
         "Server stopped."])%list.
Proof. reflexivity. Qed.

(** The method that the script overrides writes on standard error, with
    the address of the client; it is a log sink too. *)
Lemma sink_only_default_log_message (lib : Library) (now : Z) (r : request) :
  sink_only (http_server.default_log_message lib now r).
Proof. intros format args h. eexists. eexists. reflexivity. Qed.

End Examples.

(** * Further properties of the script *)

(** ** The methods of the handler preserve a relation that their
    primitives preserve *)

Module MethodFacts.
Import http_server.

Create HintDb rel discriminated.
#[local] Hint Resolve LogFacts.alike_on_ret LogFacts.alike_on_raise : rel.

Section Related.

Variable R : handler -> handler -> Prop.
Variable lib : Library.
Variable os : OS.
Variable now : Z.
Variable d : string.
Variable log : string -> list fmt_arg -> H unit.
Variable r : request.

Hypothesis R_append :
  forall line, alike_on R (headers_buffer_append line) (headers_buffer_append line).
Hypothesis R_flush : alike_on R flush_headers flush_headers.
Hypothesis R_write : forall b, alike_on R (wfile_write b) (wfile_write b).
Hypothesis R_log : forall format args, alike_on R (log format args) (log format args).

Ltac seq :=
  repeat first [ solve [auto with rel]
               | apply LogFacts.alike_on_bind; [|intros _] ].
Ltac case_if :=
  match goal with |- context [if ?b then _ else _] => destruct b end.

Lemma rel_send_header (k v : string) :
  alike_on R (send_header r k v) (send_header r k v).
Proof. unfold send_header. destruct (negb _); auto with rel. Qed.

Lemma rel_end_headers : alike_on R (end_headers r) (end_headers r).
Proof. unfold end_headers. destruct (negb _); seq. Qed.

Lemma rel_send_response (code : Z) (message : option string) :
  alike_on R (send_response lib now log r code message)
             (send_response lib now log r code message).
Proof.
  unfold send_response, log_request, send_response_only.
  pose proof rel_send_header.
  destruct (negb _); seq.
Qed.

Lemma rel_send_error (code : Z) (message : option string) :
  alike_on R (send_error lib now log r code message)
             (send_error lib now log r code message).
Proof.
  unfold send_error, log_error.
  pose proof rel_send_header. pose proof rel_send_response.
  pose proof rel_end_headers.
  destruct (responses code) as [[short long]|]; cbv beta iota zeta.
  all: destruct ((200 <=? code)%Z
                 && negb ((code =? 204)%Z || (code =? 205)%Z || (code =? 304)%Z)).
  all: seq.
  all: repeat case_if; auto with rel.
Qed.

Lemma rel_send_head_file (p : string) :
  alike_on R (send_head_file lib os now log r p) (send_head_file lib os now log r p).
Proof.
  unfold send_head_file.
  pose proof rel_send_header. pose proof rel_send_response.
  pose proof rel_end_headers. pose proof rel_send_error.
  destruct (PyStr.endswith_char p PyStr.sep); [seq|].
  destruct (open_rb os p) as [f | e].
  - destruct (fstat f) as [fs | e]; [|auto with rel].
    destruct (not_modified lib r fs); seq.
  - destruct (is_OSError e); seq.
Qed.

Lemma rel_list_directory (p : string) :
  alike_on R (list_directory lib os now log r p) (list_directory lib os now log r p).
Proof.
  unfold list_directory.
  pose proof rel_send_header. pose proof rel_send_response.
  pose proof rel_end_headers. pose proof rel_send_error.
  destruct (os_listdir os p) as [l | e]; [seq|].
  destruct (is_OSError e); seq.
Qed.

Lemma rel_send_head :
  alike_on R (send_head lib os now d log r) (send_head lib os now d log r).
Proof.
  unfold send_head.
  pose proof rel_send_header. pose proof rel_send_response.
  pose proof rel_end_headers. pose proof rel_send_head_file.
  pose proof rel_list_directory.
  destruct (os_path_isdir os _); [|auto].
  destruct (negb _); [seq|].
  destruct (os_path_isfile os _); [auto|].
  destruct (os_path_isfile os _); auto.
Qed.

Lemma rel_init : alike_on R (init lib os now d log r) (init lib os now d log r).
Proof.
  unfold init, handle, handle_one_request.
  apply LogFacts.alike_on_try_finally; [|auto with rel].
  pose proof rel_send_head. pose proof rel_send_error.
  destruct (String.eqb (command r) "GET").
  - unfold do_GET. apply LogFacts.alike_on_bind; [auto|].
    intros [f|]; [|auto with rel].
    apply LogFacts.alike_on_try_finally; [|auto with rel].
    unfold copyfile. apply LogFacts.alike_on_bind; [auto|]. intros _.
    destruct (read_error f); auto with rel.
  - destruct (String.eqb (command r) "HEAD"); [|auto].
    unfold do_HEAD. apply LogFacts.alike_on_bind; [auto|]. intros _. auto with rel.
Qed.

End Related.

End MethodFacts.

(** ** A handler and what was printed before it *)

Module FrameFacts.
Import http_server Runs.

Lemma after_append (out err : list string) (line : string) :
  alike_on (after out err) (headers_buffer_append line) (headers_buffer_append line).
Proof.
  intros h1 h2 (Hb & Hw & Ho & He). split; [reflexivity|].
  unfold after, headers_buffer_append. cbn. repeat split; congruence.
Qed.

Lemma after_flush (out err : list string) :
  alike_on (after out err) flush_headers flush_headers.
Proof.
  intros h1 h2 (Hb & Hw & Ho & He). split; [reflexivity|].
  unfold after, flush_headers. cbn. repeat split; congruence.
Qed.

Lemma after_write (out err : list string) (b : string) :
  alike_on (after out err) (wfile_write b) (wfile_write b).
Proof.
  intros h1 h2 (Hb & Hw & Ho & He). split; [reflexivity|].
  unfold after, wfile_write. cbn. repeat split; congruence.
Qed.

Lemma after_log (out err : list string) (lib : Library) (now : Z)
    (format : string) (args : list fmt_arg) :
  alike_on (after out err) (server.log_message lib now format args)
                           (server.log_message lib now format args).
Proof.
  intros h1 h2 (Hb & Hw & Ho & He). split; [reflexivity|].
  unfold after, server.log_message, print. cbn.
  repeat split; try congruence. now rewrite Ho, app_assoc.
Qed.

(** The handler of the script on a process that has printed [out] and
    [err] does what it does alone, after [out] and [err]. *)
Lemma Handler_after (lib : Library) (os : OS) (inv : server.invocation)
    (now : Z) (r : request) (out err : list string) :
  fst (server.Handler lib os inv now r (Props.fresh out err))
  = fst (alone lib os inv (now, r))
  /\ after out err
       (snd (server.Handler lib os inv now r (Props.fresh out err)))
       (snd (alone lib os inv (now, r))).
Proof.
  unfold alone, server.Handler. cbn [fst snd].
  apply (MethodFacts.rel_init (after out err) lib os now (server.DIRECTORY inv)
           (server.log_message lib now) r
           (after_append out err) (after_flush out err) (after_write out err)
           (after_log out err lib now)).
  unfold after, Props.fresh. cbn. now rewrite !app_nil_r.
Qed.

Lemma since_append (lib : Library) (now : Z) (out0 err0 : list string)
    (line : string) :
  alike_on (both (logged_since lib now out0 err0))
    (headers_buffer_append line) (headers_buffer_append line).
Proof.
  intros h1 h2 [<- (He & lines & Ho & Hl)]. split; [reflexivity|].
  split; [reflexivity|]. split; [exact He|]. exists lines. now split.
Qed.

Lemma since_flush (lib : Library) (now : Z) (out0 err0 : list string) :
  alike_on (both (logged_since lib now out0 err0)) flush_headers flush_headers.
Proof.
  intros h1 h2 [<- (He & lines & Ho & Hl)]. split; [reflexivity|].
  split; [reflexivity|]. split; [exact He|]. exists lines. now split.
Qed.

Lemma since_write (lib : Library) (now : Z) (out0 err0 : list string) (b : string) :
  alike_on (both (logged_since lib now out0 err0)) (wfile_write b) (wfile_write b).
Proof.
  intros h1 h2 [<- (He & lines & Ho & Hl)]. split; [reflexivity|].
  split; [reflexivity|]. split; [exact He|]. exists lines. now split.
Qed.

Lemma since_log (lib : Library) (now : Z) (out0 err0 : list string)
    (format : string) (args : list fmt_arg) :
  alike_on (both (logged_since lib now out0 err0))
    (server.log_message lib now format args)
    (server.log_message lib now format args).
Proof.
  intros h1 h2 [<- (He & lines & Ho & Hl)]. split; [reflexivity|].
  split; [reflexivity|]. split; [exact He|].
  exists (lines ++ [("[" ++ log_date_time_string lib now ++ "] "
                     ++ percent_format format args)%string])%list.
  unfold server.log_message, print. cbn [snd stdout]. split.
  - now rewrite Ho, app_assoc.
  - apply Forall_app. split; [exact Hl|]. constructor; [|constructor].
    now exists (percent_format format args).
Qed.

(** The handler of the script leaves standard error as it is and adds
    timestamped lines to standard output. *)
Lemma Handler_logged_since (lib : Library) (os : OS) (inv : server.invocation)
    (now : Z) (r : request) (out err : list string) :
  logged_since lib now out err
    (snd (server.Handler lib os inv now r (Props.fresh out err))).
Proof.
  unfold server.Handler.
  apply (MethodFacts.rel_init (both (logged_since lib now out err))
           lib os now (server.DIRECTORY inv) (server.log_message lib now) r
           (since_append lib now out err) (since_flush lib now out err)
           (since_write lib now out err) (since_log lib now out err)
           (Props.fresh out err) (Props.fresh out err)).
  split; [reflexivity|]. split; [reflexivity|].
  exists []. cbn. now rewrite app_nil_r.
Qed.

Lemma alone_stderr (lib : Library) (os : OS) (inv : server.invocation)
    (nr : Z * request) :
  stderr (snd (alone lib os inv nr)) = [].
Proof.
  destruct nr as [now r].
  now destruct (Handler_logged_since lib os inv now r [] []) as [He _].
Qed.

(** The state of the handler, in full. *)
Lemma Handler_run (lib : Library) (os : OS) (inv : server.invocation)
    (now : Z) (r : request) (out err : list string) :
  server.Handler lib os inv now r (Props.fresh out err) =
    (fst (alone lib os inv (now, r)),
     {| headers_buffer := headers_buffer (snd (alone lib os inv (now, r)));
        wfile := reply_of lib os inv (now, r);
        stdout := out ++ log_of lib os inv (now, r);
        stderr := err |}).
Proof.
  destruct (Handler_after lib os inv now r out err) as [Hres (Hb & Hw & Ho & He)].
  rewrite alone_stderr, app_nil_r in He.
  destruct (server.Handler lib os inv now r (Props.fresh out err)) as [res h].
  cbn [fst snd] in *. subst res. destruct h as [hb w o e]. cbn in *.
  unfold reply_of, log_of. congruence.
Qed.

End FrameFacts.

(** ** The serve loop, request by request *)

Module RunFacts.
Import socketserver server Runs.

Lemma served_nil (lib : Library) (os : OS) (inv : invocation) (st : process) :
  served lib os inv [] st = st.
Proof. unfold served. cbn. rewrite !app_nil_r. now destruct st. Qed.

Lemma served_cons (lib : Library) (os : OS) (inv : invocation)
    (nr : Z * request) (reqs : list (Z * request)) (st : process) :
  served lib os inv reqs (served lib os inv [nr] st) = served lib os inv (nr :: reqs) st.
Proof.
  unfold served. cbn [sys_stdout sys_stderr socket replies flat_map map].
  rewrite !app_nil_r, <- !app_assoc. reflexivity.
Qed.

Section Loop.

Variable lib : Library.
Variable os : OS.
Variable inv : invocation.
Hypothesis Hos : os_fails (fun e => is_Exception e = true) os.

(** One connection is served as if alone, and the loop goes on. *)
Lemma handle_request_served (now : Z) (r : request) (st : process) :
  _handle_request_noblock (Handler lib os inv) now r st
  = (Ok tt, served lib os inv [(now, r)] st).
Proof.
  unfold _handle_request_noblock, process_request, finish_request,
    try_except, bind, shutdown_request, ret.
  change {| http_server.headers_buffer := []; http_server.wfile := "";
            http_server.stdout := sys_stdout st;
            http_server.stderr := sys_stderr st |}
    with (Props.fresh (sys_stdout st) (sys_stderr st)).
  rewrite FrameFacts.Handler_run.
  pose proof (ServerFacts.Handler_ends _ lib os inv now r Hos (Props.fresh [] []))
    as He.
  change (Handler lib os inv now r (Props.fresh [] []))
    with (alone lib os inv (now, r)) in He.
  unfold served, report_of. cbn [flat_map map fst snd].
  destruct (fst (alone lib os inv (now, r))) as [u | e |]; cbn [fst snd] in *.
  - cbn [sys_stdout sys_stderr socket replies http_server.stdout
         http_server.stderr http_server.wfile].
    rewrite !app_nil_r. now destruct u.
  - rewrite He. unfold handle_error, bind, eprint, error_report.
    cbn [sys_stdout sys_stderr socket replies http_server.stdout
         http_server.stderr http_server.wfile].
    rewrite !app_nil_r, <- !app_assoc. reflexivity.
  - contradiction.
Qed.

(** With connections only, the loop serves each as if alone, in their
    order, and waits. *)
Lemma serve_forever_served (reqs : list (Z * request)) (st : process) :
  serve_forever (Handler lib os inv) (Props.connections reqs) st
  = (Blocks, served lib os inv reqs st).
Proof.
  revert st. induction reqs as [|[now r] reqs IH]; intros st.
  - cbn. now rewrite served_nil.
  - cbn [Props.connections map fst snd serve_forever]. unfold bind.
    rewrite handle_request_served. fold (Props.connections reqs).
    now rewrite IH, served_cons.
Qed.

(** An interrupt after the connections ends the loop once they are
    served. *)
Lemma serve_forever_stopped (reqs : list (Z * request)) (rest : list event)
    (st : process) :
  serve_forever (Handler lib os inv) (Props.connections reqs ++ Interrupt :: rest) st
  = (Raise KeyboardInterrupt, served lib os inv reqs st).
Proof.
  revert st. induction reqs as [|[now r] reqs IH]; intros st.
  - cbn. now rewrite served_nil.
  - cbn [Props.connections map fst snd serve_forever List.app]. unfold bind.
    rewrite handle_request_served. fold (Props.connections reqs).
    now rewrite IH, served_cons.
Qed.

End Loop.

End RunFacts.

(** ** The start of the script *)

Module StartFacts.
Import socketserver server Runs.

(** The script when the served directory cannot be listed. *)
Lemma run_server_listing_fails (lib : Library) (os : OS) (inv : invocation)
    (events : list event) (e : exn) :
  os_listdir os (DIRECTORY inv) = Fails e ->
  run_server lib os inv events start =
    (Raise e,
     {| sys_stdout := ["Starting server in directory: " ++ DIRECTORY inv;
                       "Files in directory:"];
        sys_stderr := []; socket := None; replies := [] |}).
Proof.
  intros Hl. unfold run_server.
  unfold bind at 1. unfold print at 1.
  unfold bind at 1. unfold print at 1.
  unfold bind at 1. unfold listdir at 1. rewrite Hl. reflexivity.
Qed.

(** The script when the bound socket cannot listen. *)
Lemma run_server_listen_fails (lib : Library) (os : OS) (inv : invocation)
    (events : list event) (files : list dirent) (e : exn) :
  os_listdir os (DIRECTORY inv) = Returns files ->
  socket_bind os "" PORT = None ->
  socket_listen os = Some e ->
  run_server lib os inv events start =
    (Raise e, {| sys_stdout := Props.listing inv files; sys_stderr := [];
                 socket := Some Closed; replies := [] |}).
Proof.
  intros Hl Hb Hs. rewrite (ServerFacts.run_server_listing lib os inv events files Hl).
  unfold TCPServer_init, server_bind, server_activate.
  cbn [fst snd]. rewrite Hb, Hs. reflexivity.
Qed.

(** The line that announces the server is not among the first lines. *)
Lemma listing_not_started (inv : invocation) (files : list dirent) :
  ~ In "Server started at http://localhost:5500" (Props.listing inv files).
Proof.
  unfold Props.listing. intros Hin.
  apply in_app_or in Hin as [Hin | Hin].
  - destruct Hin as [H | [H | []]]; discriminate.
  - apply in_map_iff in Hin as (f & H & _). discriminate.
Qed.

Lemma serve_forever_ext (class1 class2 : Z -> request -> http_server.H unit)
    (events : list event) (st : process) :
  (forall now r, class1 now r = class2 now r) ->
  serve_forever class1 events st = serve_forever class2 events st.
Proof.
  intros Hc. revert st. induction events as [|ev events IH]; intros st;
    [reflexivity|].
  destruct ev as [now r|]; [|reflexivity].
  assert (Hstep : _handle_request_noblock class1 now r st
                  = _handle_request_noblock class2 now r st).
  { unfold _handle_request_noblock, process_request, finish_request.
    now rewrite (Hc now r). }
  cbn [serve_forever]. unfold bind. rewrite Hstep.
  destruct (_handle_request_noblock class2 now r st) as [[u | e |] st'];
    [apply IH | reflexivity | reflexivity].
Qed.

End StartFacts.

(** ** Further properties: the process *)

(** X1.  When the served directory cannot be listed at the start, the
    process exits with status 1 after its two first lines and the
    traceback of the error: no socket was created and nothing is
    served. *)
Theorem X1_listing_failure_is_fatal (lib : Library) (os : OS)
    (inv : server.invocation) (events : list socketserver.event) (e : exn) :
  os_listdir os (server.DIRECTORY inv) = Fails e ->
  is_Exception e = true ->
  server.main lib os inv events =
    (Some 1%Z,
     {| socketserver.sys_stdout :=
          ["Starting server in directory: " ++ server.DIRECTORY inv;
           "Files in directory:"];
        socketserver.sys_stderr := [socketserver.traceback e];
        socketserver.socket := None;
        socketserver.replies := [] |}).
Proof.
  intros Hl He. unfold server.main.
  rewrite (StartFacts.run_server_listing_fails lib os inv events e Hl).
  now rewrite He.
Qed.

Lemma X1_witness :
  server.main Sample.lib Runs.os_no_listing Sample.inv
    [socketserver.Connection 1500 (Sample.get "/index.html")] =
    (Some 1%Z,
     {| socketserver.sys_stdout :=
          ["Starting server in directory: " ++ server.DIRECTORY Sample.inv;
           "Files in directory:"];
        socketserver.sys_stderr := [socketserver.traceback PermissionError];
        socketserver.socket := None;
        socketserver.replies := [] |}).
Proof.
  apply (X1_listing_failure_is_fatal Sample.lib Runs.os_no_listing Sample.inv).
  - reflexivity.
  - reflexivity.
Defined.

(** X2.  When the socket is bound but cannot listen, the constructor of
    the server closes it and the error reaches the top level: the process
    exits with status 1 after the listing and the traceback, without the
    line that announces the server. *)
Theorem X2_listen_failure_is_fatal (lib : Library) (os : OS)
    (inv : server.invocation) (events : list socketserver.event)
    (files : list dirent) (e : exn) :
  os_listdir os (server.DIRECTORY inv) = Returns files ->
  socket_bind os "" server.PORT = None ->
  socket_listen os = Some e ->
  is_Exception e = true ->
  server.main lib os inv events =
    (Some 1%Z,
     {| socketserver.sys_stdout := listing inv files;
        socketserver.sys_stderr := [socketserver.traceback e];
        socketserver.socket := Some socketserver.Closed;
        socketserver.replies := [] |}).
Proof.
  intros Hl Hb Hs He. unfold server.main.
  rewrite (StartFacts.run_server_listen_fails lib os inv events files e Hl Hb Hs).
  now rewrite He.
Qed.

Lemma X2_witness :
  server.main Sample.lib Runs.os_no_listen Sample.inv [] =
    (Some 1%Z,
     {| socketserver.sys_stdout := listing Sample.inv Runs.sample_files;
        socketserver.sys_stderr := [socketserver.traceback OSError];
        socketserver.socket := Some socketserver.Closed;
        socketserver.replies := [] |}).
Proof.
  apply (X2_listen_failure_is_fatal Sample.lib Runs.os_no_listen Sample.inv []
           Runs.sample_files OSError).
  - reflexivity.
  - reflexivity.
  - reflexivity.
  - reflexivity.
Defined.

(** X3.  How the process can exit.  With status 0 only after the server
    had started and was interrupted: the last line is "Server stopped."
    and the socket is closed.  With another status only before it ever
    served: no reply was sent and the line that announces the server was
    never printed.  No request makes a started server exit with an
    error. *)
Theorem X3_exit_status (lib : Library) (os : OS) (inv : server.invocation)
    (events : list socketserver.event) (c : Z) (st : socketserver.process) :
  server.main lib os inv events = (Some c, st) ->
  (c = 0%Z
   /\ (exists files,
          os_listdir os (server.DIRECTORY inv) = Returns files
          /\ socket_bind os "" server.PORT = None
          /\ socket_listen os = None)
   /\ List.last (socketserver.sys_stdout st) "" = "Server stopped."
   /\ socketserver.socket st = Some socketserver.Closed)
  \/ (c <> 0%Z
      /\ socketserver.replies st = []
      /\ ~ In "Server started at http://localhost:5500" (socketserver.sys_stdout st)
      /\ socketserver.socket st
         <> Some (socketserver.Listening "" server.PORT)).
Proof.
  intros Hmain. unfold server.main in Hmain.
  destruct (os_listdir os (server.DIRECTORY inv)) as [files | e] eqn:Hl.
  - destruct (socket_bind os "" server.PORT) as [e|] eqn:Hb.
    { rewrite (ServerFacts.run_server_bind_fails lib os inv events files e Hl Hb)
        in Hmain.
      injection Hmain as <- <-. right. cbn.
      split; [destruct (is_Exception e); discriminate|].
      split; [reflexivity|].
      split; [apply StartFacts.listing_not_started | discriminate]. }
    destruct (socket_listen os) as [e|] eqn:Hs.
    { rewrite (StartFacts.run_server_listen_fails lib os inv events files e Hl Hb Hs)
        in Hmain.
      injection Hmain as <- <-. right. cbn.
      split; [destruct (is_Exception e); discriminate|].
      split; [reflexivity|].
      split; [apply StartFacts.listing_not_started | discriminate]. }
    rewrite (ServerFacts.run_server_started lib os inv _ files Hl Hb Hs) in Hmain.
    unfold serve_until_interrupt, try_finally, try_except in Hmain.
    destruct (ServerFacts.serve_forever_result (fun _ => True)
                (server.Handler lib os inv)
                (fun now r => ServerFacts.Handler_ends _ lib os inv now r
                                (ServerFacts.os_fails_any os))
                events (serving inv files)) as (st1 & _ & [Hrun | Hrun]);
      rewrite Hrun in Hmain; [discriminate|].
    unfold server.print, socketserver.server_close, socketserver.set_socket in Hmain.
    injection Hmain as <- <-. left.
    split; [reflexivity|]. split; [now exists files|].
    cbn [socketserver.sys_stdout socketserver.socket].
    split; [apply List.last_last | reflexivity].
  - rewrite (StartFacts.run_server_listing_fails lib os inv events e Hl) in Hmain.
    injection Hmain as <- <-. right. cbn.
    split; [destruct (is_Exception e); discriminate|].
    split; [reflexivity|].
    split; [|discriminate].
    intros [H | [H | []]]; discriminate.
Qed.

Lemma X3_witness :
  (0%Z = 0%Z
   /\ (exists files,
          os_listdir Sample.os (server.DIRECTORY Sample.inv) = Returns files
          /\ socket_bind Sample.os "" server.PORT = None
          /\ socket_listen Sample.os = None)
   /\ List.last
        (socketserver.sys_stdout
           (snd (server.main Sample.lib Sample.os Sample.inv
                   [socketserver.Connection 1500 (Sample.get "/broken.bin");
                    socketserver.Interrupt]))) ""
      = "Server stopped."
   /\ socketserver.socket
        (snd (server.main Sample.lib Sample.os Sample.inv
                [socketserver.Connection 1500 (Sample.get "/broken.bin");
                 socketserver.Interrupt]))
      = Some socketserver.Closed)
  \/ (0%Z <> 0%Z
      /\ socketserver.replies
           (snd (server.main Sample.lib Sample.os Sample.inv
                   [socketserver.Connection 1500 (Sample.get "/broken.bin");
                    socketserver.Interrupt])) = []
      /\ ~ In "Server started at http://localhost:5500"
             (socketserver.sys_stdout
                (snd (server.main Sample.lib Sample.os Sample.inv
                        [socketserver.Connection 1500 (Sample.get "/broken.bin");
                         socketserver.Interrupt])))
      /\ socketserver.socket
           (snd (server.main Sample.lib Sample.os Sample.inv
                   [socketserver.Connection 1500 (Sample.get "/broken.bin");
                    socketserver.Interrupt]))
         <> Some (socketserver.Listening "" server.PORT)).
Proof.
  apply (X3_exit_status Sample.lib Sample.os Sample.inv
           [socketserver.Connection 1500 (Sample.get "/broken.bin");
            socketserver.Interrupt]).
  vm_compute. reflexivity.
Defined.

(** X4.  A started server whose file system raises no interrupt serves
    the connections one after the other, each exactly as if it were the
    only one: the replies are those of the requests alone, in their order;
    standard output is the start lines followed by the log lines of each
    request in turn; standard error holds the report of each request whose
    handler raised, and nothing else.  Nothing of one request changes the
    answer to another. *)
Theorem X4_requests_served_independently (lib : Library) (os : OS)
    (inv : server.invocation) (files : list dirent) (reqs : list (Z * request)) :
  os_fails (fun e => is_Exception e = true) os ->
  os_listdir os (server.DIRECTORY inv) = Returns files ->
  socket_bind os "" server.PORT = None ->
  socket_listen os = None ->
  server.main lib os inv (connections reqs) =
    (None,
     {| socketserver.sys_stdout :=
          banner inv files ++ flat_map (Runs.log_of lib os inv) reqs;
        socketserver.sys_stderr := flat_map (Runs.report_of lib os inv) reqs;
        socketserver.socket := Some (socketserver.Listening "" server.PORT);
        socketserver.replies := map (Runs.reply_of lib os inv) reqs |}).
Proof.
  intros Hos Hl Hb Hs. unfold server.main.
  rewrite (ServerFacts.run_server_started lib os inv _ files Hl Hb Hs).
  unfold serve_until_interrupt, try_finally, try_except.
  rewrite (RunFacts.serve_forever_served lib os inv Hos).
  reflexivity.
Qed.

Lemma X4_witness :
  server.main Sample.lib Sample.os Sample.inv
    (connections [(1500%Z, Sample.get "/missing.txt");
                  (1501%Z, Sample.get "/broken.bin");
                  (1502%Z, Sample.get "/index.html")]) =
    (None,
     {| socketserver.sys_stdout :=
          banner Sample.inv Runs.sample_files
          ++ flat_map (Runs.log_of Sample.lib Sample.os Sample.inv)
               [(1500%Z, Sample.get "/missing.txt");
                (1501%Z, Sample.get "/broken.bin");
                (1502%Z, Sample.get "/index.html")];
        socketserver.sys_stderr :=
          flat_map (Runs.report_of Sample.lib Sample.os Sample.inv)
            [(1500%Z, Sample.get "/missing.txt");
             (1501%Z, Sample.get "/broken.bin");
             (1502%Z, Sample.get "/index.html")];
        socketserver.socket := Some (socketserver.Listening "" server.PORT);
        socketserver.replies :=
          map (Runs.reply_of Sample.lib Sample.os Sample.inv)
            [(1500%Z, Sample.get "/missing.txt");
             (1501%Z, Sample.get "/broken.bin");
             (1502%Z, Sample.get "/index.html")] |}).
Proof.
  apply (X4_requests_served_independently Sample.lib Sample.os Sample.inv
           Runs.sample_files).
  - exact sample_os_fails.
  - reflexivity.
  - reflexivity.
  - reflexivity.
Defined.

(** X5.  An interrupt loses nothing of what was served: when it arrives
    after some connections, the process exits with status 0 in the state
    reached by serving them, with the line "Server stopped." added and the
    socket closed; whatever would have arrived later plays no part. *)
Theorem X5_interrupt_keeps_what_was_served (lib : Library) (os : OS)
    (inv : server.invocation) (files : list dirent)
    (reqs : list (Z * request)) (later : list socketserver.event) :
  os_fails (fun e => is_Exception e = true) os ->
  os_listdir os (server.DIRECTORY inv) = Returns files ->
  socket_bind os "" server.PORT = None ->
  socket_listen os = None ->
  server.main lib os inv (connections reqs ++ socketserver.Interrupt :: later) =
    (Some 0%Z,
     Runs.stopped (Runs.served lib os inv reqs (serving inv files))).
Proof.
  intros Hos Hl Hb Hs. unfold server.main.
  rewrite (ServerFacts.run_server_started lib os inv _ files Hl Hb Hs).
  unfold serve_until_interrupt, try_finally, try_except.
  rewrite (RunFacts.serve_forever_stopped lib os inv Hos).
  reflexivity.
Qed.

Lemma X5_witness :
  server.main Sample.lib Sample.os Sample.inv
    (connections [(1500%Z, Sample.get "/index.html")]
     ++ socketserver.Interrupt
        :: [socketserver.Connection 1600 (Sample.get "/app.js")]) =
    (Some 0%Z,
     Runs.stopped
       (Runs.served Sample.lib Sample.os Sample.inv
          [(1500%Z, Sample.get "/index.html")]
          (serving Sample.inv Runs.sample_files))).
Proof.
  apply (X5_interrupt_keeps_what_was_served Sample.lib Sample.os Sample.inv
           Runs.sample_files [(1500%Z, Sample.get "/index.html")]
           [socketserver.Connection 1600 (Sample.get "/app.js")]).
  - exact sample_os_fails.
  - reflexivity.
  - reflexivity.
  - reflexivity.
Defined.



(** ** Further facts on paths *)

Module MorePathFacts.
Import PyStr PyStrFacts Props.

Lemma join_app (c : ascii) (a b : list string) :
  a <> [] -> b <> [] ->
  join c (a ++ b) = join c a ++ String c (join c b).
Proof.
  intros Ha Hb. induction a as [|x a IH]; [contradiction|].
  destruct a as [|y a'].
  - cbn [List.app]. now rewrite join_cons.
  - change ((x :: y :: a') ++ b)%list with (x :: ((y :: a') ++ b))%list.
    rewrite join_cons by discriminate.
    rewrite IH by discriminate.
    rewrite (join_cons c x (y :: a')) by discriminate.
    now rewrite append_assoc.
Qed.

Lemma join_simple_relative (ws : list string) :
  ws <> [] -> Forall (fun w => simple_name w = true) ws ->
  startswith (join sep ws) "/" = false.
Proof.
  intros Hne Hall. destruct ws as [|w ws']; [contradiction|].
  inversion Hall as [|? ? Hw _]; subst.
  destruct (PathFacts.simple_name_head w Hw) as (a & w' & -> & Ha).
  destruct ws' as [|w2 ws2].
  - cbn. fold sep. now rewrite Ha.
  - rewrite join_cons by discriminate. cbn. fold sep. now rewrite Ha.
Qed.

(** A relative path of simple names, joined to a directory given from
    the root by simple names. *)
Lemma join_url_of (cs ws : list string) :
  ws <> [] ->
  Forall (fun w => simple_name w = true) cs ->
  Forall (fun w => simple_name w = true) ws ->
  posixpath.join (url_of cs) (join sep ws) = url_of (cs ++ ws).
Proof.
  intros Hne Hcs Hws. unfold posixpath.join.
  rewrite (join_simple_relative ws Hne Hws).
  destruct cs as [|c cs'].
  - reflexivity.
  - rewrite ScriptFacts.url_of_open_end by (assumption || discriminate).
    cbn [nonempty negb orb url_of String.append].
    unfold url_of. rewrite join_app by (assumption || discriminate).
    cbn [String.append]. reflexivity.
Qed.

Lemma before_first_app_sep (c : ascii) (a b : string) :
  contains c a = false -> before_first c (a ++ String c b) = a.
Proof.
  induction a as [|x a IH]; cbn.
  - now rewrite Ascii.eqb_refl.
  - intros H. apply orb_false_iff in H as [Hx Ha]. now rewrite Hx, IH.
Qed.

Lemma before_first_app (c : ascii) (a b : string) :
  contains c a = false -> before_first c (a ++ b) = a ++ before_first c b.
Proof.
  induction a as [|x a IH]; cbn; [reflexivity|].
  intros H. apply orb_false_iff in H as [Hx Ha]. now rewrite Hx, IH.
Qed.

(** What follows the first [?] or [#] of a path plays no part in its
    translation. *)
Lemma translate_path_cut (lib : Library) (d p q : string) (c : ascii) :
  c = "?"%char \/ c = "#"%char ->
  contains "?" p = false -> contains "#" p = false ->
  http_server.translate_path lib d (p ++ String c q)
  = http_server.translate_path lib d p.
Proof.
  intros Hc Hq Hf. unfold http_server.translate_path.
  rewrite (before_first_none "?"%char p Hq), (before_first_none "#"%char p Hf).
  destruct Hc as [-> | ->].
  - now rewrite (before_first_app_sep "?"%char p q Hq),
      (before_first_none "#"%char p Hf).
  - rewrite (before_first_app "?"%char p _ Hq). cbn [before_first Ascii.eqb].
    cbn. now rewrite (before_first_app_sep "#"%char p _ Hf).
Qed.

End MorePathFacts.

(** ** Further properties: the configuration *)

(** X7.  When the path of the script is absolute, the working directory
    from which it is started plays no part: the served directory and the
    whole run are the same from any directory. *)
Theorem X7_working_directory_plays_no_part (lib : Library) (os : OS)
    (inv : server.invocation) (cwd : string) (events : list socketserver.event) :
  posixpath.isabs (server.file inv) = true ->
  server.DIRECTORY (Runs.from_directory cwd inv) = server.DIRECTORY inv
  /\ server.main lib os (Runs.from_directory cwd inv) events
     = server.main lib os inv events.
Proof.
  intros Habs.
  assert (Hd : server.DIRECTORY (Runs.from_directory cwd inv) = server.DIRECTORY inv).
  { unfold server.DIRECTORY, posixpath.abspath, Runs.from_directory.
    cbn [server.file server.getcwd]. now rewrite Habs. }
  split; [exact Hd|].
  unfold server.main, server.run_server, server.Handler.
  now rewrite Hd.
Qed.

Lemma X7_witness :
  server.DIRECTORY (Runs.from_directory "/tmp" Sample.inv)
  = server.DIRECTORY Sample.inv
  /\ server.main Sample.lib Sample.os (Runs.from_directory "/tmp" Sample.inv)
       [socketserver.Interrupt]
     = server.main Sample.lib Sample.os Sample.inv [socketserver.Interrupt].
Proof.
  apply (X7_working_directory_plays_no_part Sample.lib Sample.os Sample.inv
           "/tmp" [socketserver.Interrupt]).
  reflexivity.
Defined.

(** X8.  When the script is started by a relative path, the path is
    resolved against the working directory: started as ws/name from the
    directory cs, the script serves the directory cs/ws. *)
Theorem X8_relative_script_path (inv : server.invocation)
    (cs ws : list string) (name : string) :
  Forall (fun w => simple_name w = true) cs ->
  Forall (fun w => simple_name w = true) ws ->
  simple_name name = true ->
  server.getcwd inv = url_of cs ->
  server.file inv = join sep (ws ++ [name]) ->
  server.DIRECTORY inv = url_of (cs ++ ws).
Proof.
  intros Hcs Hws Hname Hcwd Hfile.
  assert (Hrel : Forall (fun w => simple_name w = true) (ws ++ [name])).
  { apply Forall_app. split; [assumption | now constructor]. }
  assert (Hne : (ws ++ [name])%list <> []) by (destruct ws; discriminate).
  unfold server.DIRECTORY, posixpath.abspath, posixpath.isabs.
  rewrite Hcwd, Hfile.
  rewrite (MorePathFacts.join_simple_relative _ Hne Hrel).
  rewrite MorePathFacts.join_url_of by assumption.
  rewrite PathFacts.normpath_url_of.
  - rewrite app_assoc. apply ScriptFacts.dirname_url_of; [|assumption].
    apply Forall_app. now split.
  - destruct cs; [exact Hne | discriminate].
  - apply Forall_app. now split.
Qed.

Lemma X8_witness :
  server.DIRECTORY
    {| server.argv := []; server.environ := [];
       server.file := "Frontend/server.py"; server.getcwd := "/home/user" |}
  = url_of (["home"; "user"] ++ ["Frontend"]).
Proof.
  apply (X8_relative_script_path
           {| server.argv := []; server.environ := [];
              server.file := "Frontend/server.py"; server.getcwd := "/home/user" |}
           ["home"; "user"] ["Frontend"] "server.py").
  - repeat constructor.
  - repeat constructor.
  - reflexivity.
  - reflexivity.
  - reflexivity.
Defined.

(** ** Further properties: the handler *)

(** X9.  The handler keeps no state between requests: whatever the
    process has printed before, it ends alike, sends the same reply and
    prints the same lines, added after what was printed; it writes nothing
    on standard error. *)
Theorem X9_handler_ignores_history (lib : Library) (os : OS)
    (inv : server.invocation) (now : Z) (r : request) (out err : list string) :
  fst (server.Handler lib os inv now r (fresh out err))
  = fst (server.Handler lib os inv now r (fresh [] []))
  /\ http_server.wfile (snd (server.Handler lib os inv now r (fresh out err)))
     = http_server.wfile (snd (server.Handler lib os inv now r (fresh [] [])))
  /\ http_server.stdout (snd (server.Handler lib os inv now r (fresh out err)))
     = (out ++ http_server.stdout
                 (snd (server.Handler lib os inv now r (fresh [] []))))%list
  /\ http_server.stderr (snd (server.Handler lib os inv now r (fresh out err)))
     = err.
Proof.
  rewrite (FrameFacts.Handler_run lib os inv now r out err).
  cbn [fst snd http_server.wfile http_server.stdout http_server.stderr].
  repeat split.
Qed.

(** X10.  Every line that the handler prints, for any request whatever
    (error lines included), begins with the time between brackets: all the
    logging of the base class goes through the method that the script
    overrides. *)
Theorem X10_every_log_line_is_timestamped (lib : Library) (os : OS)
    (inv : server.invocation) (now : Z) (r : request) (out err : list string) :
  exists lines,
    http_server.stdout (snd (server.Handler lib os inv now r (fresh out err)))
    = (out ++ lines)%list
    /\ Forall (Runs.timestamped lib now) lines.
Proof.
  now destruct (FrameFacts.Handler_logged_since lib os inv now r out err)
    as [_ Hlines].
Qed.

(** X11.  A request with a method other than GET and HEAD is refused
    without any look at the file system: the handler does the same on any
    two machines, and for an HTTP/1.x request it sends the 501 reply that
    names the method and prints the two lines of an error. *)
Theorem X11_other_methods_are_refused (lib : Library) (os : OS)
    (inv : server.invocation) (now : Z) (r : request) (out err : list string) :
  command r <> "GET" -> command r <> "HEAD" ->
  (forall os' h,
      server.Handler lib os inv now r h = server.Handler lib os' inv now r h)
  /\ (request_version r <> "HTTP/0.9" ->
      server.Handler lib os inv now r (fresh out err) =
        (Ok tt,
         {| http_server.headers_buffer := [];
            http_server.wfile :=
              error_reply lib now r 501
                ("Unsupported method (" ++ repr lib (command r) ++ ")");
            http_server.stdout :=
              out ++ [error_line lib now 501
                        ("Unsupported method (" ++ repr lib (command r) ++ ")");
                      summary_line lib now r 501];
            http_server.stderr := err |})).
Proof.
  intros Hget Hhead.
  apply String.eqb_neq in Hget, Hhead.
  split.
  - intros os' h. unfold server.Handler, http_server.init, http_server.handle,
      http_server.handle_one_request.
    now rewrite Hget, Hhead.
  - intros Hv. unfold server.Handler, http_server.init, http_server.handle,
      http_server.handle_one_request.
    rewrite Hget, Hhead. unfold try_finally.
    rewrite HandlerFacts.send_error_run by auto. reflexivity.
Qed.

Lemma X11_witness :
  (forall os' h,
      server.Handler Sample.lib Sample.os Sample.inv 1500
        (Runs.with_command "DELETE" (Sample.get "/index.html")) h
      = server.Handler Sample.lib os' Sample.inv 1500
          (Runs.with_command "DELETE" (Sample.get "/index.html")) h)
  /\ status_code
       (http_server.wfile
          (snd (server.Handler Sample.lib Sample.os Sample.inv 1500
                  (Runs.with_command "DELETE" (Sample.get "/index.html"))
                  (fresh [] []))))
     = "501".
Proof.
  destruct (X11_other_methods_are_refused Sample.lib Sample.os Sample.inv 1500
              (Runs.with_command "DELETE" (Sample.get "/index.html")) [] [])
    as [Hany Hreply].
  - discriminate.
  - discriminate.
  - split; [exact Hany|].
    rewrite Hreply by discriminate. reflexivity.
Defined.



(** ** Further properties: GET and HEAD *)

Module HeadFacts.
Import http_server Runs.

Lemma sends_more_refl {A : Type} (m : H A) : sends_more m m.
Proof.
  intros h. repeat split. exists "". now rewrite PyStrFacts.append_nil_r.
Qed.

(** After the same beginning. *)
Lemma sends_more_bind {A B : Type} (m : H A) (k1 k2 : A -> H B) :
  (forall a, sends_more (k1 a) (k2 a)) -> sends_more (bind m k1) (bind m k2).
Proof.
  intros Hk h. unfold bind.
  destruct (m h) as [[a | e |] h'].
  - apply Hk.
  - cbn. repeat split. exists "". now rewrite PyStrFacts.append_nil_r.
  - cbn. repeat split. exists "". now rewrite PyStrFacts.append_nil_r.
Qed.

(** Before returning a value. *)
Lemma sends_more_then_ret {A B : Type} (m1 m2 : H A) (b : B) :
  sends_more m1 m2 ->
  sends_more (bind m1 (fun _ => ret b)) (bind m2 (fun _ => ret b)).
Proof.
  intros Hm h. unfold bind. specialize (Hm h).
  destruct (m1 h) as [res1 h1], (m2 h) as [res2 h2].
  cbn [fst snd] in Hm. destruct Hm as (-> & Hrest).
  destruct res2; exact (conj eq_refl Hrest).
Qed.

Lemma sends_more_write (b : string) : sends_more (wfile_write b) (ret tt).
Proof.
  intros h. unfold wfile_write, ret. cbn. repeat split. now exists b.
Qed.

Section Request.

Variable lib : Library.
Variable os : OS.
Variable now : Z.
Variable d : string.
Variable r : request.

(** The error reply to a GET request is the one to the HEAD request,
    followed by the page. *)
Lemma sends_more_send_error (code : Z) (message : option string) :
  sends_more
    (send_error lib now (server.log_message lib now) (with_command "GET" r)
       code message)
    (send_error lib now (server.log_message lib now) (with_command "HEAD" r)
       code message).
Proof.
  unfold send_error.
  destruct (responses code) as [[short long]|]; cbv beta iota zeta.
  all: destruct ((200 <=? code)%Z
                 && negb ((code =? 204)%Z || (code =? 205)%Z || (code =? 304)%Z)).
  all: do 5 (apply sends_more_bind; intros _).
  all: try apply sends_more_refl.
  all: cbn [command with_command].
  all: change (String.eqb "GET" "HEAD") with false;
    change (String.eqb "HEAD" "HEAD") with true; cbn [negb andb].
  all: destruct (PyStr.nonempty _); [apply sends_more_write | apply sends_more_refl].
Qed.

Lemma sends_more_send_head_file (p : string) :
  sends_more
    (send_head_file lib os now (server.log_message lib now) (with_command "GET" r) p)
    (send_head_file lib os now (server.log_message lib now) (with_command "HEAD" r) p).
Proof.
  unfold send_head_file.
  destruct (PyStr.endswith_char p PyStr.sep).
  { apply sends_more_then_ret, sends_more_send_error. }
  destruct (open_rb os p) as [f | e].
  - apply sends_more_refl.
  - destruct (is_OSError e); [|apply sends_more_refl].
    apply sends_more_then_ret, sends_more_send_error.
Qed.

Lemma sends_more_list_directory (p : string) :
  sends_more
    (list_directory lib os now (server.log_message lib now) (with_command "GET" r) p)
    (list_directory lib os now (server.log_message lib now) (with_command "HEAD" r) p).
Proof.
  unfold list_directory.
  destruct (os_listdir os p) as [l | e]; [apply sends_more_refl|].
  destruct (is_OSError e); [|apply sends_more_refl].
  apply sends_more_then_ret, sends_more_send_error.
Qed.

Lemma sends_more_send_head :
  sends_more
    (send_head lib os now d (server.log_message lib now) (with_command "GET" r))
    (send_head lib os now d (server.log_message lib now) (with_command "HEAD" r)).
Proof.
  unfold send_head, self_path. cbn [path with_command].
  destruct (os_path_isdir os _); [|apply sends_more_send_head_file].
  destruct (negb _); [apply sends_more_refl|].
  destruct (os_path_isfile os _); [apply sends_more_send_head_file|].
  destruct (os_path_isfile os _); [apply sends_more_send_head_file|].
  apply sends_more_list_directory.
Qed.

End Request.

End HeadFacts.


(** ** Further properties: directories *)

Module DirFacts.
Import PyStr PyStrFacts Props http_server.

Section Request.

Variable lib : Library.
Variable os : OS.
Variable now : Z.
Variable d : string.
Variable r : request.
Hypothesis Hversion : request_version r <> "HTTP/0.9".

(** A directory named without its final slash: [send_head] redirects and
    opens nothing. *)
Lemma send_head_redirect (h : handler) :
  headers_buffer h = [] ->
  os_path_isdir os (translate_path lib d (path r)) = true ->
  endswith_char (urlsplit_path lib (path r)) sep = false ->
  send_head lib os now d (server.log_message lib now) r h =
    (Ok None,
     {| headers_buffer := [];
        wfile := wfile h
                 ++ String.concat ""
                      (response_lines lib now 301 "Moved Permanently"
                       ++ [header "Location" (urlunsplit_slash lib (path r));
                           header "Content-Length" "0";
                           crlf]);
        stdout := stdout h ++ [summary_line lib now r 301];
        stderr := stderr h |}).
Proof.
  intros Hb Hdir Hsl. unfold send_head, self_path.
  rewrite Hdir, Hsl. cbn [negb]. unfold bind.
  rewrite (HandlerFacts.send_response_default lib now r 301 "Moved Permanently" _)
    by reflexivity.
  rewrite HandlerFacts.send_response_run by assumption. cbv beta iota.
  rewrite !HandlerFacts.send_header_run by assumption. cbv beta iota.
  rewrite HandlerFacts.end_headers_run by assumption. cbv beta iota.
  cbn [headers_buffer wfile stdout stderr]. rewrite Hb.
  unfold ret. rewrite <- ?app_assoc. reflexivity.
Qed.

(** A directory named with its final slash that holds a file index.html:
    [send_head] serves that file. *)
Lemma send_head_index (h : handler) :
  os_path_isdir os (translate_path lib d (path r)) = true ->
  endswith_char (urlsplit_path lib (path r)) sep = true ->
  os_path_isfile os
    (posixpath.join (translate_path lib d (path r)) "index.html") = true ->
  send_head lib os now d (server.log_message lib now) r h =
  send_head_file lib os now (server.log_message lib now) r
    (posixpath.join (translate_path lib d (path r)) "index.html") h.
Proof.
  intros Hdir Hsl Hi. unfold send_head, self_path.
  rewrite Hdir, Hsl. cbn [negb]. now rewrite Hi.
Qed.

(** A directory without index page that can be listed. *)
Lemma send_head_listed (entries : list dirent) (h : handler) :
  headers_buffer h = [] ->
  os_path_isdir os (translate_path lib d (path r)) = true ->
  endswith_char (urlsplit_path lib (path r)) sep = true ->
  os_path_isfile os
    (posixpath.join (translate_path lib d (path r)) "index.html") = false ->
  os_path_isfile os
    (posixpath.join (translate_path lib d (path r)) "index.htm") = false ->
  os_listdir os (translate_path lib d (path r)) = Returns entries ->
  send_head lib os now d (server.log_message lib now) r h =
    (Ok (Some {| data := listing_page lib (path r) entries; read_error := None |}),
     {| headers_buffer := [];
        wfile := wfile h ++ Runs.listing_head lib now (listing_page lib (path r) entries);
        stdout := stdout h ++ [summary_line lib now r 200];
        stderr := stderr h |}).
Proof.
  intros Hb Hdir Hsl Hi1 Hi2 Hl. unfold send_head, self_path.
  rewrite Hdir, Hsl. cbn [negb]. rewrite Hi1, Hi2.
  unfold list_directory, self_path. rewrite Hl. unfold bind.
  rewrite (HandlerFacts.send_response_default lib now r 200 "OK" _) by reflexivity.
  rewrite HandlerFacts.send_response_run by assumption. cbv beta iota.
  rewrite !HandlerFacts.send_header_run by assumption. cbv beta iota.
  rewrite HandlerFacts.end_headers_run by assumption. cbv beta iota.
  cbn [headers_buffer wfile stdout stderr]. rewrite Hb.
  unfold ret, Runs.listing_head. rewrite <- ?app_assoc. reflexivity.
Qed.

End Request.

End DirFacts.

(** X14.  A GET or HEAD request for a directory of the served tree whose
    URL path lacks the final slash is answered 301 with the Location of
    the same URL with the slash and a Content-Length of 0: no content
    follows, one line is printed, and nothing of the directory is read. *)
Theorem X14_directory_without_slash_is_redirected (lib : Library) (os : OS)
    (inv : server.invocation) (now : Z) (r : request) (out err : list string) :
  command r = "GET" \/ command r = "HEAD" ->
  request_version r <> "HTTP/0.9" ->
  os_path_isdir os
    (http_server.translate_path lib (server.DIRECTORY inv) (path r)) = true ->
  endswith_char (urlsplit_path lib (path r)) sep = false ->
  server.Handler lib os inv now r (fresh out err) =
    (Ok tt,
     {| http_server.headers_buffer := [];
        http_server.wfile :=
          String.concat ""
            (response_lines lib now 301 "Moved Permanently"
             ++ [header "Location" (urlunsplit_slash lib (path r));
                 header "Content-Length" "0";
                 crlf]);
        http_server.stdout := (out ++ [summary_line lib now r 301])%list;
        http_server.stderr := err |}).
Proof.
  intros Hc Hv Hdir Hsl. unfold server.Handler.
  destruct Hc as [Hc | Hc].
  - rewrite HandlerFacts.init_get by assumption.
    unfold try_finally, http_server.do_GET, bind.
    rewrite DirFacts.send_head_redirect by (assumption || reflexivity).
    reflexivity.
  - rewrite HandlerFacts.init_head by assumption.
    unfold try_finally, http_server.do_HEAD, bind.
    rewrite DirFacts.send_head_redirect by (assumption || reflexivity).
    reflexivity.
Qed.

Lemma X14_witness :
  server.Handler Sample.lib Sample.os Sample.inv 1500 (Sample.get "/css")
    (fresh [] []) =
    (Ok tt,
     {| http_server.headers_buffer := [];
        http_server.wfile :=
          String.concat ""
            (response_lines Sample.lib 1500 301 "Moved Permanently"
             ++ [header "Location" "/css/"; header "Content-Length" "0"; crlf]);
        http_server.stdout := [summary_line Sample.lib 1500 (Sample.get "/css") 301];
        http_server.stderr := [] |}).
Proof.
  apply (X14_directory_without_slash_is_redirected Sample.lib Sample.os
           Sample.inv 1500 (Sample.get "/css") [] []).
  - left. reflexivity.
  - discriminate.
  - reflexivity.
  - reflexivity.
Defined.





(** ** Further properties: old clients and reloads *)




